(** * Oura Recovery Coach: the recommendation pipeline, embedded and verified

    A shallow embedding of [apps/api/services/ai_coach.py] (prompt
    composition, reply parsing, fallback rules), of the records of
    [apps/api/models.py], of the provider client of
    [apps/api/services/oura_client.py] and of the HTTP handlers of
    [apps/api/main.py], followed by the properties proved about them.

    Python values are modelled as follows.
    - [int] is [Z]; [Optional[int]] is [option Z].
    - [float] is the kernel's binary64 [float]; its comparisons and [abs]
      are the IEEE ones Python uses.
    - [str] is a list of Unicode code points ([Py.str]); indices, slices and
      lengths count code points, as in Python.
    - An exception is a value of [exn]; code that can raise returns a
      [result].
    - [float(s)] and [repr] of a float are the interpreter's: they are the
      two operations of the class [FloatText], and every definition that
      needs them is stated for an arbitrary instance.
    - [str(n)] of an [int] is total (the interpreter's configurable limit
      on the number of digits is not modelled).
    - A decoded JSON body is a [Json.t]; the validation of the pydantic
      models is the class [Pydantic], and what the proofs use of it is
      stated as [PydanticLaws].
    - The provider's answer to a request is a parameter (a [Transport]);
      the requests made are recorded, in order.
    - [os.environ] is a function from names to values, and each module
      global is passed in and returned. *)

From Stdlib Require Import List ZArith NArith Bool Lia String Ascii.
From Stdlib Require Import PrimFloat SpecFloat FloatOps FloatAxioms.
From Stdlib Require Import Numbers.DecimalString.
Import ListNotations.

Set Warnings "-inexact-float".
Open Scope Z_scope.

(* ================================================================== *)
(** ** Python strings *)
(* ================================================================== *)

Module Py.

(** A character is its code point. *)
Definition char := N.
Definition str := list char.

(** An ASCII literal as a Python string. *)
Definition lit (s : string) : str :=
  map N_of_ascii (list_ascii_of_string s).

Definition str_eq_dec : forall a b : str, {a = b} + {a <> b} :=
  list_eq_dec N.eq_dec.

(** [bool(s)]: a string is true when it is not empty. *)
Definition truthy (s : str) : bool :=
  match s with [] => false | _ :: _ => true end.

(** [s.startswith(p)]. *)
Fixpoint startswith (p s : str) : bool :=
  match p, s with
  | [], _ => true
  | _ :: _, [] => false
  | a :: p', b :: s' => N.eqb a b && startswith p' s'
  end.

(** [sub in s]. *)
Fixpoint contains (sub s : str) : bool :=
  match s with
  | [] => startswith sub []
  | _ :: t => startswith sub s || contains sub t
  end.

(** Left-to-right search in [s], whose first character has index [i];
    [-1] when [sub] does not occur. *)
Fixpoint find_from (sub s : str) (i : Z) : Z :=
  match s with
  | [] => if startswith sub [] then i else -1
  | _ :: t => if startswith sub s then i else find_from sub t (i + 1)
  end.

(** [s.find(sub, start)]. *)
Definition find (s sub : str) (start : Z) : Z :=
  let n := Z.of_nat (List.length s) in
  let st := if start <? 0 then Z.max 0 (start + n) else start in
  if n <? st then -1 else find_from sub (skipn (Z.to_nat st) s) st.

(** A slice bound, as Python normalises it: a negative bound counts from
    the end, and every bound is clamped to [0, len]. *)
Definition slice_index (n i : Z) : Z :=
  if i <? 0 then Z.max 0 (i + n) else Z.min i n.

(** [s[lo:hi]]. *)
Definition slice (s : str) (lo hi : Z) : str :=
  let n := Z.of_nat (List.length s) in
  let lo' := slice_index n lo in
  let hi' := slice_index n hi in
  firstn (Z.to_nat (hi' - lo')) (skipn (Z.to_nat lo') s).

(** [s.split(sep)] for a one-character separator. *)
Fixpoint split (sep : char) (s : str) : list str :=
  match s with
  | [] => [[]]
  | c :: t =>
      if N.eqb c sep then [] :: split sep t
      else match split sep t with
           | l :: ls => (c :: l) :: ls
           | [] => [[c]]
           end
  end.

(** [s.split(sep, 1)] for a one-character separator. *)
Fixpoint split_once (sep : char) (s : str) : list str :=
  match s with
  | [] => [[]]
  | c :: t =>
      if N.eqb c sep then [[]; t]
      else match split_once sep t with
           | l :: ls => (c :: l) :: ls
           | [] => [[c]]
           end
  end.

(** [str.isspace] on one character: the Unicode white space. *)
Definition isspace (c : char) : bool :=
  (((9 <=? c) && (c <=? 13)) || ((28 <=? c) && (c <=? 32))
   || (c =? 133) || (c =? 160) || (c =? 5760)
   || ((8192 <=? c) && (c <=? 8202))
   || (c =? 8232) || (c =? 8233) || (c =? 8239) || (c =? 8287)
   || (c =? 12288))%N.

Fixpoint lstrip_by (p : char -> bool) (s : str) : str :=
  match s with
  | [] => []
  | c :: t => if p c then lstrip_by p t else s
  end.

Definition rstrip_by (p : char -> bool) (s : str) : str :=
  rev (lstrip_by p (rev s)).

Definition strip_by (p : char -> bool) (s : str) : str :=
  rstrip_by p (lstrip_by p s).

(** [s.strip()]. *)
Definition strip : str -> str := strip_by isspace.

(** [s.strip(chars)]. *)
Definition strip_chars (chars : str) : str -> str :=
  strip_by (fun c => existsb (N.eqb c) chars).

(** [sep.join(parts)]. *)
Fixpoint join (sep : str) (parts : list str) : str :=
  match parts with
  | [] => []
  | p :: rest =>
      match rest with
      | [] => p
      | _ :: _ => p ++ sep ++ join sep rest
      end
  end.

(** [str(n)] for an [int]. *)
Definition str_of_int (n : Z) : str :=
  lit (NilZero.string_of_int (Z.to_int n)).

(** [str(x)] for an [Optional[int]]. *)
Definition str_of_opt_int (x : option Z) : str :=
  match x with
  | Some n => str_of_int n
  | None => lit "None"
  end.

(** Digits grouped by three with commas, from the right: [rdigits] is
    the number's digits, the last one first. *)
Fixpoint group3 (fuel : nat) (rdigits : str) : str :=
  match fuel, rdigits with
  | S k, a :: b :: c :: ((_ :: _) as rest) =>
      a :: b :: c :: 44%N :: group3 k rest
  | _, _ => rdigits
  end.

(** [format(n, ",")] for an [int]. *)
Definition str_of_int_commas (n : Z) : str :=
  let digits := str_of_int (Z.abs n) in
  let grouped := rev (group3 (List.length digits) (rev digits)) in
  if n <? 0 then 45%N :: grouped else grouped.

End Py.

(* ================================================================== *)
(** ** Exceptions and fallible results *)
(* ================================================================== *)

(** The exceptions that the modelled code raises or handles. *)
Inductive exn : Type :=
| ZeroDivisionError
| OverflowError
| IndexError
| APIError (msg : Py.str)        (* anthropic.APIError *)
| OtherException (msg : Py.str)  (* any other Exception of the client *)
| AICoachError (msg : Py.str)
| OuraAPIError (msg : Py.str).

(** [str(e)]. *)
Definition exn_str (e : exn) : Py.str :=
  match e with
  | ZeroDivisionError => Py.lit "float division by zero"
  | OverflowError => Py.lit "integer division result too large for a float"
  | IndexError => Py.lit "list index out of range"
  | APIError m | OtherException m | AICoachError m | OuraAPIError m => m
  end.

Inductive result (A : Type) : Type :=
| Ok (a : A)
| Raise (e : exn).
Arguments Ok {A} a.
Arguments Raise {A} e.

Definition bind {A B} (r : result A) (k : A -> result B) : result B :=
  match r with
  | Ok a => k a
  | Raise e => Raise e
  end.

Notation "x <- c ;; k" := (bind c (fun x => k))
  (at level 61, c at next level, right associativity).
Notation "' pat <- c ;; k" :=
  (bind c (fun x => match x with pat => k end))
  (at level 61, pat pattern, c at next level, right associativity).

(** [try: body  except Exception: handler]. *)
Definition try_except {A} (body : result A) (handler : exn -> A) : A :=
  match body with
  | Ok a => a
  | Raise e => handler e
  end.

(** [xs[i]] on a list: [IndexError] out of range. *)
Definition index {A} (xs : list A) (i : nat) : result A :=
  match nth_error xs i with
  | Some x => Ok x
  | None => Raise IndexError
  end.

(* ================================================================== *)
(** ** Python floats *)
(* ================================================================== *)

Module PyFloat.

(** An [int] as an unrounded binary number. *)
Definition Z2SF (z : Z) : spec_float :=
  match z with
  | Z0 => S754_zero false
  | Zpos p => S754_finite false p 0
  | Zneg p => S754_finite true p 0
  end.

(** [a / b] on two [int]s: the correctly rounded quotient. *)
Definition int_truediv (a b : Z) : result float :=
  if b =? 0 then Raise ZeroDivisionError
  else match SFdiv prec emax (Z2SF a) (Z2SF b) with
       | S754_infinity _ => Raise OverflowError
       | q => Ok (SF2Prim q)
       end.

(** [x / y] on two [float]s. *)
Definition float_truediv (x y : float) : result float :=
  if PrimFloat.eqb y 0 then Raise ZeroDivisionError
  else Ok (PrimFloat.div x y).

(** [bool(x)]: a float is true when it is not zero. *)
Definition truthy (x : float) : bool := negb (PrimFloat.eqb x 0).

(** [num / den] rounded to the nearest integer, ties to even. *)
Definition round_half_even (num den : Z) : Z :=
  let q := num / den in
  let r := num mod den in
  if (den <? 2 * r) || ((den =? 2 * r) && Z.odd q) then q + 1 else q.

(** The decimal text of [q / 10^digits], [q >= 0]. *)
Definition fixed_digits (digits : nat) (q : Z) : Py.str :=
  let ds := Py.str_of_int q in
  let padded := repeat 48%N (S digits - List.length ds) ++ ds in
  let k := (List.length padded - digits)%nat in
  match digits with
  | O => padded
  | S _ => firstn k padded ++ 46%N :: skipn k padded
  end.

(** [format(x, ".<digits>f")]. *)
Definition format_fixed (digits : nat) (x : float) : Py.str :=
  let sign (s : bool) : Py.str := if s then [45%N] else [] in
  match Prim2SF x with
  | S754_nan => Py.lit "nan"
  | S754_infinity s => sign s ++ Py.lit "inf"
  | S754_zero s => sign s ++ fixed_digits digits 0
  | S754_finite s m e =>
      let scale := 10 ^ Z.of_nat digits in
      let q := if e <? 0
               then round_half_even (Zpos m * scale) (2 ^ (- e))
               else Zpos m * 2 ^ e * scale in
      sign s ++ fixed_digits digits q
  end.

End PyFloat.

(** What the interpreter provides for the text of floats. *)
Class FloatText : Type := {
  (** [float(s)]; [None] stands for [ValueError]. *)
  float_of_str : Py.str -> option float;
  (** [str(x)], which for a float is [repr(x)]. *)
  float_repr : float -> Py.str
}.

(** [str(x)] for an [Optional[float]]. *)
Definition str_of_opt_float `{FloatText} (x : option float) : Py.str :=
  match x with
  | Some f => float_repr f
  | None => Py.lit "None"
  end.

(* ================================================================== *)
(** ** models.py *)
(* ================================================================== *)

(** [datetime.date]. *)
Record date : Type := {
  year : Z;
  month : Z;
  day : Z
}.

(** A decimal padded with zeros on the left up to [width] characters. *)
Definition zero_padded (width : nat) (n : Z) : Py.str :=
  let ds := Py.str_of_int n in
  repeat 48%N (width - List.length ds) ++ ds.

(** [d.isoformat()], which is also [str(d)]. *)
Definition isoformat (d : date) : Py.str :=
  zero_padded 4 (year d) ++ 45%N :: zero_padded 2 (month d)
    ++ 45%N :: zero_padded 2 (day d).

Record SleepData : Type := {
  sleep_date : date;
  total_sleep_duration : Z;
  deep_sleep_duration : Z;
  rem_sleep_duration : Z;
  light_sleep_duration : Z;
  sleep_score : Z;
  restfulness : option Z;
  sleep_efficiency : option Z
}.

Record ReadinessData : Type := {
  readiness_date : date;
  readiness_score : Z;
  temperature_deviation : option float;
  resting_heart_rate : option Z;
  hrv_balance : option Z;
  recovery_index : option Z;
  previous_night_score : option Z;
  sleep_balance : option Z;
  activity_balance : option Z
}.

Record ActivityData : Type := {
  activity_date : date;
  activity_score : Z;
  steps : Z;
  total_calories : Z;
  active_calories : Z;
  target_calories : Z;
  training_frequency : option Z;
  training_volume : option Z;
  recovery_time : option Z
}.

Record RecoveryRecommendation : Type := {
  rec_date : date;
  recommendation_type : Py.str;
  message : Py.str;
  confidence : float;
  key_factors : list Py.str
}.

(* ================================================================== *)
(** ** services/ai_coach.py *)
(* ================================================================== *)

Definition NEWLINE : Py.char := 10%N.
Definition COLON : Py.char := 58%N.
Definition DASH : Py.str := [45%N].
Definition DEGREE : Py.str := [176%N].
Definition BULLET : Py.str := [8226%N; 32%N].

(** The five markers of the reply template. *)
Definition RECOMMENDATION_TYPE_marker : Py.str :=
  Eval cbv in Py.lit "RECOMMENDATION_TYPE:".
Definition KEY_FACTORS_marker : Py.str := Eval cbv in Py.lit "KEY_FACTORS:".
Definition MESSAGE_marker : Py.str := Eval cbv in Py.lit "MESSAGE:".
Definition SPECIFIC_TIPS_marker : Py.str :=
  Eval cbv in Py.lit "SPECIFIC_TIPS:".
Definition CONFIDENCE_marker : Py.str := Eval cbv in Py.lit "CONFIDENCE:".

(** The reply of [client.messages.create]: a list of content blocks. *)
Record ContentBlock : Type := { text : Py.str }.
Record Message : Type := { content : list ContentBlock }.

(** [_determine_recommendation_type]. *)
Definition determine_recommendation_type (readiness_data : ReadinessData)
  : Py.str :=
  let score := readiness_score readiness_data in
  if score >=? 85 then Py.lit "peak_performance"
  else if score >=? 70 then Py.lit "training_ready"
  else if score >=? 55 then Py.lit "moderate_activity"
  else if score >=? 40 then Py.lit "light_recovery"
  else Py.lit "rest_day".

(** The loop of [_parse_ai_response] over the lines of the reply that
    collects the key factors; returning the list is the loop's [break]. *)
Fixpoint key_factors_loop (lines : list Py.str) (in_factors : bool)
    (key_factors : list Py.str) : list Py.str :=
  match lines with
  | [] => key_factors
  | line :: rest =>
      if Py.contains KEY_FACTORS_marker line then
        key_factors_loop rest true key_factors
      else if in_factors && Py.startswith DASH (Py.strip line) then
        key_factors_loop rest in_factors
          (key_factors ++ [Py.strip (Py.strip_chars (Py.lit "- ") line)])
      else if in_factors && Py.truthy (Py.strip line)
                && negb (Py.startswith DASH (Py.strip line)) then
        key_factors
      else key_factors_loop rest in_factors key_factors
  end.

(** The loop that collects the specific tips. *)
Fixpoint specific_tips_loop (lines : list Py.str) (in_tips : bool)
    (specific_tips : list Py.str) : list Py.str :=
  match lines with
  | [] => specific_tips
  | line :: rest =>
      if Py.contains SPECIFIC_TIPS_marker line then
        specific_tips_loop rest true specific_tips
      else if in_tips && Py.startswith DASH (Py.strip line) then
        specific_tips_loop rest in_tips
          (specific_tips ++ [Py.strip (Py.strip_chars (Py.lit "- ") line)])
      else if in_tips && Py.contains CONFIDENCE_marker line then
        specific_tips
      else specific_tips_loop rest in_tips specific_tips
  end.

(** "Extract recommendation type". *)
Definition extract_rec_type (response_text : Py.str) : result Py.str :=
  if Py.contains RECOMMENDATION_TYPE_marker response_text then
    type_line <- index (filter (Py.contains RECOMMENDATION_TYPE_marker)
                          (Py.split NEWLINE response_text)) 0 ;;
    after <- index (Py.split_once COLON type_line) 1 ;;
    Ok (Py.strip after)
  else Ok (Py.lit "moderate_activity").

(** "Extract key factors". *)
Definition extract_key_factors (response_text : Py.str) : list Py.str :=
  if Py.contains KEY_FACTORS_marker response_text then
    key_factors_loop (Py.split NEWLINE response_text) false []
  else [].

(** "Extract main message". *)
Definition extract_message (response_text : Py.str) : Py.str :=
  if Py.contains MESSAGE_marker response_text then
    let message_start :=
      Py.find response_text MESSAGE_marker 0
      + Z.of_nat (List.length MESSAGE_marker) in
    let message_end :=
      Py.find response_text SPECIFIC_TIPS_marker message_start in
    let message_end :=
      if message_end =? -1
      then Py.find response_text CONFIDENCE_marker message_start
      else message_end in
    Py.strip (Py.slice response_text message_start message_end)
  else [].

(** "Extract specific tips". *)
Definition extract_specific_tips (response_text : Py.str) : list Py.str :=
  if Py.contains SPECIFIC_TIPS_marker response_text then
    specific_tips_loop (Py.split NEWLINE response_text) false []
  else [].

(** "Combine message and tips". *)
Definition combine_message (message : Py.str) (specific_tips : list Py.str)
  : Py.str :=
  match specific_tips with
  | [] => message
  | _ :: _ =>
      message ++ Py.lit "

Specific Tips:
" ++ Py.join [NEWLINE] (map (fun tip => BULLET ++ tip) specific_tips)
  end.

Section WithFloatText.
Context `{FloatText}.

(** "Extract confidence". *)
Definition extract_confidence (response_text : Py.str) : result float :=
  if Py.contains CONFIDENCE_marker response_text then
    conf_line <- index (filter (Py.contains CONFIDENCE_marker)
                          (Py.split NEWLINE response_text)) 0 ;;
    after <- index (Py.split_once COLON conf_line) 1 ;;
    let conf_str := Py.strip after in
    Ok (match float_of_str conf_str with
        | Some x => x
        | None => 0.8%float
        end)
  else Ok 0.8%float.

(** [_generate_key_factors]. *)
Definition generate_key_factors (sleep_data : SleepData)
    (readiness_data : ReadinessData) (activity_data : ActivityData)
  : list Py.str :=
  let factors : list Py.str := [] in
  (* Sleep quality *)
  let factors :=
    if sleep_score sleep_data >=? 85 then
      factors ++ [Py.lit "Excellent sleep quality ("
                  ++ Py.str_of_int (sleep_score sleep_data)
                  ++ Py.lit "/100)"]
    else if sleep_score sleep_data <? 70 then
      factors ++ [Py.lit "Poor sleep quality ("
                  ++ Py.str_of_int (sleep_score sleep_data)
                  ++ Py.lit "/100)"]
    else factors in
  (* Readiness *)
  let factors :=
    if readiness_score readiness_data >=? 85 then
      factors ++ [Py.lit "High readiness score ("
                  ++ Py.str_of_int (readiness_score readiness_data)
                  ++ Py.lit "/100)"]
    else if readiness_score readiness_data <? 70 then
      factors ++ [Py.lit "Low readiness score ("
                  ++ Py.str_of_int (readiness_score readiness_data)
                  ++ Py.lit "/100)"]
    else factors in
  (* Temperature *)
  let factors :=
    match temperature_deviation readiness_data with
    | Some t =>
        if PyFloat.truthy t && PrimFloat.ltb 0.5 (PrimFloat.abs t) then
          factors ++ [Py.lit "Elevated temperature deviation ("
                      ++ float_repr t ++ DEGREE ++ Py.lit "C)"]
        else factors
    | None => factors
    end in
  (* HRV *)
  let factors :=
    match hrv_balance readiness_data with
    | Some h =>
        if negb (h =? 0) && (h <? 60) then
          factors ++ [Py.lit "Low HRV balance ("
                      ++ Py.str_of_int h ++ Py.lit "/100)"]
        else factors
    | None => factors
    end in
  (* Activity *)
  let factors :=
    if steps activity_data <? 5000 then
      factors ++ [Py.lit "Low activity yesterday ("
                  ++ Py.str_of_int (steps activity_data)
                  ++ Py.lit " steps)"]
    else factors in
  firstn 5 factors.

(** The body of the [try] of [_parse_ai_response]. *)
Definition parse_try (response_text : Py.str) (target_date : date)
    (sleep_data : SleepData) (readiness_data : ReadinessData)
    (activity_data : ActivityData) : result RecoveryRecommendation :=
  rec_type <- extract_rec_type response_text ;;
  let key_factors := extract_key_factors response_text in
  let message := extract_message response_text in
  let specific_tips := extract_specific_tips response_text in
  let full_message := combine_message message specific_tips in
  confidence <- extract_confidence response_text ;;
  let key_factors :=
    match key_factors with
    | [] => generate_key_factors sleep_data readiness_data activity_data
    | _ :: _ => key_factors
    end in
  Ok {| rec_date := target_date;
        recommendation_type := rec_type;
        message := full_message;
        confidence := confidence;
        key_factors := key_factors |}.

(** The [except Exception] handler of [_parse_ai_response]. *)
Definition parse_except (response_text : Py.str) (target_date : date)
    (sleep_data : SleepData) (readiness_data : ReadinessData)
    (activity_data : ActivityData) (e : exn) : RecoveryRecommendation :=
  {| rec_date := target_date;
     recommendation_type := determine_recommendation_type readiness_data;
     message := Py.slice response_text 0 500;
     confidence := 0.7%float;
     key_factors :=
       generate_key_factors sleep_data readiness_data activity_data |}.

(** [_parse_ai_response]. *)
Definition parse_ai_response (response_text : Py.str) (target_date : date)
    (sleep_data : SleepData) (readiness_data : ReadinessData)
    (activity_data : ActivityData) : RecoveryRecommendation :=
  try_except
    (parse_try response_text target_date sleep_data readiness_data
       activity_data)
    (parse_except response_text target_date sleep_data readiness_data
       activity_data).

End WithFloatText.

Section Coach.
Context `{FloatText}.

(** [(x / total) * 100], the share of a sleep stage in per cent. *)
Definition percent_of (x total : float) : result float :=
  q <- PyFloat.float_truediv x total ;;
  Ok (PrimFloat.mul q 100).

(** [_build_analysis_prompt]. *)
Definition build_analysis_prompt (sleep_data : SleepData)
    (readiness_data : ReadinessData) (activity_data : ActivityData)
  : result Py.str :=
  (* Convert durations from seconds to hours for readability *)
  total_sleep_hrs <-
    PyFloat.int_truediv (total_sleep_duration sleep_data) 3600 ;;
  deep_sleep_hrs <-
    PyFloat.int_truediv (deep_sleep_duration sleep_data) 3600 ;;
  rem_sleep_hrs <-
    PyFloat.int_truediv (rem_sleep_duration sleep_data) 3600 ;;
  light_sleep_hrs <-
    PyFloat.int_truediv (light_sleep_duration sleep_data) 3600 ;;
  (* the replacement fields of the f-string, left to right *)
  deep_pct <- percent_of deep_sleep_hrs total_sleep_hrs ;;
  rem_pct <- percent_of rem_sleep_hrs total_sleep_hrs ;;
  light_pct <- percent_of light_sleep_hrs total_sleep_hrs ;;
  Ok (
    Py.lit "You are an expert recovery coach and sports scientist analyzing health data from an Oura Ring.

**Today's Date:** "
    ++ isoformat (sleep_date sleep_data)
    ++ Py.lit "

**SLEEP METRICS:**
- Sleep Score: "
    ++ Py.str_of_int (sleep_score sleep_data)
    ++ Py.lit "/100
- Total Sleep: "
    ++ PyFloat.format_fixed 1 total_sleep_hrs
    ++ Py.lit " hours
- Deep Sleep: "
    ++ PyFloat.format_fixed 1 deep_sleep_hrs
    ++ Py.lit " hours ("
    ++ PyFloat.format_fixed 0 deep_pct
    ++ Py.lit "% of total)
- REM Sleep: "
    ++ PyFloat.format_fixed 1 rem_sleep_hrs
    ++ Py.lit " hours ("
    ++ PyFloat.format_fixed 0 rem_pct
    ++ Py.lit "% of total)
- Light Sleep: "
    ++ PyFloat.format_fixed 1 light_sleep_hrs
    ++ Py.lit " hours ("
    ++ PyFloat.format_fixed 0 light_pct
    ++ Py.lit "% of total)
- Sleep Efficiency: "
    ++ Py.str_of_opt_int (sleep_efficiency sleep_data)
    ++ Py.lit "%
- Restfulness: "
    ++ Py.str_of_opt_int (restfulness sleep_data)
    ++ Py.lit "/100

**READINESS METRICS:**
- Readiness Score: "
    ++ Py.str_of_int (readiness_score readiness_data)
    ++ Py.lit "/100
- Resting Heart Rate: "
    ++ Py.str_of_opt_int (resting_heart_rate readiness_data)
    ++ Py.lit " bpm
- HRV Balance: "
    ++ Py.str_of_opt_int (hrv_balance readiness_data)
    ++ Py.lit "/100
- Temperature Deviation: "
    ++ str_of_opt_float (temperature_deviation readiness_data)
    ++ DEGREE
    ++ Py.lit "C from baseline
- Recovery Index: "
    ++ Py.str_of_opt_int (recovery_index readiness_data)
    ++ Py.lit "/100
- Sleep Balance: "
    ++ Py.str_of_opt_int (sleep_balance readiness_data)
    ++ Py.lit "/100
- Activity Balance: "
    ++ Py.str_of_opt_int (activity_balance readiness_data)
    ++ Py.lit "/100

**ACTIVITY METRICS (Previous Day):**
- Activity Score: "
    ++ Py.str_of_int (activity_score activity_data)
    ++ Py.lit "/100
- Steps: "
    ++ Py.str_of_int_commas (steps activity_data)
    ++ Py.lit "
- Total Calories: "
    ++ Py.str_of_int (total_calories activity_data)
    ++ Py.lit "
- Active Calories: "
    ++ Py.str_of_int (active_calories activity_data)
    ++ Py.lit "
- Training Volume: "
    ++ Py.str_of_opt_int (training_volume activity_data)
    ++ Py.lit " minutes

**CONTEXT & GUIDELINES:**
- Deep sleep optimal: 1.5-2 hours (15-25% of total sleep)
- REM sleep optimal: 1.5-2.5 hours (20-25% of total sleep)
- Resting HR baseline: 55-65 bpm (varies by individual)
- Temperature deviation >0.5"
    ++ DEGREE
    ++ Py.lit "C may indicate stress, illness, or overtraining
- Readiness <70 = prioritize recovery, 70-85 = light-moderate activity, >85 = ready for hard training

**YOUR TASK:**
Analyze this data and provide a recovery recommendation. Format your response EXACTLY as follows:

RECOMMENDATION_TYPE: [choose ONE: rest_day, light_recovery, moderate_activity, training_ready, peak_performance]

KEY_FACTORS:
- [Factor 1: brief observation about the data]
- [Factor 2: another key insight]
- [Factor 3: another key insight]

MESSAGE:
[2-3 sentences with your main recommendation for today. Be specific and actionable. Mention the most important metrics.]

SPECIFIC_TIPS:
- [Specific tip #1]
- [Specific tip #2]
- [Specific tip #3]
- [Specific tip #4]

CONFIDENCE: [0.0-1.0, how confident are you in this recommendation based on data quality]

Be direct, specific, and actionable. Focus on what matters most for today's recovery.").

(** The generative client: [client.messages.create(model, max_tokens,
    prompt)] returns a message or raises. *)
Definition Client : Type := Py.str -> Z -> Py.str -> result Message.

(** [analyze_recovery]. The prompt is built before the [try]; the call,
    the access to the first content block and the parsing are inside it. *)
Definition analyze_recovery (client : Client) (sleep_data : SleepData)
    (readiness_data : ReadinessData) (activity_data : ActivityData)
  : result RecoveryRecommendation :=
  prompt <- build_analysis_prompt sleep_data readiness_data activity_data ;;
  let body :=
    message <- client (Py.lit "claude-3-haiku-20240307") 1024 prompt ;;
    block <- index (content message) 0 ;;
    let response_text := text block in
    Ok (parse_ai_response response_text (sleep_date sleep_data) sleep_data
          readiness_data activity_data) in
  match body with
  | Ok recommendation => Ok recommendation
  | Raise (APIError m) =>
      Raise (AICoachError (Py.lit "Claude API error: " ++ m))
  | Raise e =>
      Raise (AICoachError
               (Py.lit "Error generating recommendation: " ++ exn_str e))
  end.

End Coach.

(* ================================================================== *)
(** ** services/oura_client.py and main.py *)
(* ================================================================== *)

(** The provider client, seen from the handlers: three fetches, each
    returning a record or raising. *)
Module OuraClient.
Record t : Type := {
  get_sleep_data : date -> result SleepData;
  get_readiness_data : date -> result ReadinessData;
  get_activity_data : date -> result ActivityData
}.
End OuraClient.

(** What a handler answers: the response body, or [HTTPException]. *)
Inductive http (A : Type) : Type :=
| Response (body : A)
| HTTPException (status_code : Z) (detail : Py.str).
Arguments Response {A} body.
Arguments HTTPException {A} status_code detail.

Definition status_of {A} (r : http A) : Z :=
  match r with
  | Response _ => 200
  | HTTPException code _ => code
  end.

Module Main.
Section Handlers.
Context `{FloatText}.

(** [date.fromisoformat]; [None] stands for [ValueError]. *)
Variable fromisoformat : Py.str -> option date.
(** [get_oura_client()], which raises when no token is configured. *)
Variable get_oura_client : result OuraClient.t.
(** [get_recovery_coach()], likewise; the coach is its client. *)
Variable get_recovery_coach : result Client.

Definition invalid_date {A} : http A :=
  HTTPException 400 (Py.lit "Invalid date format. Use YYYY-MM-DD").

(** [GET /api/oura/sleep/{date_str}]. *)
Definition get_sleep_data (date_str : Py.str) : http SleepData :=
  match fromisoformat date_str with
  | None => invalid_date
  | Some query_date =>
      match (oura_client <- get_oura_client ;;
             OuraClient.get_sleep_data oura_client query_date) with
      | Ok sleep_data => Response sleep_data
      | Raise (OuraAPIError m) =>
          HTTPException 503 (Py.lit "Oura API error: " ++ m)
      | Raise e =>
          HTTPException 500 (Py.lit "Internal error: " ++ exn_str e)
      end
  end.

(** [GET /api/oura/readiness/{date_str}]. *)
Definition get_readiness_data (date_str : Py.str) : http ReadinessData :=
  match fromisoformat date_str with
  | None => invalid_date
  | Some query_date =>
      match (oura_client <- get_oura_client ;;
             OuraClient.get_readiness_data oura_client query_date) with
      | Ok readiness_data => Response readiness_data
      | Raise (OuraAPIError m) =>
          HTTPException 509 (Py.lit "Oura API error: " ++ m)
      | Raise e =>
          HTTPException 500 (Py.lit "Internal error: " ++ exn_str e)
      end
  end.

(** [GET /api/oura/activity/{date_str}]. *)
Definition get_activity_data (date_str : Py.str) : http ActivityData :=
  match fromisoformat date_str with
  | None => invalid_date
  | Some query_date =>
      match (oura_client <- get_oura_client ;;
             OuraClient.get_activity_data oura_client query_date) with
      | Ok activity_data => Response activity_data
      | Raise (OuraAPIError m) =>
          HTTPException 503 (Py.lit "Oura API error: " ++ m)
      | Raise e =>
          HTTPException 500 (Py.lit "Internal error: " ++ exn_str e)
      end
  end.

(** [POST /api/recommendations/{date_str}]. The outcome of
    [get_oura_client()] and of [asyncio.gather] over the three fetches is
    the argument [gathered]: the three records, or the exception that
    reaches the handler. *)
Definition generate_recommendation
    (gathered : date ->
                result (SleepData * ReadinessData * ActivityData))
    (date_str : Py.str) : http RecoveryRecommendation :=
  match fromisoformat date_str with
  | None => invalid_date
  | Some query_date =>
      match ('(sleep_data, readiness_data, activity_data) <-
               gathered query_date ;;
             coach <- get_recovery_coach ;;
             analyze_recovery coach sleep_data readiness_data
               activity_data) with
      | Ok recommendation => Response recommendation
      | Raise (OuraAPIError m) =>
          HTTPException 503 (Py.lit "Oura API error: " ++ m)
      | Raise (AICoachError m) =>
          HTTPException 503 (Py.lit "AI Coach error: " ++ m)
      | Raise e =>
          HTTPException 500 (Py.lit "Internal error: " ++ exn_str e)
      end
  end.

End Handlers.
End Main.

(* ================================================================== *)
(** ** An instance of [FloatText] for the closed examples *)
(* ================================================================== *)

(** Plain decimals ([-12.5], [0.85], [7]) are read by correctly rounding
    the quotient of two integers, as [float] does, and a float is printed
    with the fewest decimals that read back as the same float, as [repr]
    does for magnitudes it prints without an exponent.  Exponents, [inf],
    [nan] and digit separators are outside this instance: the examples
    below stay clear of them, and every general theorem is stated for an
    arbitrary instance. *)
Module PlainDecimal.

Definition is_digit (c : Py.char) : bool := ((48 <=? c) && (c <=? 57))%N.

(** The value of a run of digits, [None] when another character occurs. *)
Fixpoint digits_value (acc : Z) (s : Py.str) : option Z :=
  match s with
  | [] => Some acc
  | c :: t =>
      if is_digit c then digits_value (10 * acc + Z.of_N (c - 48)) t
      else None
  end.

Definition unsigned_of_str (s : Py.str) : option float :=
  match Py.split_once 46%N s with
  | [whole] =>
      match whole, digits_value 0 whole with
      | _ :: _, Some n => Some (SF2Prim (PyFloat.Z2SF n))
      | _, _ => None
      end
  | [whole; frac] =>
      match whole ++ frac, digits_value 0 (whole ++ frac) with
      | _ :: _, Some n =>
          Some (SF2Prim (SFdiv prec emax (PyFloat.Z2SF n)
                           (PyFloat.Z2SF (10 ^ Z.of_nat (List.length frac)))))
      | _, _ => None
      end
  | _ => None
  end.

Definition of_str (s : Py.str) : option float :=
  match s with
  | 45%N :: t => option_map PrimFloat.opp (unsigned_of_str t)
  | 43%N :: t => unsigned_of_str t
  | _ => unsigned_of_str s
  end.

Definition reads_back (t : Py.str) (x : float) : bool :=
  match of_str t with
  | Some y => PrimFloat.eqb x y
  | None => false
  end.

Fixpoint shortest (fuel decimals : nat) (x : float) : Py.str :=
  let t := PyFloat.format_fixed decimals x in
  match fuel with
  | O => t
  | S fuel' => if reads_back t x then t else shortest fuel' (S decimals) x
  end.

Definition repr (x : float) : Py.str :=
  match Prim2SF x with
  | S754_nan | S754_infinity _ => PyFloat.format_fixed 1 x
  | _ => shortest 30 1 x
  end.

#[global] Instance float_text : FloatText :=
  {| float_of_str := of_str; float_repr := repr |}.

End PlainDecimal.

(* ================================================================== *)
(** ** The specification's side *)
(* ================================================================== *)

(** The readiness-threshold table, as the specification lists it: the
    first row whose threshold the score reaches gives the type, and a
    score below every threshold is a rest day. *)
Definition threshold_table : list (Z * Py.str) :=
  [ (85, Py.lit "peak_performance");
    (70, Py.lit "training_ready");
    (55, Py.lit "moderate_activity");
    (40, Py.lit "light_recovery") ].

Fixpoint table_lookup (table : list (Z * Py.str)) (score : Z) : Py.str :=
  match table with
  | [] => Py.lit "rest_day"
  | (threshold, type) :: rest =>
      if threshold <=? score then type else table_lookup rest score
  end.

(** A reply that contains none of the five markers. *)
Definition no_marker (response_text : Py.str) : Prop :=
  Py.contains RECOMMENDATION_TYPE_marker response_text = false
  /\ Py.contains KEY_FACTORS_marker response_text = false
  /\ Py.contains MESSAGE_marker response_text = false
  /\ Py.contains SPECIFIC_TIPS_marker response_text = false
  /\ Py.contains CONFIDENCE_marker response_text = false.

(** A line that begins with a dash once trimmed, and a blank line. *)
Definition is_dash_line (line : Py.str) : bool :=
  Py.startswith DASH (Py.strip line).
Definition is_blank_line (line : Py.str) : bool :=
  negb (Py.truthy (Py.strip line)).

(** What the parser keeps of a collected line. *)
Definition bullet_text (line : Py.str) : Py.str :=
  Py.strip (Py.strip_chars (Py.lit "- ") line).

(** The lines after the first line that contains [marker]. *)
Fixpoint after_marker (marker : Py.str) (lines : list Py.str)
  : list Py.str :=
  match lines with
  | [] => []
  | line :: rest =>
      if Py.contains marker line then rest else after_marker marker rest
  end.

(** A bulleted section in the specification's words: the dash lines after
    the marker line, up to the first line that is neither blank nor a
    dash line. *)
Fixpoint dash_lines_until_text (lines : list Py.str) : list Py.str :=
  match lines with
  | [] => []
  | line :: rest =>
      if is_dash_line line then line :: dash_lines_until_text rest
      else if is_blank_line line then dash_lines_until_text rest
      else []
  end.

Definition bulleted_section_spec (marker response_text : Py.str)
  : list Py.str :=
  dash_lines_until_text
    (after_marker marker (Py.split NEWLINE response_text)).

(** A bulleted section as the two loops scan it: a line that repeats the
    marker is passed over, a dash line is collected, and a line on which
    [stop] holds ends the section; any other line is passed over. *)
Fixpoint dash_lines_scanned (marker : Py.str) (stop : Py.str -> bool)
    (lines : list Py.str) : list Py.str :=
  match lines with
  | [] => []
  | line :: rest =>
      if Py.contains marker line then dash_lines_scanned marker stop rest
      else if is_dash_line line then
        line :: dash_lines_scanned marker stop rest
      else if stop line then []
      else dash_lines_scanned marker stop rest
  end.

(** [sub] occurs in [s] at offset [i]. *)
Definition occurs_at (sub s : Py.str) (i : nat) : Prop :=
  (i <= List.length s)%nat /\ Py.startswith sub (skipn i s) = true.

(** [i] is the first offset at or after [from] where [sub] occurs. *)
Definition first_at (sub s : Py.str) (from i : nat) : Prop :=
  (from <= i)%nat /\ occurs_at sub s i
  /\ forall j, (from <= j < i)%nat -> ~ occurs_at sub s j.

(** [sub] does not occur at or after [from]. *)
Definition absent_from (sub s : Py.str) (from : nat) : Prop :=
  forall j, (from <= j)%nat -> ~ occurs_at sub s j.

(** The first offset of [sub] in [s], scanning from the left. *)
Fixpoint first_offset (sub s : Py.str) : option nat :=
  match s with
  | [] => if Py.startswith sub [] then Some O else None
  | _ :: t =>
      if Py.startswith sub s then Some O
      else option_map S (first_offset sub t)
  end.

(** The message section in the specification's words: the raw text from
    the end of the [MESSAGE:] marker to whichever of [SPECIFIC_TIPS:] and
    [CONFIDENCE:] comes next, or to the end of the text when neither
    follows. *)
Definition message_section_spec (response_text : Py.str) : Py.str :=
  match first_offset MESSAGE_marker response_text with
  | None => []
  | Some i =>
      let rest := skipn (i + List.length MESSAGE_marker) response_text in
      match first_offset SPECIFIC_TIPS_marker rest,
            first_offset CONFIDENCE_marker rest with
      | Some a, Some b => firstn (Nat.min a b) rest
      | Some a, None => firstn a rest
      | None, Some b => firstn b rest
      | None, None => rest
      end
  end.

(** The message an exception of the call is wrapped in by
    [analyze_recovery]. *)
Definition coach_error_message (e : exn) : Py.str :=
  match e with
  | APIError m => Py.lit "Claude API error: " ++ m
  | _ => Py.lit "Error generating recommendation: " ++ exn_str e
  end.

(** The five rules of the factor synthesis, each giving no or one factor. *)
Section FactorRules.
Context `{FloatText}.

Definition sleep_rule (sleep_data : SleepData) : list Py.str :=
  if sleep_score sleep_data >=? 85 then
    [Py.lit "Excellent sleep quality ("
     ++ Py.str_of_int (sleep_score sleep_data) ++ Py.lit "/100)"]
  else if sleep_score sleep_data <? 70 then
    [Py.lit "Poor sleep quality ("
     ++ Py.str_of_int (sleep_score sleep_data) ++ Py.lit "/100)"]
  else [].

Definition readiness_rule (readiness_data : ReadinessData) : list Py.str :=
  if readiness_score readiness_data >=? 85 then
    [Py.lit "High readiness score ("
     ++ Py.str_of_int (readiness_score readiness_data) ++ Py.lit "/100)"]
  else if readiness_score readiness_data <? 70 then
    [Py.lit "Low readiness score ("
     ++ Py.str_of_int (readiness_score readiness_data) ++ Py.lit "/100)"]
  else [].

(** Present, and more than half a degree away from the baseline. *)
Definition temperature_rule (readiness_data : ReadinessData)
  : list Py.str :=
  match temperature_deviation readiness_data with
  | Some t =>
      if PrimFloat.ltb 0.5 (PrimFloat.abs t) then
        [Py.lit "Elevated temperature deviation ("
         ++ float_repr t ++ DEGREE ++ Py.lit "C)"]
      else []
  | None => []
  end.

(** Present, not zero and below 60: the rule as the source tests it,
    [hrv_balance and hrv_balance < 60]. *)
Definition hrv_rule (readiness_data : ReadinessData) : list Py.str :=
  match hrv_balance readiness_data with
  | Some h =>
      if negb (h =? 0) && (h <? 60) then
        [Py.lit "Low HRV balance (" ++ Py.str_of_int h ++ Py.lit "/100)"]
      else []
  | None => []
  end.

(** Present and below 60, as the specification words the rule. *)
Definition hrv_rule_spec (readiness_data : ReadinessData) : list Py.str :=
  match hrv_balance readiness_data with
  | Some h =>
      if h <? 60 then
        [Py.lit "Low HRV balance (" ++ Py.str_of_int h ++ Py.lit "/100)"]
      else []
  | None => []
  end.

Definition steps_rule (activity_data : ActivityData) : list Py.str :=
  if steps activity_data <? 5000 then
    [Py.lit "Low activity yesterday ("
     ++ Py.str_of_int (steps activity_data) ++ Py.lit " steps)"]
  else [].

(** The synthesis in the specification's words. *)
Definition key_factors_spec (sleep_data : SleepData)
    (readiness_data : ReadinessData) (activity_data : ActivityData)
  : list Py.str :=
  firstn 5 (sleep_rule sleep_data ++ readiness_rule readiness_data
            ++ temperature_rule readiness_data
            ++ hrv_rule_spec readiness_data
            ++ steps_rule activity_data).

End FactorRules.

(* ================================================================== *)
(** ** Inputs of the closed examples *)
(* ================================================================== *)

Module Sample.

Definition today : date := {| year := 2024; month := 1; day := 15 |}.

(** A night of [total] seconds of sleep with the given score. *)
Definition sleep_of (score total : Z) : SleepData :=
  {| sleep_date := today;
     total_sleep_duration := total;
     deep_sleep_duration := total / 5;
     rem_sleep_duration := total / 4;
     light_sleep_duration := total - total / 5 - total / 4;
     sleep_score := score;
     restfulness := None;
     sleep_efficiency := Some 91 |}.

(** A readiness record with the given score and HRV balance, and no
    other contributor. *)
Definition readiness_of (score : Z) (hrv : option Z) : ReadinessData :=
  {| readiness_date := today;
     readiness_score := score;
     temperature_deviation := None;
     resting_heart_rate := None;
     hrv_balance := hrv;
     recovery_index := None;
     previous_night_score := None;
     sleep_balance := None;
     activity_balance := None |}.

Definition activity_of (step_count : Z) : ActivityData :=
  {| activity_date := today;
     activity_score := 70;
     steps := step_count;
     total_calories := 2200;
     active_calories := 300;
     target_calories := 500;
     training_frequency := None;
     training_volume := None;
     recovery_time := None |}.

(** A generative client whose call always raises [e]. *)
Definition failing_client (e : exn) : Client := fun _ _ _ => Raise e.

(** A generative client that always replies with one block of text. *)
Definition replying_client (reply : Py.str) : Client :=
  fun _ _ _ => Ok {| content := [ {| text := reply |} ] |}.

(** A provider client whose readiness, sleep and activity fetches all
    raise the provider error [m]. *)
Definition provider_down (m : Py.str) : OuraClient.t :=
  {| OuraClient.get_sleep_data := fun _ => Raise (OuraAPIError m);
     OuraClient.get_readiness_data := fun _ => Raise (OuraAPIError m);
     OuraClient.get_activity_data := fun _ => Raise (OuraAPIError m) |}.

(** A reply that follows no part of the template. *)
Definition unparseable_reply : Py.str :=
  Py.lit "I am unable to analyse this data.".

(** A reply with six bullets under [KEY_FACTORS:]. *)
Definition six_factor_reply : Py.str := Py.lit "KEY_FACTORS:
- a
- b
- c
- d
- e
- f".

(** A reply whose tips are interrupted by a line of plain text. *)
Definition interrupted_tips_reply : Py.str := Py.lit "SPECIFIC_TIPS:
- Hydrate
Also consider:
- Stretch
CONFIDENCE: 0.9".

(** A reply where [CONFIDENCE:] comes before [SPECIFIC_TIPS:]. *)
Definition confidence_first_reply : Py.str := Py.lit "MESSAGE: Rest.
CONFIDENCE: 0.9
SPECIFIC_TIPS:
- Nap".

(** A reply in the order the template asks for. *)
Definition template_reply : Py.str := Py.lit "RECOMMENDATION_TYPE: light_recovery

KEY_FACTORS:
- Sleep was great
- Readiness is low

MESSAGE:
Take it easy today.

SPECIFIC_TIPS:
- Hydrate
- Stretch

CONFIDENCE: 0.85
".

(** [date.fromisoformat] on the form the handlers document,
    [YYYY-MM-DD]; any other text is refused here. *)
Definition is_leap (y : Z) : bool :=
  ((y mod 4 =? 0) && negb (y mod 100 =? 0)) || (y mod 400 =? 0).

Definition days_in_month (y m : Z) : Z :=
  if m =? 2 then (if is_leap y then 29 else 28)
  else if (m =? 4) || (m =? 6) || (m =? 9) || (m =? 11) then 30
  else 31.

Definition fromisoformat (s : Py.str) : option date :=
  match s with
  | [y1; y2; y3; y4; 45%N; m1; m2; 45%N; d1; d2] =>
      match PlainDecimal.digits_value 0 [y1; y2; y3; y4],
            PlainDecimal.digits_value 0 [m1; m2],
            PlainDecimal.digits_value 0 [d1; d2] with
      | Some y, Some m, Some d =>
          if (1 <=? y) && (1 <=? m) && (m <=? 12) && (1 <=? d)
             && (d <=? days_in_month y m)
          then Some {| year := y; month := m; day := d |}
          else None
      | _, _, _ => None
      end
  | _ => None
  end.

End Sample.

(* ================================================================== *)
(** ** JSON values, as [response.json()] returns them *)
(* ================================================================== *)

Module Json.

#[local] Set Warnings "-register-all".

Inductive t : Type :=
| Null
| Bool (b : bool)
| Int (n : Z)
| Float (x : float)
| Str (s : Py.str)
| List (items : list t)
| Dict (fields : list (Py.str * t)).

(** [type(v).__name__]. *)
Definition type_name (v : t) : Py.str :=
  match v with
  | Null => Py.lit "NoneType"
  | Bool _ => Py.lit "bool"
  | Int _ => Py.lit "int"
  | Float _ => Py.lit "float"
  | Str _ => Py.lit "str"
  | List _ => Py.lit "list"
  | Dict _ => Py.lit "dict"
  end.

(** [bool(v)]. *)
Definition truthy (v : t) : bool :=
  match v with
  | Null => false
  | Bool b => b
  | Int n => negb (n =? 0)
  | Float x => PyFloat.truthy x
  | Str s => Py.truthy s
  | List items => match items with [] => false | _ :: _ => true end
  | Dict fields => match fields with [] => false | _ :: _ => true end
  end.

Fixpoint str_eqb (a b : Py.str) : bool :=
  match a, b with
  | [], [] => true
  | x :: a', y :: b' => N.eqb x y && str_eqb a' b'
  | _, _ => false
  end.

(** The value stored under [key], if any. *)
Fixpoint lookup (key : Py.str) (fields : list (Py.str * t)) : option t :=
  match fields with
  | [] => None
  | (k, v) :: rest => if str_eqb k key then Some v else lookup key rest
  end.

Definition quoted (s : Py.str) : Py.str := 39%N :: s ++ [39%N].

(** [v.get(key, default)]: only a dict has the method. *)
Definition get (v : t) (key : Py.str) (default : t) : result t :=
  match v with
  | Dict fields =>
      Ok (match lookup key fields with
          | Some x => x
          | None => default
          end)
  | _ =>
      Raise (OtherException
               (quoted (type_name v)
                ++ Py.lit " object has no attribute 'get'"))
  end.

(** [v[key]] for a string key. *)
Definition getitem (v : t) (key : Py.str) : result t :=
  match v with
  | Dict fields =>
      match lookup key fields with
      | Some x => Ok x
      | None => Raise (OtherException (quoted key))
      end
  | List _ =>
      Raise (OtherException
               (Py.lit "list indices must be integers or slices, not str"))
  | Str _ =>
      Raise (OtherException
               (Py.lit "string indices must be integers, not 'str'"))
  | _ =>
      Raise (OtherException
               (quoted (type_name v) ++ Py.lit " object is not subscriptable"))
  end.

(** [v[0]]. *)
Definition first (v : t) : result t :=
  match v with
  | List items =>
      match items with
      | x :: _ => Ok x
      | [] => Raise IndexError
      end
  | Str s =>
      match s with
      | c :: _ => Ok (Str [c])
      | [] => Raise (OtherException (Py.lit "string index out of range"))
      end
  | Dict _ => Raise (OtherException (Py.lit "0"))
  | _ =>
      Raise (OtherException
               (quoted (type_name v) ++ Py.lit " object is not subscriptable"))
  end.

End Json.

(** The validation that the models of [models.py] inherit from
    [pydantic.BaseModel], field by field, and the text of the
    [ValidationError] for a model and its inputs. *)
Class Pydantic : Type := {
  (** a field declared [int]; [None] stands for a refused input *)
  validate_int : Json.t -> option Z;
  (** a field declared [Optional[int]] *)
  validate_optional_int : Json.t -> option (option Z);
  (** a field declared [Optional[float]] *)
  validate_optional_float : Json.t -> option (option float);
  validation_error : Py.str -> list (Py.str * Json.t) -> Py.str
}.

(** An [int] of moderate size as a float. *)
Definition float_of_int (n : Z) : float := SF2Prim (PyFloat.Z2SF n).

(** What the proofs use of the validation: an [int] of machine size is
    accepted as it is where an [int] is declared, and an [int] that a
    float holds exactly is accepted as that float where a float is
    declared; a float is accepted as a float; [None] is refused by a
    required field and accepted by an optional one. *)
Class PydanticLaws `{Pydantic} : Prop := {
  validate_int_int :
    forall n, Z.abs n < 2 ^ 63 -> validate_int (Json.Int n) = Some n;
  validate_int_none : validate_int Json.Null = None;
  validate_optional_int_int :
    forall n, Z.abs n < 2 ^ 63 ->
      validate_optional_int (Json.Int n) = Some (Some n);
  validate_optional_int_none :
    validate_optional_int Json.Null = Some None;
  validate_optional_float_int :
    forall n, Z.abs n <= 2 ^ 53 ->
      validate_optional_float (Json.Int n) = Some (Some (float_of_int n));
  validate_optional_float_float :
    forall x, validate_optional_float (Json.Float x) = Some (Some x);
  validate_optional_float_none :
    validate_optional_float Json.Null = Some None
}.

Section Models.
Context `{Pydantic}.

(** [SleepData(date=..., total_sleep_duration=..., ...)]. *)
Definition make_SleepData (d : date)
    (total deep rem light score restful efficiency : Json.t)
  : result SleepData :=
  match validate_int total, validate_int deep, validate_int rem,
        validate_int light, validate_int score,
        validate_optional_int restful, validate_optional_int efficiency
  with
  | Some total', Some deep', Some rem', Some light', Some score',
    Some restful', Some efficiency' =>
      Ok {| sleep_date := d;
            total_sleep_duration := total';
            deep_sleep_duration := deep';
            rem_sleep_duration := rem';
            light_sleep_duration := light';
            sleep_score := score';
            restfulness := restful';
            sleep_efficiency := efficiency' |}
  | _, _, _, _, _, _, _ =>
      Raise (OtherException
               (validation_error (Py.lit "SleepData")
                  [ (Py.lit "total_sleep_duration", total);
                    (Py.lit "deep_sleep_duration", deep);
                    (Py.lit "rem_sleep_duration", rem);
                    (Py.lit "light_sleep_duration", light);
                    (Py.lit "sleep_score", score);
                    (Py.lit "restfulness", restful);
                    (Py.lit "sleep_efficiency", efficiency) ]))
  end.

(** [ReadinessData(date=..., readiness_score=..., ...)]. *)
Definition make_ReadinessData (d : date)
    (score temperature heart_rate hrv recovery previous_night
       sleep_bal activity_bal : Json.t) : result ReadinessData :=
  match validate_int score, validate_optional_float temperature,
        validate_optional_int heart_rate, validate_optional_int hrv,
        validate_optional_int recovery,
        validate_optional_int previous_night,
        validate_optional_int sleep_bal, validate_optional_int activity_bal
  with
  | Some score', Some temperature', Some heart_rate', Some hrv',
    Some recovery', Some previous_night', Some sleep_bal',
    Some activity_bal' =>
      Ok {| readiness_date := d;
            readiness_score := score';
            temperature_deviation := temperature';
            resting_heart_rate := heart_rate';
            hrv_balance := hrv';
            recovery_index := recovery';
            previous_night_score := previous_night';
            sleep_balance := sleep_bal';
            activity_balance := activity_bal' |}
  | _, _, _, _, _, _, _, _ =>
      Raise (OtherException
               (validation_error (Py.lit "ReadinessData")
                  [ (Py.lit "readiness_score", score);
                    (Py.lit "temperature_deviation", temperature);
                    (Py.lit "resting_heart_rate", heart_rate);
                    (Py.lit "hrv_balance", hrv);
                    (Py.lit "recovery_index", recovery);
                    (Py.lit "previous_night_score", previous_night);
                    (Py.lit "sleep_balance", sleep_bal);
                    (Py.lit "activity_balance", activity_bal) ]))
  end.

(** [ActivityData(date=..., activity_score=..., ...)]. *)
Definition make_ActivityData (d : date)
    (score step_count total active target frequency volume recovery
       : Json.t) : result ActivityData :=
  match validate_int score, validate_int step_count, validate_int total,
        validate_int active, validate_int target,
        validate_optional_int frequency, validate_optional_int volume,
        validate_optional_int recovery
  with
  | Some score', Some step_count', Some total', Some active',
    Some target', Some frequency', Some volume', Some recovery' =>
      Ok {| activity_date := d;
            activity_score := score';
            steps := step_count';
            total_calories := total';
            active_calories := active';
            target_calories := target';
            training_frequency := frequency';
            training_volume := volume';
            recovery_time := recovery' |}
  | _, _, _, _, _, _, _, _ =>
      Raise (OtherException
               (validation_error (Py.lit "ActivityData")
                  [ (Py.lit "activity_score", score);
                    (Py.lit "steps", step_count);
                    (Py.lit "total_calories", total);
                    (Py.lit "active_calories", active);
                    (Py.lit "target_calories", target);
                    (Py.lit "training_frequency", frequency);
                    (Py.lit "training_volume", volume);
                    (Py.lit "recovery_time", recovery) ]))
  end.

End Models.

(* ================================================================== *)
(** ** Dates and the process environment *)
(* ================================================================== *)

(** [d + timedelta(days=1)] on a date of the calendar; the last day of
    the year 9999 has no successor. *)
Definition next_day (d : date) : result date :=
  if day d <? Sample.days_in_month (year d) (month d) then
    Ok {| year := year d; month := month d; day := day d + 1 |}
  else if month d <? 12 then
    Ok {| year := year d; month := month d + 1; day := 1 |}
  else if year d <? 9999 then
    Ok {| year := year d + 1; month := 1; day := 1 |}
  else Raise (OtherException (Py.lit "date value out of range")).

(** A date of the calendar, as every [datetime.date] is. *)
Definition valid_date (d : date) : Prop :=
  1 <= year d <= 9999 /\ 1 <= month d <= 12
  /\ 1 <= day d <= Sample.days_in_month (year d) (month d).

(** [os.environ]: [os.getenv(name)] is [env name]. *)
Definition Env : Type := Py.str -> option Py.str.

(** [arg or os.getenv(name)], and whether the outcome is true. *)
Definition arg_or_env (arg : option Py.str) (env : Env) (name : Py.str)
  : option Py.str :=
  match arg with
  | Some s => if Py.truthy s then Some s else env name
  | None => env name
  end.

Definition configured (value : option Py.str) : bool :=
  match value with
  | Some s => Py.truthy s
  | None => false
  end.

(* ================================================================== *)
(** ** services/oura_client.py *)
(* ================================================================== *)

Module OuraApi.

(** One [client.get(url, headers=..., params=..., timeout=30.0)]. *)
Record Request : Type := {
  url : Py.str;
  headers : list (Py.str * Py.str);
  params : list (Py.str * Py.str);
  timeout : Z
}.

(** What one request comes to inside the [try] of [_make_request]:
    [raise_for_status] raised for the status [status_code] with the body
    [body_text], the transport raised [httpx.RequestError], the body was
    decoded by [response.json()], or another exception was raised. *)
Inductive Outcome : Type :=
| HTTPStatusError (status_code : Z) (body_text : Py.str)
| RequestError (msg : Py.str)
| JSONBody (body : Json.t)
| Fault (e : exn).

(** The provider: its answer to a request may depend on the requests
    made before it. *)
Definition Transport : Type := list Request -> Request -> Outcome.

(** A computation that issues requests: from the requests made so far to
    its result and the requests made by its end. *)
Definition io (A : Type) : Type := list Request -> result A * list Request.

Definition ret {A} (a : A) : io A := fun log => (Ok a, log).
Definition raise {A} (e : exn) : io A := fun log => (Raise e, log).
Definition lift {A} (r : result A) : io A := fun log => (r, log).
Definition bind_io {A B} (c : io A) (k : A -> io B) : io B :=
  fun log =>
    match c log with
    | (Ok a, log') => k a log'
    | (Raise e, log') => (Raise e, log')
    end.

(** An [OuraClient] object. *)
Record t : Type := {
  access_token : Py.str;
  client_headers : list (Py.str * Py.str)
}.

Definition BASE_URL : Py.str :=
  Py.lit "https://api.ouraring.com/v2/usercollection".

Definition token_required : Py.str :=
  Py.lit "Oura access token is required. Set OURA_ACCESS_TOKEN environment variable or pass to constructor.".

(** [OuraClient.__init__]; the [ValueError] is the exception raised. *)
Definition init (env : Env) (token : option Py.str) : result t :=
  let access_token := arg_or_env token env (Py.lit "OURA_ACCESS_TOKEN") in
  match access_token with
  | Some tok =>
      if Py.truthy tok then
        Ok {| access_token := tok;
              client_headers :=
                [ (Py.lit "Authorization", Py.lit "Bearer " ++ tok);
                  (Py.lit "Content-Type", Py.lit "application/json") ] |}
      else Raise (OtherException token_required)
  | None => Raise (OtherException token_required)
  end.

(** [get_oura_client], on the module's global [_oura_client]: the object
    returned and the new value of the global. *)
Definition get_oura_client (env : Env) (_oura_client : option t)
  : result t * option t :=
  match _oura_client with
  | Some c => (Ok c, Some c)
  | None =>
      match init env None with
      | Ok c => (Ok c, Some c)
      | Raise e => (Raise e, None)
      end
  end.

Section Requests.
Variable transport : Transport.
Context `{Pydantic}.

(** [_make_request]. *)
Definition make_request (self : t) (endpoint : Py.str)
    (query : list (Py.str * Py.str)) : io Json.t :=
  fun log =>
    let request :=
      {| url := BASE_URL ++ Py.lit "/" ++ endpoint;
         headers := client_headers self;
         params := query;
         timeout := 30 |} in
    let log' := log ++ [request] in
    match transport log request with
    | JSONBody body => (Ok body, log')
    | HTTPStatusError status_code body_text =>
        if status_code =? 401 then
          (Raise (OuraAPIError
                    (Py.lit "Invalid or expired Oura access token")), log')
        else if status_code =? 429 then
          (Raise (OuraAPIError
                    (Py.lit "Rate limit exceeded. Try again later.")), log')
        else
          (Raise (OuraAPIError
                    (Py.lit "Oura API error: "
                     ++ Py.str_of_int status_code ++ Py.lit " - "
                     ++ body_text)), log')
    | RequestError msg =>
        (Raise (OuraAPIError
                  (Py.lit "Network error connecting to Oura API: " ++ msg)),
         log')
    | Fault e => (Raise e, log')
    end.

(** [not response.get("data")]. *)
Definition no_data (response : Json.t) : result bool :=
  data <- Json.get response (Py.lit "data") Json.Null ;;
  Ok (negb (Json.truthy data)).

(** [response["data"][0]]. *)
Definition first_record (response : Json.t) : result Json.t :=
  data <- Json.getitem response (Py.lit "data") ;;
  Json.first data.

(** [get_sleep_data]. *)
Definition get_sleep_data (self : t) (target_date : date) : io SleepData :=
  let date_str := isoformat target_date in
  bind_io (lift (next_day target_date)) (fun next =>
  let end_date := isoformat next in
  let query := [ (Py.lit "start_date", date_str);
                 (Py.lit "end_date", end_date) ] in
  bind_io (make_request self (Py.lit "sleep") query)
    (fun detailed_response =>
  bind_io (make_request self (Py.lit "daily_sleep") query)
    (fun daily_response =>
  lift (
    detailed_missing <- no_data detailed_response ;;
    missing <- (if detailed_missing then Ok true
                else no_data daily_response) ;;
    if missing : bool then
      Raise (OuraAPIError
               (Py.lit "No data available on " ++ date_str
                ++ Py.lit ". Check Oura app to see if ring is connected."))
    else
      detailed_record <- first_record detailed_response ;;
      daily_record <- first_record daily_response ;;
      (* Combine data from both endpoints *)
      total <- Json.get detailed_record (Py.lit "total_sleep_duration")
                 (Json.Int 0) ;;
      deep <- Json.get detailed_record (Py.lit "deep_sleep_duration")
                (Json.Int 0) ;;
      rem <- Json.get detailed_record (Py.lit "rem_sleep_duration")
               (Json.Int 0) ;;
      light <- Json.get detailed_record (Py.lit "light_sleep_duration")
                 (Json.Int 0) ;;
      score <- Json.get daily_record (Py.lit "score") Json.Null ;;
      restful <- Json.get detailed_record (Py.lit "restless_periods")
                   Json.Null ;;
      efficiency <- Json.get detailed_record (Py.lit "efficiency")
                      Json.Null ;;
      make_SleepData target_date total deep rem light score restful
        efficiency)))).

(** [get_readiness_data]. *)
Definition get_readiness_data (self : t) (target_date : date)
  : io ReadinessData :=
  let date_str := isoformat target_date in
  let query := [ (Py.lit "start_date", date_str);
                 (Py.lit "end_date", date_str) ] in
  bind_io (make_request self (Py.lit "daily_readiness") query)
    (fun response =>
  lift (
    missing <- no_data response ;;
    if missing : bool then
      Raise (OuraAPIError
               (Py.lit "No data available on " ++ date_str
                ++ Py.lit ".Check Oura app to see if ring is connected."))
    else
      readiness_record <- first_record response ;;
      contributors <- Json.get readiness_record (Py.lit "contributors")
                        (Json.Dict []) ;;
      (* Map Oura API response to our ReadinessData model *)
      score <- Json.get readiness_record (Py.lit "score") Json.Null ;;
      temperature <- Json.get contributors (Py.lit "body_temperature")
                       Json.Null ;;
      heart_rate <- Json.get contributors (Py.lit "resting_heart_rate")
                      Json.Null ;;
      hrv <- Json.get contributors (Py.lit "hrv_balance") Json.Null ;;
      recovery <- Json.get contributors (Py.lit "recovery_index")
                    Json.Null ;;
      previous_night <- Json.get contributors (Py.lit "previous_night")
                          Json.Null ;;
      sleep_bal <- Json.get contributors (Py.lit "sleep_balance")
                     Json.Null ;;
      activity_bal <- Json.get contributors (Py.lit "activity_balance")
                        Json.Null ;;
      make_ReadinessData target_date score temperature heart_rate hrv
        recovery previous_night sleep_bal activity_bal)).

(** [get_activity_data]. *)
Definition get_activity_data (self : t) (target_date : date)
  : io ActivityData :=
  let date_str := isoformat target_date in
  bind_io (lift (next_day target_date)) (fun next =>
  let end_date := isoformat next in
  let query := [ (Py.lit "start_date", date_str);
                 (Py.lit "end_date", end_date) ] in
  bind_io (make_request self (Py.lit "daily_activity") query)
    (fun response =>
  lift (
    missing <- no_data response ;;
    if missing : bool then
      Raise (OuraAPIError
               (Py.lit "No data available on " ++ date_str
                ++ Py.lit ".Check Oura app to see if ring is connected."))
    else
      activity_record <- first_record response ;;
      contributors <- Json.get activity_record (Py.lit "contributors")
                        (Json.Dict []) ;;
      (* Map Oura API response to our ActivityData model *)
      score <- Json.get activity_record (Py.lit "score") Json.Null ;;
      step_count <- Json.get activity_record (Py.lit "steps")
                      (Json.Int 0) ;;
      total <- Json.get activity_record (Py.lit "total_calories")
                 (Json.Int 0) ;;
      active <- Json.get activity_record (Py.lit "active_calories")
                  (Json.Int 0) ;;
      target <- Json.get activity_record (Py.lit "target_calories")
                  (Json.Int 0) ;;
      frequency <- Json.get contributors (Py.lit "training_frequency")
                     Json.Null ;;
      volume <- Json.get contributors (Py.lit "training_volume")
                  Json.Null ;;
      recovery <- Json.get activity_record (Py.lit "rest_mode_state")
                    Json.Null ;;
      make_ActivityData target_date score step_count total active target
        frequency volume recovery))).

(** [get_personal_info]. *)
Definition get_personal_info (self : t) : io Json.t :=
  make_request self (Py.lit "personal_info") [].

(** The client as the handlers of [main.py] use it, after the requests
    [log]: each fetch's result. *)
Definition as_handlers_see (self : t) (log : list Request) : OuraClient.t :=
  {| OuraClient.get_sleep_data := fun d => fst (get_sleep_data self d log);
     OuraClient.get_readiness_data :=
       fun d => fst (get_readiness_data self d log);
     OuraClient.get_activity_data :=
       fun d => fst (get_activity_data self d log) |}.

End Requests.
End OuraApi.

(* ================================================================== *)
(** ** The coach object and the rest of main.py *)
(* ================================================================== *)

Module Coach.

(** A [RecoveryCoach] object. *)
Record t : Type := {
  api_key : Py.str;
  client : Client
}.

Definition key_required : Py.str :=
  Py.lit "Anthropic API key is required. Set ANTHROPIC_API_KEY environment variable or pass to constructor.".

Section Setup.
(** [anthropic.Anthropic(api_key=...)]. *)
Variable Anthropic : Py.str -> Client.

(** [RecoveryCoach.__init__]; the [ValueError] is the exception raised. *)
Definition init (env : Env) (key : option Py.str) : result t :=
  match arg_or_env key env (Py.lit "ANTHROPIC_API_KEY") with
  | Some k =>
      if Py.truthy k then Ok {| api_key := k; client := Anthropic k |}
      else Raise (OtherException key_required)
  | None => Raise (OtherException key_required)
  end.

(** [get_recovery_coach], on the module's global [_recovery_coach]. *)
Definition get_recovery_coach (env : Env) (_recovery_coach : option t)
  : result t * option t :=
  match _recovery_coach with
  | Some c => (Ok c, Some c)
  | None =>
      match init env None with
      | Ok c => (Ok c, Some c)
      | Raise e => (Raise e, None)
      end
  end.

End Setup.
End Coach.

Module Endpoints.

(** The body of [GET /api/health]. *)
Record Health : Type := {
  api : Py.str;
  database : Py.str;
  oura_integration : Py.str
}.

(** [health_check]. *)
Definition health_check (env : Env) : Health :=
  let oura_status :=
    if configured (env (Py.lit "access_token"))
    then Py.lit "configured" else Py.lit "not_configured" in
  {| api := Py.lit "healthy";
     database := Py.lit "not_connected";
     oura_integration := oura_status |}.

(** [start_oauth]: the location of the redirect, or [HTTPException]. *)
Definition start_oauth (env : Env) : http Py.str :=
  let CLIENT_ID := env (Py.lit "CLIENT_ID") in
  let OURA_REDIRECT_URI :=
    match env (Py.lit "OURA_REDIRECT_URI") with
    | Some uri => uri
    | None => Py.lit "http://localhost:8000/oauth/callback"
    end in
  match CLIENT_ID with
  | Some id =>
      if Py.truthy id then
        Response
          (Py.lit "https://cloud.ouraring.com/oauth/authorize?"
           ++ Py.lit "client_id=" ++ id ++ Py.lit "&"
           ++ Py.lit "redirect_uri=" ++ OURA_REDIRECT_URI ++ Py.lit "&"
           ++ Py.lit "response_type=code&"
           ++ Py.lit "scope=daily personal heartrate sleep")
      else
        HTTPException 500
          (Py.lit "OURA_CLIENT_ID not configured. Add it to .env file.")
  | None =>
      HTTPException 500
        (Py.lit "OURA_CLIENT_ID not configured. Add it to .env file.")
  end.

Section Wired.
Context `{FloatText} `{Pydantic}.
Variable fromisoformat : Py.str -> option date.
Variable transport : OuraApi.Transport.
Variable env : Env.

(** [get_oura_client()] as a handler sees it: the global [_oura_client]
    before the call, and the requests made so far. *)
Definition oura_client_of (_oura_client : option OuraApi.t)
    (log : list OuraApi.Request) : result OuraClient.t :=
  match fst (OuraApi.get_oura_client env _oura_client) with
  | Ok c => Ok (OuraApi.as_handlers_see transport c log)
  | Raise e => Raise e
  end.

(** The three [GET /api/oura/...] handlers on the provider client of
    [services/oura_client.py]. *)
Definition sleep (_oura_client : option OuraApi.t)
    (log : list OuraApi.Request) (date_str : Py.str) : http SleepData :=
  Main.get_sleep_data fromisoformat (oura_client_of _oura_client log)
    date_str.

Definition readiness (_oura_client : option OuraApi.t)
    (log : list OuraApi.Request) (date_str : Py.str)
  : http ReadinessData :=
  Main.get_readiness_data fromisoformat (oura_client_of _oura_client log)
    date_str.

Definition activity (_oura_client : option OuraApi.t)
    (log : list OuraApi.Request) (date_str : Py.str) : http ActivityData :=
  Main.get_activity_data fromisoformat (oura_client_of _oura_client log)
    date_str.

(** [POST /api/recommendations/...] on the coach of
    [services/ai_coach.py]; [gathered] is as in
    [Main.generate_recommendation]. *)
Definition recommendations (Anthropic : Py.str -> Client)
    (_recovery_coach : option Coach.t)
    (gathered : date -> result (SleepData * ReadinessData * ActivityData))
    (date_str : Py.str) : http RecoveryRecommendation :=
  Main.generate_recommendation fromisoformat
    (match fst (Coach.get_recovery_coach Anthropic env _recovery_coach) with
     | Ok c => Ok (Coach.client c)
     | Raise e => Raise e
     end)
    gathered date_str.

End Wired.
End Endpoints.

(* ================================================================== *)
(** ** More inputs of the closed examples *)
(* ================================================================== *)

Module Fixture.

(** A validation that accepts exactly what [PydanticLaws] asks for. *)
#[global] Instance strict : Pydantic :=
  {| validate_int := fun v =>
       match v with Json.Int n => Some n | _ => None end;
     validate_optional_int := fun v =>
       match v with
       | Json.Int n => Some (Some n)
       | Json.Null => Some None
       | _ => None
       end;
     validate_optional_float := fun v =>
       match v with
       | Json.Int n => Some (Some (float_of_int n))
       | Json.Float x => Some (Some x)
       | Json.Null => Some None
       | _ => None
       end;
     validation_error := fun model _ =>
       Py.lit "validation error for " ++ model |}.

#[global] Instance strict_laws : PydanticLaws.
Proof. constructor; intros; reflexivity. Qed.

Definition token : Py.str := Py.lit "OURA-TOKEN".

Definition oura : OuraApi.t :=
  {| OuraApi.access_token := token;
     OuraApi.client_headers :=
       [ (Py.lit "Authorization", Py.lit "Bearer " ++ token);
         (Py.lit "Content-Type", Py.lit "application/json") ] |}.

(** A body [{"data": [record]}]. *)
Definition one_record (record : Json.t) : Json.t :=
  Json.Dict [ (Py.lit "data", Json.List [record]) ].

(** A provider that answers every request with [outcome]. *)
Definition always (outcome : OuraApi.Outcome) : OuraApi.Transport :=
  fun _ _ => outcome.

(** A provider that knows the detailed sleep of the night but none of its
    durations, and its daily score. *)
Definition sleep_without_durations : OuraApi.Transport :=
  fun _ request =>
    if Py.contains (Py.lit "/daily_sleep") (OuraApi.url request) then
      OuraApi.JSONBody
        (one_record (Json.Dict [ (Py.lit "score", Json.Int 60) ]))
    else
      OuraApi.JSONBody
        (one_record (Json.Dict [ (Py.lit "efficiency", Json.Int 91) ])).

(** An environment with one variable set. *)
Definition env_with (name value : Py.str) : Env :=
  fun n => if Json.str_eqb n name then Some value else None.

Definition no_env : Env := fun _ => None.

(** A stand-in for [anthropic.Anthropic]: a client that always replies
    with the template reply. *)
Definition anthropic (key : Py.str) : Client :=
  Sample.replying_client Sample.template_reply.

End Fixture.

(* ================================================================== *)
(** ** Vocabulary of the properties of the provider client *)
(* ================================================================== *)

(** The request [_make_request] sends for an endpoint and a window. *)
Definition request_to (self : OuraApi.t) (endpoint start_date end_date : Py.str)
  : OuraApi.Request :=
  {| OuraApi.url := OuraApi.BASE_URL ++ Py.lit "/" ++ endpoint;
     OuraApi.headers := OuraApi.client_headers self;
     OuraApi.params := [ (Py.lit "start_date", start_date);
                         (Py.lit "end_date", end_date) ];
     OuraApi.timeout := 30 |}.

(** A body that is an object with a true value under ["data"]. *)
Definition has_data (body : Json.t) : bool :=
  match body with
  | Json.Dict fields =>
      match Json.lookup (Py.lit "data") fields with
      | Some v => Json.truthy v
      | None => false
      end
  | _ => false
  end.

(** The text of the elevated-temperature factor for a deviation. *)
Definition temperature_factor `{FloatText} (t : float) : Py.str :=
  Py.lit "Elevated temperature deviation ("
  ++ float_repr t ++ DEGREE ++ Py.lit "C)".

(** The value under [key] in an object, or [default]. *)
Definition field_or (fields : list (Py.str * Json.t)) (key : Py.str)
    (default : Json.t) : Json.t :=
  match Json.lookup key fields with
  | Some v => v
  | None => default
  end.

(** A body whose ["data"] is a list that starts with the object
    [record]. *)
Definition first_record_is (body : Json.t)
    (record : list (Py.str * Json.t)) : Prop :=
  exists fields rest,
    body = Json.Dict fields
    /\ Json.lookup (Py.lit "data") fields
       = Some (Json.List (Json.Dict record :: rest)).

(* ================================================================== *)
(** ** The reply that the prompt asks for *)
(* ================================================================== *)

(** One line ["- item"] per item. *)
Definition bullets (items : list Py.str) : Py.str :=
  List.concat (map (fun item => Py.lit "- " ++ item ++ [NEWLINE]) items).

(** The reply up to the [MESSAGE:] marker, and after it. *)
Definition render_head (rec_type : Py.str) (factors : list Py.str)
  : Py.str :=
  Py.lit "RECOMMENDATION_TYPE: " ++ rec_type ++ [NEWLINE; NEWLINE]
  ++ KEY_FACTORS_marker ++ [NEWLINE] ++ bullets factors ++ [NEWLINE].

Definition render_tail (text_message : Py.str) (tips : list Py.str)
    (conf : Py.str) : Py.str :=
  [NEWLINE] ++ text_message ++ [NEWLINE; NEWLINE]
  ++ SPECIFIC_TIPS_marker ++ [NEWLINE] ++ bullets tips ++ [NEWLINE]
  ++ Py.lit "CONFIDENCE: " ++ conf.

(** The format of the prompt's "Format your response EXACTLY as follows",
    filled in. *)
Definition render_reply (rec_type : Py.str) (factors : list Py.str)
    (text_message : Py.str) (tips : list Py.str) (conf : Py.str)
  : Py.str :=
  render_head rec_type factors ++ MESSAGE_marker
  ++ render_tail text_message tips conf.

Definition markers : list Py.str :=
  [ RECOMMENDATION_TYPE_marker; KEY_FACTORS_marker; MESSAGE_marker;
    SPECIFIC_TIPS_marker; CONFIDENCE_marker ].

(** A text in which no marker occurs. *)
Definition marker_free (s : Py.str) : Prop :=
  forall marker, In marker markers -> Py.contains marker s = false.

(** A one-line value with no blank at either end: a type or a
    confidence. *)
Definition well_formed_label (s : Py.str) : Prop :=
  ~ In NEWLINE s /\ marker_free s /\ Py.strip s = s.

(** A bullet: one line, with no blank and no dash at either end. *)
Definition well_formed_item (s : Py.str) : Prop :=
  ~ In NEWLINE s /\ marker_free s
  /\ Py.strip_chars (Py.lit "- ") s = s /\ Py.strip s = s.

(** A message: any number of lines, with no blank at either end. *)
Definition well_formed_message (s : Py.str) : Prop :=
  marker_free s /\ Py.strip s = s.

(** The lines of the format. *)
Definition type_line (rec_type : Py.str) : Py.str :=
  Py.lit "RECOMMENDATION_TYPE: " ++ rec_type.
Definition dash_line (item : Py.str) : Py.str := Py.lit "- " ++ item.
Definition confidence_line (conf : Py.str) : Py.str :=
  Py.lit "CONFIDENCE: " ++ conf.

Definition reply_lines (rec_type : Py.str) (factors : list Py.str)
    (text_message : Py.str) (tips : list Py.str) (conf : Py.str)
  : list Py.str :=
  [ type_line rec_type; []; KEY_FACTORS_marker ]
  ++ map dash_line factors
  ++ [ []; MESSAGE_marker ] ++ Py.split NEWLINE text_message
  ++ [ []; SPECIFIC_TIPS_marker ] ++ map dash_line tips
  ++ [ []; confidence_line conf ].

(* ================================================================== *)
(** ** Lemmas on Python strings *)
(* ================================================================== *)

Lemma startswith_nil_r (p : Py.str) :
  Py.startswith p [] = true -> p = [].
Proof. destruct p; simpl; [reflexivity | discriminate]. Qed.

Lemma startswith_contains (sub s : Py.str) :
  Py.startswith sub s = true -> Py.contains sub s = true.
Proof.
  destruct s as [|c t]; simpl; intros Hs.
  - exact Hs.
  - simpl in Hs. rewrite Hs. reflexivity.
Qed.

Lemma startswith_In (sub s : Py.str) (c : Py.char) :
  Py.startswith sub s = true -> In c sub -> In c s.
Proof.
  revert s. induction sub as [|a p IH]; intros s Hs Hin.
  - destruct Hin.
  - destruct s as [|b t]; simpl in Hs; [discriminate|].
    apply andb_true_iff in Hs. destruct Hs as [Hab Hp].
    apply N.eqb_eq in Hab. subst b.
    destruct Hin as [-> | Hin]; [left; reflexivity | right; eauto].
Qed.

Lemma contains_In (sub s : Py.str) (c : Py.char) :
  Py.contains sub s = true -> In c sub -> In c s.
Proof.
  induction s as [|b t IH]; simpl; intros Hc Hin.
  - apply startswith_nil_r in Hc. subst sub. destruct Hin.
  - apply orb_true_iff in Hc. destruct Hc as [Hs | Hc].
    + exact (startswith_In _ (b :: t) c Hs Hin).
    + right. auto.
Qed.

Lemma split_cons (sep : Py.char) (s : Py.str) :
  exists l ls, Py.split sep s = l :: ls.
Proof.
  induction s as [|c t [l [ls E]]]; simpl.
  - eauto.
  - destruct (N.eqb c sep); [eauto | rewrite E; eauto].
Qed.

(** A prefix without the separator is a prefix of the first piece. *)
Lemma startswith_split_hd (sep : Py.char) (sub s : Py.str) :
  ~ In sep sub -> Py.startswith sub s = true ->
  Py.startswith sub (hd [] (Py.split sep s)) = true.
Proof.
  revert s. induction sub as [|a p IH]; intros s Hn Hs.
  - reflexivity.
  - destruct s as [|b t]; simpl in Hs; [discriminate|].
    apply andb_true_iff in Hs. destruct Hs as [Hab Hp].
    apply N.eqb_eq in Hab. subst b.
    assert (Ha : N.eqb a sep = false).
    { apply N.eqb_neq. intros ->. apply Hn. left. reflexivity. }
    simpl. rewrite Ha.
    destruct (split_cons sep t) as [l [ls E]].
    specialize (IH t (fun Hin => Hn (or_intror Hin)) Hp).
    rewrite E in *. simpl in *. rewrite N.eqb_refl, IH. reflexivity.
Qed.

(** A substring without the separator lies within one piece. *)
Lemma contains_split (sep : Py.char) (sub s : Py.str) :
  ~ In sep sub -> Py.contains sub s = true ->
  exists line, In line (Py.split sep s) /\ Py.contains sub line = true.
Proof.
  intros Hn. induction s as [|c t IH]; intros Hc.
  - exists []. split; [left; reflexivity | exact Hc].
  - simpl in Hc. apply orb_true_iff in Hc. destruct Hc as [Hs | Hc].
    + exists (hd [] (Py.split sep (c :: t))). split.
      * destruct (split_cons sep (c :: t)) as [l [ls E]].
        rewrite E. left. reflexivity.
      * apply startswith_contains, startswith_split_hd; assumption.
    + destruct (IH Hc) as [line [Hin Hl]].
      simpl. destruct (N.eqb c sep).
      * exists line. split; [right; exact Hin | exact Hl].
      * destruct (split_cons sep t) as [l [ls E]]. rewrite E in *.
        destruct Hin as [<- | Hin].
        -- exists (c :: l). split; [left; reflexivity|].
           simpl. rewrite Hl. apply orb_true_r.
        -- exists line. split; [right; exact Hin | exact Hl].
Qed.

(** Conversely, what a piece contains the text contains. *)
Lemma startswith_split_hd_inv (sep : Py.char) (sub s : Py.str) :
  Py.startswith sub (hd [] (Py.split sep s)) = true ->
  Py.startswith sub s = true.
Proof.
  revert s. induction sub as [|a p IH]; intros s Hs.
  - reflexivity.
  - destruct s as [|b t]; simpl in Hs; [discriminate|].
    destruct (N.eqb b sep) eqn:Hb; simpl in Hs; [discriminate|].
    destruct (split_cons sep t) as [l [ls E]].
    specialize (IH t). rewrite E in *. simpl in *.
    apply andb_true_iff in Hs. destruct Hs as [Hab Hp].
    rewrite Hab. simpl. auto.
Qed.

Lemma split_contains (sep : Py.char) (sub s line : Py.str) :
  sub <> [] -> In line (Py.split sep s) -> Py.contains sub line = true ->
  Py.contains sub s = true.
Proof.
  intros Hne. revert line. induction s as [|c t IH]; intros line Hin Hl.
  - destruct Hin as [<- | []]. exact Hl.
  - simpl in Hin. simpl. destruct (N.eqb c sep) eqn:Hc.
    + destruct Hin as [<- | Hin].
      * simpl in Hl. apply startswith_nil_r in Hl. contradiction.
      * rewrite (IH line Hin Hl). apply orb_true_r.
    + destruct (split_cons sep t) as [l [ls E]]. rewrite E in *.
      destruct Hin as [<- | Hin].
      * simpl in Hl. apply orb_true_iff in Hl. destruct Hl as [Hs | Hl].
        -- assert (Hs' : Py.startswith sub (c :: t) = true).
           { apply (startswith_split_hd_inv sep). simpl.
             rewrite Hc, E. exact Hs. }
           rewrite Hs'. reflexivity.
        -- rewrite (IH l (or_introl eq_refl) Hl). apply orb_true_r.
      * rewrite (IH line (or_intror Hin) Hl). apply orb_true_r.
Qed.

(** Where the separator occurs, [split_once] gives two pieces. *)
Lemma split_once_In (sep : Py.char) (s : Py.str) :
  In sep s -> exists a b, Py.split_once sep s = [a; b].
Proof.
  induction s as [|c t IH]; intros Hin; [destruct Hin|].
  simpl. destruct (N.eqb c sep) eqn:Hc; [eauto|].
  destruct Hin as [-> | Hin]; [rewrite N.eqb_refl in Hc; discriminate|].
  destruct (IH Hin) as [a [b E]]. rewrite E. eauto.
Qed.

Lemma filter_hit {A} (f : A -> bool) (xs : list A) (x : A) :
  In x xs -> f x = true -> exists y ys, filter f xs = y :: ys.
Proof.
  intros Hin Hf.
  assert (Hx : In x (filter f xs)) by (apply filter_In; auto).
  destruct (filter f xs) as [|y ys]; [destruct Hx | eauto].
Qed.

(* ================================================================== *)
(** ** The parser never enters its handler *)
(* ================================================================== *)

Ltac not_in_marker :=
  let Hin := fresh "Hin" in
  intros Hin; cbv [In] in Hin;
  repeat (destruct Hin as [Hin | Hin]; [discriminate Hin|]); exact Hin.

(** The line of a marker and the text after its first colon: both list
    accesses of the source are in range whenever the marker occurs. *)
Lemma marker_value_ok (marker response_text : Py.str) :
  ~ In NEWLINE marker -> In COLON marker ->
  Py.contains marker response_text = true ->
  exists line after,
    index (filter (Py.contains marker) (Py.split NEWLINE response_text)) 0
      = Ok line
    /\ Py.contains marker line = true
    /\ index (Py.split_once COLON line) 1 = Ok after.
Proof.
  intros Hnl Hcolon Hc.
  destruct (contains_split NEWLINE marker response_text Hnl Hc)
    as [l [Hin Hl]].
  destruct (filter_hit _ _ l Hin Hl) as [line [rest E]].
  assert (Hline : Py.contains marker line = true).
  { assert (Hf : In line (filter (Py.contains marker)
                            (Py.split NEWLINE response_text)))
      by (rewrite E; left; reflexivity).
    apply filter_In in Hf. tauto. }
  destruct (split_once_In COLON line (contains_In _ _ _ Hline Hcolon))
    as [a [b Eb]].
  exists line, b. rewrite E, Eb. auto.
Qed.

Lemma extract_rec_type_ok (response_text : Py.str) :
  exists rec_type, extract_rec_type response_text = Ok rec_type.
Proof.
  unfold extract_rec_type.
  destruct (Py.contains RECOMMENDATION_TYPE_marker response_text) eqn:Hc;
    [|eauto].
  destruct (marker_value_ok RECOMMENDATION_TYPE_marker response_text)
    as [line [after [E1 [_ E2]]]];
    [not_in_marker | cbv; tauto | exact Hc |].
  rewrite E1. simpl. rewrite E2. simpl. eauto.
Qed.

Lemma extract_confidence_ok `{FloatText} (response_text : Py.str) :
  exists confidence, extract_confidence response_text = Ok confidence.
Proof.
  unfold extract_confidence.
  destruct (Py.contains CONFIDENCE_marker response_text) eqn:Hc; [|eauto].
  destruct (marker_value_ok CONFIDENCE_marker response_text)
    as [line [after [E1 [_ E2]]]];
    [not_in_marker | cbv; tauto | exact Hc |].
  rewrite E1. simpl. rewrite E2. simpl. eauto.
Qed.

(** The body of the [try] always runs to its [return]. *)
Lemma parse_try_ok `{FloatText} (response_text : Py.str) (target_date : date)
    (sleep_data : SleepData) (readiness_data : ReadinessData)
    (activity_data : ActivityData) :
  exists recommendation,
    parse_try response_text target_date sleep_data readiness_data
      activity_data = Ok recommendation.
Proof.
  unfold parse_try.
  destruct (extract_rec_type_ok response_text) as [rec_type ->].
  destruct (extract_confidence_ok response_text) as [conf ->].
  simpl. eauto.
Qed.

Lemma float_neq_0_8_0_7 : 0.8%float <> 0.7%float.
Proof.
  intros E. apply (f_equal (PrimFloat.eqb 0.7)) in E.
  vm_compute in E. discriminate E.
Qed.

(* ================================================================== *)
(** ** The parser on a reply without markers (C1) *)
(* ================================================================== *)

(** C1, as amended. For every reply text and every triple of records the
    parser returns a recommendation without raising: the body of its [try]
    runs to its [return], so the handler is not even entered. For a reply
    that contains none of the five markers the recommendation has the
    default type [moderate_activity], an empty message, the default
    confidence 0.8 and the synthesized key factors (not the type of the
    readiness-threshold table, and not the confidence 0.7). *)
Theorem parse_ai_response_total `{FloatText} (response_text : Py.str)
    (target_date : date) (sleep_data : SleepData)
    (readiness_data : ReadinessData) (activity_data : ActivityData) :
  (exists recommendation,
     parse_try response_text target_date sleep_data readiness_data
       activity_data = Ok recommendation
     /\ parse_ai_response response_text target_date sleep_data
          readiness_data activity_data = recommendation)
  /\ (no_marker response_text ->
      parse_ai_response response_text target_date sleep_data
        readiness_data activity_data
      = {| rec_date := target_date;
           recommendation_type := Py.lit "moderate_activity";
           message := [];
           confidence := 0.8%float;
           key_factors :=
             generate_key_factors sleep_data readiness_data
               activity_data |}).
Proof.
  split.
  - destruct (parse_try_ok response_text target_date sleep_data
                readiness_data activity_data) as [recommendation E].
    exists recommendation. split; [exact E|].
    unfold parse_ai_response. rewrite E. reflexivity.
  - intros (Htype & Hfactors & Hmessage & Htips & Hconf).
    unfold parse_ai_response, parse_try, extract_rec_type,
      extract_key_factors, extract_message, extract_specific_tips,
      extract_confidence.
    rewrite Htype, Hfactors, Hmessage, Htips, Hconf.
    reflexivity.
Qed.

Lemma parse_ai_response_total_witness :
  no_marker Sample.unparseable_reply
  /\ parse_ai_response Sample.unparseable_reply Sample.today
       (Sample.sleep_of 90 27000) (Sample.readiness_of 90 None)
       (Sample.activity_of 3000)
     = {| rec_date := Sample.today;
          recommendation_type := Py.lit "moderate_activity";
          message := [];
          confidence := 0.8%float;
          key_factors :=
            generate_key_factors (Sample.sleep_of 90 27000)
              (Sample.readiness_of 90 None) (Sample.activity_of 3000) |}.
Proof.
  assert (Hn : no_marker Sample.unparseable_reply)
    by (repeat split; reflexivity).
  split; [exact Hn|].
  exact (proj2 (parse_ai_response_total Sample.unparseable_reply
                  Sample.today (Sample.sleep_of 90 27000)
                  (Sample.readiness_of 90 None) (Sample.activity_of 3000))
           Hn).
Defined.

(** C1 as stated fails: on a reply without any marker and a readiness
    score of 90 the threshold table gives [peak_performance], while the
    parser answers [moderate_activity] with confidence 0.8. *)
Lemma parse_ai_response_unparseable_counterexample :
  no_marker Sample.unparseable_reply
  /\ determine_recommendation_type (Sample.readiness_of 90 None)
     = Py.lit "peak_performance"
  /\ recommendation_type
       (parse_ai_response Sample.unparseable_reply Sample.today
          (Sample.sleep_of 90 27000) (Sample.readiness_of 90 None)
          (Sample.activity_of 3000))
     <> determine_recommendation_type (Sample.readiness_of 90 None)
  /\ confidence
       (parse_ai_response Sample.unparseable_reply Sample.today
          (Sample.sleep_of 90 27000) (Sample.readiness_of 90 None)
          (Sample.activity_of 3000))
     <> 0.7%float.
Proof.
  split; [repeat split; reflexivity|].
  split; [reflexivity|].
  split.
  - vm_compute. discriminate.
  - exact float_neq_0_8_0_7.
Qed.

(* ================================================================== *)
(** ** The failure policy of [analyze_recovery] (C3) *)
(* ================================================================== *)

(** C3, as amended. Once the prompt is built, [analyze_recovery] has
    three outcomes. If the generative call raises, whatever the fault, it
    raises [AICoachError] with the fault's text after a fixed prefix: no
    recommendation is constructed and there is no apology text. If the
    reply has no content block it raises [AICoachError] as well. Otherwise
    the body of the parser's [try] runs to its [return] on the text of the
    first block, and [analyze_recovery] returns the recommendation built
    there: the parser's [except] handler is not entered. That handler, for
    whatever exception, builds the recommendation made of the
    readiness-threshold type, the first 500 characters of the raw reply,
    the confidence 0.7 and the synthesized factors. *)
Theorem analyze_recovery_failure_policy `{FloatText} (client : Client)
    (sleep_data : SleepData) (readiness_data : ReadinessData)
    (activity_data : ActivityData) (prompt : Py.str) :
  build_analysis_prompt sleep_data readiness_data activity_data
    = Ok prompt ->
  match client (Py.lit "claude-3-haiku-20240307") 1024 prompt with
  | Raise e =>
      analyze_recovery client sleep_data readiness_data activity_data
      = Raise (AICoachError
                 match e with
                 | APIError m => Py.lit "Claude API error: " ++ m
                 | _ => Py.lit "Error generating recommendation: "
                        ++ exn_str e
                 end)
  | Ok reply =>
      match content reply with
      | [] =>
          analyze_recovery client sleep_data readiness_data activity_data
          = Raise (AICoachError
                     (Py.lit "Error generating recommendation: "
                      ++ Py.lit "list index out of range"))
      | block :: _ =>
          exists recommendation,
            parse_try (text block) (sleep_date sleep_data) sleep_data
              readiness_data activity_data
            = Ok recommendation
            /\ analyze_recovery client sleep_data readiness_data
                 activity_data
               = Ok recommendation
      end
  end
  /\ (forall (response_text : Py.str) (target_date : date) (e : exn),
        try_except (Raise e)
          (parse_except response_text target_date sleep_data
             readiness_data activity_data)
        = {| rec_date := target_date;
             recommendation_type :=
               determine_recommendation_type readiness_data;
             message := Py.slice response_text 0 500;
             confidence := 0.7%float;
             key_factors :=
               generate_key_factors sleep_data readiness_data
                 activity_data |}).
Proof.
  intros Hprompt. split; [|reflexivity].
  unfold analyze_recovery. rewrite Hprompt. cbn [bind].
  destruct (client _ _ prompt) as [reply | e]; cbn [bind].
  - destruct (content reply) as [|block rest]; [reflexivity|].
    cbn [index nth_error bind].
    destruct (parse_try_ok (text block) (sleep_date sleep_data) sleep_data
                readiness_data activity_data) as [recommendation E].
    exists recommendation. split; [exact E|].
    unfold parse_ai_response. rewrite E. reflexivity.
  - destruct e; reflexivity.
Qed.

Lemma analyze_recovery_failure_policy_witness :
  (exists prompt,
     build_analysis_prompt (Sample.sleep_of 90 27000)
       (Sample.readiness_of 45 None) (Sample.activity_of 3000)
     = Ok prompt)
  /\ analyze_recovery
       (Sample.failing_client (OtherException (Py.lit "timed out")))
       (Sample.sleep_of 90 27000) (Sample.readiness_of 45 None)
       (Sample.activity_of 3000)
     = Raise (AICoachError
                (Py.lit "Error generating recommendation: timed out"))
  /\ analyze_recovery (Sample.replying_client Sample.unparseable_reply)
       (Sample.sleep_of 90 27000) (Sample.readiness_of 45 None)
       (Sample.activity_of 3000)
     = Ok {| rec_date := Sample.today;
             recommendation_type := Py.lit "moderate_activity";
             message := [];
             confidence := 0.8%float;
             key_factors :=
               [ Py.lit "Excellent sleep quality (90/100)";
                 Py.lit "Low readiness score (45/100)";
                 Py.lit "Low activity yesterday (3000 steps)" ] |}.
Proof.
  assert (Hp : exists prompt,
             build_analysis_prompt (Sample.sleep_of 90 27000)
               (Sample.readiness_of 45 None) (Sample.activity_of 3000)
             = Ok prompt)
    by (vm_compute; eexists; reflexivity).
  split; [exact Hp|].
  destruct Hp as [prompt Hp]. split.
  - exact (proj1 (analyze_recovery_failure_policy
                    (Sample.failing_client
                       (OtherException (Py.lit "timed out")))
                    _ _ _ prompt Hp)).
  - destruct (proj1 (analyze_recovery_failure_policy
                       (Sample.replying_client Sample.unparseable_reply)
                       _ _ _ prompt Hp))
      as (recommendation & Htry & Hreturned).
    rewrite Hreturned, <- Htry. reflexivity.
Defined.

(** C3 as stated fails: when the generative call raises a provider error
    that a retry could cure, [analyze_recovery] raises [AICoachError]; it
    constructs no recommendation. *)
Lemma analyze_recovery_call_failure_counterexample :
  analyze_recovery
    (Sample.failing_client (APIError (Py.lit "Connection error.")))
    (Sample.sleep_of 90 27000) (Sample.readiness_of 45 None)
    (Sample.activity_of 3000)
  = Raise (AICoachError (Py.lit "Claude API error: Connection error."))
  /\ (forall recommendation,
        analyze_recovery
          (Sample.failing_client (APIError (Py.lit "Connection error.")))
          (Sample.sleep_of 90 27000) (Sample.readiness_of 45 None)
          (Sample.activity_of 3000)
        <> Ok recommendation).
Proof.
  assert (E : analyze_recovery
                (Sample.failing_client
                   (APIError (Py.lit "Connection error.")))
                (Sample.sleep_of 90 27000) (Sample.readiness_of 45 None)
                (Sample.activity_of 3000)
              = Raise (AICoachError
                         (Py.lit "Claude API error: Connection error.")))
    by (vm_compute; reflexivity).
  split; [exact E|].
  intros recommendation. rewrite E. discriminate.
Qed.

(* ================================================================== *)
(** ** The readiness-threshold table (C4) *)
(* ================================================================== *)

Lemma determine_recommendation_type_ranges (readiness_data : ReadinessData) :
  let score := readiness_score readiness_data in
  let type := determine_recommendation_type readiness_data in
  (85 <= score -> type = Py.lit "peak_performance")
  /\ (70 <= score < 85 -> type = Py.lit "training_ready")
  /\ (55 <= score < 70 -> type = Py.lit "moderate_activity")
  /\ (40 <= score < 55 -> type = Py.lit "light_recovery")
  /\ (score < 40 -> type = Py.lit "rest_day").
Proof.
  unfold determine_recommendation_type. cbv zeta.
  repeat rewrite Z.geb_leb.
  destruct (Z.leb_spec 85 (readiness_score readiness_data));
  destruct (Z.leb_spec 70 (readiness_score readiness_data));
  destruct (Z.leb_spec 55 (readiness_score readiness_data));
  destruct (Z.leb_spec 40 (readiness_score readiness_data));
  repeat split; intros; try reflexivity; lia.
Qed.

(** C4. The fallback type is the one of the readiness-threshold table
    (at least 85: peak_performance, at least 70: training_ready, at least
    55: moderate_activity, at least 40: light_recovery, else rest_day),
    and the scores 39, 40, 54, 55, 69, 70, 84, 85 give rest_day,
    light_recovery, light_recovery, moderate_activity, moderate_activity,
    training_ready, training_ready, peak_performance. *)
Theorem determine_recommendation_type_table :
  (forall readiness_data : ReadinessData,
     determine_recommendation_type readiness_data
     = table_lookup threshold_table (readiness_score readiness_data))
  /\ map (fun score =>
            determine_recommendation_type (Sample.readiness_of score None))
       [39; 40; 54; 55; 69; 70; 84; 85]
     = [ Py.lit "rest_day"; Py.lit "light_recovery";
         Py.lit "light_recovery"; Py.lit "moderate_activity";
         Py.lit "moderate_activity"; Py.lit "training_ready";
         Py.lit "training_ready"; Py.lit "peak_performance" ].
Proof.
  split; [|reflexivity].
  intros readiness_data.
  unfold determine_recommendation_type, threshold_table, table_lookup.
  repeat rewrite Z.geb_leb. reflexivity.
Qed.

(* ================================================================== *)
(** ** The synthesis of key factors (C5) *)
(* ================================================================== *)

(** The truth test on the temperature adds nothing to the comparison: a
    zero is not more than half a degree away from the baseline. *)
Lemma temperature_test (t : float) :
  PyFloat.truthy t && PrimFloat.ltb 0.5 (PrimFloat.abs t)
  = PrimFloat.ltb 0.5 (PrimFloat.abs t).
Proof.
  unfold PyFloat.truthy.
  destruct (PrimFloat.eqb t 0) eqn:E; [|reflexivity].
  simpl. symmetry.
  rewrite FloatAxioms.eqb_spec in E.
  rewrite FloatAxioms.ltb_spec, FloatAxioms.abs_spec.
  vm_compute (Prim2SF 0) in E. vm_compute (Prim2SF 0.5).
  destruct (Prim2SF t) as [s | s | | s m e];
    try reflexivity; destruct s; discriminate E.
Qed.

(** The synthesis applies the five rules in their order and keeps what
    they give; the rule on the HRV balance is the one of the source. *)
Lemma generate_key_factors_rules `{FloatText} (sleep_data : SleepData)
    (readiness_data : ReadinessData) (activity_data : ActivityData) :
  generate_key_factors sleep_data readiness_data activity_data
  = sleep_rule sleep_data ++ readiness_rule readiness_data
    ++ temperature_rule readiness_data ++ hrv_rule readiness_data
    ++ steps_rule activity_data.
Proof.
  unfold generate_key_factors, sleep_rule, readiness_rule,
    temperature_rule, hrv_rule, steps_rule.
  destruct (sleep_score sleep_data >=? 85);
    [|destruct (sleep_score sleep_data <? 70)];
  (destruct (readiness_score readiness_data >=? 85);
    [|destruct (readiness_score readiness_data <? 70)]);
  (destruct (temperature_deviation readiness_data) as [t|];
    [rewrite (temperature_test t);
     destruct (PrimFloat.ltb 0.5 (PrimFloat.abs t))|]);
  (destruct (hrv_balance readiness_data) as [h|];
    [destruct (negb (h =? 0) && (h <? 60))|]);
  destruct (steps activity_data <? 5000);
  reflexivity.
Qed.

Lemma generate_key_factors_length `{FloatText} (sleep_data : SleepData)
    (readiness_data : ReadinessData) (activity_data : ActivityData) :
  (List.length (generate_key_factors sleep_data readiness_data
                  activity_data) <= 5)%nat.
Proof.
  unfold generate_key_factors. apply firstn_le_length.
Qed.

(** Away from an HRV balance of zero the source and the specification
    agree on the synthesis. *)
Lemma generate_key_factors_spec `{FloatText} (sleep_data : SleepData)
    (readiness_data : ReadinessData) (activity_data : ActivityData) :
  hrv_balance readiness_data <> Some 0 ->
  generate_key_factors sleep_data readiness_data activity_data
  = key_factors_spec sleep_data readiness_data activity_data.
Proof.
  intros Hhrv.
  assert (E : hrv_rule readiness_data = hrv_rule_spec readiness_data).
  { unfold hrv_rule, hrv_rule_spec.
    destruct (hrv_balance readiness_data) as [h|]; [|reflexivity].
    destruct (Z.eqb_spec h 0) as [-> | _]; [congruence | reflexivity]. }
  unfold key_factors_spec. rewrite <- E, <- generate_key_factors_rules.
  unfold generate_key_factors. rewrite firstn_firstn. reflexivity.
Qed.

(** The scenario of the specification: a sleep score of 90, a readiness
    score of 45 and 3000 steps. *)
Lemma generate_key_factors_scenario `{FloatText} :
  generate_key_factors (Sample.sleep_of 90 27000)
    (Sample.readiness_of 45 None) (Sample.activity_of 3000)
  = [ Py.lit "Excellent sleep quality (90/100)";
      Py.lit "Low readiness score (45/100)";
      Py.lit "Low activity yesterday (3000 steps)" ].
Proof. reflexivity. Qed.

(** C5, at the input that breaks it. An HRV balance of 0 is present and
    below 60, so the rule on the HRV balance triggers and the
    specification's synthesis reports it; the source tests the balance
    for truth first, takes 0 for an absent value and reports nothing. *)
Theorem generate_key_factors_hrv_zero `{FloatText} :
  hrv_balance (Sample.readiness_of 75 (Some 0)) = Some 0
  /\ key_factors_spec (Sample.sleep_of 75 27000)
       (Sample.readiness_of 75 (Some 0)) (Sample.activity_of 8000)
     = [ Py.lit "Low HRV balance (0/100)" ]
  /\ generate_key_factors (Sample.sleep_of 75 27000)
       (Sample.readiness_of 75 (Some 0)) (Sample.activity_of 8000)
     = [].
Proof. repeat split. Qed.

(* ================================================================== *)
(** ** The number of key factors (C6) *)
(* ================================================================== *)

(** The key factors of the parser's recommendation are the extracted
    ones, or the synthesized ones when none was extracted. *)
Lemma parse_ai_response_key_factors `{FloatText} (response_text : Py.str)
    (target_date : date) (sleep_data : SleepData)
    (readiness_data : ReadinessData) (activity_data : ActivityData) :
  key_factors (parse_ai_response response_text target_date sleep_data
                 readiness_data activity_data)
  = match extract_key_factors response_text with
    | [] => generate_key_factors sleep_data readiness_data activity_data
    | _ :: _ => extract_key_factors response_text
    end.
Proof.
  unfold parse_ai_response, parse_try.
  destruct (extract_rec_type_ok response_text) as [rec_type ->].
  destruct (extract_confidence_ok response_text) as [conf ->].
  simpl. destruct (extract_key_factors response_text); reflexivity.
Qed.

(** Without a [KEY_FACTORS:] marker the key factors are the synthesized
    ones, at most five. *)
Lemma parse_ai_response_synthesized `{FloatText} (response_text : Py.str)
    (target_date : date) (sleep_data : SleepData)
    (readiness_data : ReadinessData) (activity_data : ActivityData) :
  Py.contains KEY_FACTORS_marker response_text = false ->
  key_factors (parse_ai_response response_text target_date sleep_data
                 readiness_data activity_data)
  = generate_key_factors sleep_data readiness_data activity_data
  /\ (List.length
        (key_factors (parse_ai_response response_text target_date
                        sleep_data readiness_data activity_data))
      <= 5)%nat.
Proof.
  intros Hc. rewrite parse_ai_response_key_factors.
  unfold extract_key_factors. rewrite Hc.
  split; [reflexivity | apply generate_key_factors_length].
Qed.

(** A reply that follows the template is read field by field, and no
    fallback takes part. *)
Lemma parse_ai_response_template :
  parse_ai_response Sample.template_reply Sample.today
    (Sample.sleep_of 90 27000) (Sample.readiness_of 45 None)
    (Sample.activity_of 3000)
  = {| rec_date := Sample.today;
       recommendation_type := Py.lit "light_recovery";
       message :=
         Py.lit "Take it easy today.

Specific Tips:
" ++ BULLET ++ Py.lit "Hydrate
" ++ BULLET ++ Py.lit "Stretch";
       confidence := 0.85%float;
       key_factors :=
         [ Py.lit "Sleep was great"; Py.lit "Readiness is low" ] |}.
Proof. vm_compute. reflexivity. Qed.

(** C6, at the input that breaks it. A reply with six bullets under
    [KEY_FACTORS:] gives a recommendation with six key factors: the
    extraction has no cap, while the synthesis cuts its list at five. *)
Theorem parse_ai_response_six_key_factors `{FloatText} (target_date : date)
    (sleep_data : SleepData) (readiness_data : ReadinessData)
    (activity_data : ActivityData) :
  key_factors (parse_ai_response Sample.six_factor_reply target_date
                 sleep_data readiness_data activity_data)
  = [ Py.lit "a"; Py.lit "b"; Py.lit "c"; Py.lit "d"; Py.lit "e";
      Py.lit "f" ]
  /\ List.length
       (key_factors (parse_ai_response Sample.six_factor_reply target_date
                       sleep_data readiness_data activity_data)) = 6%nat.
Proof.
  rewrite parse_ai_response_key_factors. split; reflexivity.
Qed.

(* ================================================================== *)
(** ** The bulleted sections (C7) *)
(* ================================================================== *)

Lemma after_marker_none (marker : Py.str) (lines : list Py.str) :
  (forall line, In line lines -> Py.contains marker line = false) ->
  after_marker marker lines = [].
Proof.
  induction lines as [|line rest IH]; intros Hnone; simpl.
  - reflexivity.
  - rewrite (Hnone line (or_introl eq_refl)).
    apply IH. intros l Hl. apply Hnone. right. exact Hl.
Qed.

Lemma after_marker_absent (marker response_text : Py.str) :
  marker <> [] -> Py.contains marker response_text = false ->
  after_marker marker (Py.split NEWLINE response_text) = [].
Proof.
  intros Hne Hc. apply after_marker_none. intros line Hin.
  destruct (Py.contains marker line) eqn:Hl; [|reflexivity].
  rewrite (split_contains NEWLINE marker response_text line Hne Hin Hl)
    in Hc.
  discriminate Hc.
Qed.

(** The loop over the key factors, once the marker line is behind. *)
Lemma key_factors_loop_in (lines : list Py.str) (acc : list Py.str) :
  key_factors_loop lines true acc
  = acc ++ map bullet_text
             (dash_lines_scanned KEY_FACTORS_marker
                (fun line => negb (is_blank_line line)) lines).
Proof.
  revert acc. induction lines as [|line rest IH]; intros acc;
    cbn [key_factors_loop dash_lines_scanned].
  - symmetry. apply app_nil_r.
  - destruct (Py.contains KEY_FACTORS_marker line); [apply IH|].
    unfold is_dash_line, is_blank_line.
    destruct (Py.startswith DASH (Py.strip line)); cbn [andb negb map].
    + rewrite IH, <- app_assoc. reflexivity.
    + rewrite negb_involutive, andb_true_r.
      destruct (Py.truthy (Py.strip line)).
      * symmetry. apply app_nil_r.
      * apply IH.
Qed.

Lemma key_factors_loop_out (lines : list Py.str) (acc : list Py.str) :
  key_factors_loop lines false acc
  = key_factors_loop (after_marker KEY_FACTORS_marker lines) true acc.
Proof.
  induction lines as [|line rest IH]; cbn [key_factors_loop after_marker].
  - reflexivity.
  - destruct (Py.contains KEY_FACTORS_marker line); [reflexivity|].
    exact IH.
Qed.

(** The loop over the specific tips, once the marker line is behind. *)
Lemma specific_tips_loop_in (lines : list Py.str) (acc : list Py.str) :
  specific_tips_loop lines true acc
  = acc ++ map bullet_text
             (dash_lines_scanned SPECIFIC_TIPS_marker
                (Py.contains CONFIDENCE_marker) lines).
Proof.
  revert acc. induction lines as [|line rest IH]; intros acc;
    cbn [specific_tips_loop dash_lines_scanned].
  - symmetry. apply app_nil_r.
  - destruct (Py.contains SPECIFIC_TIPS_marker line); [apply IH|].
    unfold is_dash_line.
    destruct (Py.startswith DASH (Py.strip line)); cbn [andb negb map].
    + rewrite IH, <- app_assoc. reflexivity.
    + destruct (Py.contains CONFIDENCE_marker line).
      * symmetry. apply app_nil_r.
      * apply IH.
Qed.

Lemma specific_tips_loop_out (lines : list Py.str) (acc : list Py.str) :
  specific_tips_loop lines false acc
  = specific_tips_loop (after_marker SPECIFIC_TIPS_marker lines) true acc.
Proof.
  induction lines as [|line rest IH]; cbn [specific_tips_loop after_marker].
  - reflexivity.
  - destruct (Py.contains SPECIFIC_TIPS_marker line); [reflexivity|].
    exact IH.
Qed.

(** Where the marker is not repeated, the scan of the key factors is the
    section of the specification. *)
Lemma dash_lines_scanned_until_text (marker : Py.str)
    (lines : list Py.str) :
  (forall line, In line lines -> Py.contains marker line = false) ->
  dash_lines_scanned marker (fun line => negb (is_blank_line line)) lines
  = dash_lines_until_text lines.
Proof.
  induction lines as [|line rest IH]; intros Hnone; simpl.
  - reflexivity.
  - rewrite (Hnone line (or_introl eq_refl)).
    assert (IH' := IH (fun l Hl => Hnone l (or_intror Hl))).
    destruct (is_dash_line line); [rewrite IH'; reflexivity|].
    destruct (is_blank_line line); simpl; [exact IH' | reflexivity].
Qed.

(** C7, as amended. Each bulleted section collects, stripped of dashes
    and blanks, the lines after the first line containing its marker that
    begin with a dash once trimmed and do not repeat the marker. For
    [KEY_FACTORS] the collection stops at the first line that is not
    blank, is not a dash line and does not repeat the marker. For
    [SPECIFIC_TIPS] such a line is passed over: the collection stops only
    at a line that is not a dash line and contains [CONFIDENCE:]. *)
Theorem bulleted_sections_scanned (response_text : Py.str) :
  extract_key_factors response_text
  = map bullet_text
      (dash_lines_scanned KEY_FACTORS_marker
         (fun line => negb (is_blank_line line))
         (after_marker KEY_FACTORS_marker
            (Py.split NEWLINE response_text)))
  /\ extract_specific_tips response_text
     = map bullet_text
         (dash_lines_scanned SPECIFIC_TIPS_marker
            (Py.contains CONFIDENCE_marker)
            (after_marker SPECIFIC_TIPS_marker
               (Py.split NEWLINE response_text))).
Proof.
  split.
  - unfold extract_key_factors.
    destruct (Py.contains KEY_FACTORS_marker response_text) eqn:Hc.
    + rewrite key_factors_loop_out, key_factors_loop_in. reflexivity.
    + rewrite after_marker_absent; [reflexivity | discriminate | exact Hc].
  - unfold extract_specific_tips.
    destruct (Py.contains SPECIFIC_TIPS_marker response_text) eqn:Hc.
    + rewrite specific_tips_loop_out, specific_tips_loop_in. reflexivity.
    + rewrite after_marker_absent; [reflexivity | discriminate | exact Hc].
Qed.

(** C7 as stated fails for the tips: a line of plain text between two
    tips does not end the collection. *)
Lemma specific_tips_counterexample :
  map bullet_text
    (bulleted_section_spec SPECIFIC_TIPS_marker
       Sample.interrupted_tips_reply)
  = [ Py.lit "Hydrate" ]
  /\ extract_specific_tips Sample.interrupted_tips_reply
     = [ Py.lit "Hydrate"; Py.lit "Stretch" ]
  /\ extract_specific_tips Sample.interrupted_tips_reply
     <> map bullet_text
          (bulleted_section_spec SPECIFIC_TIPS_marker
             Sample.interrupted_tips_reply).
Proof.
  split; [reflexivity|]. split; [reflexivity|].
  vm_compute. discriminate.
Qed.

(* ================================================================== *)
(** ** The message section (C8) *)
(* ================================================================== *)

Lemma startswith_length (p s : Py.str) :
  Py.startswith p s = true -> (List.length p <= List.length s)%nat.
Proof.
  revert s. induction p as [|a p IH]; intros s Hs; simpl.
  - lia.
  - destruct s as [|b t]; simpl in Hs; [discriminate|].
    apply andb_true_iff in Hs. destruct Hs as [_ Hp].
    specialize (IH t Hp). simpl. lia.
Qed.

Lemma find_from_first_offset (sub s : Py.str) (i : Z) :
  Py.find_from sub s i
  = match first_offset sub s with
    | Some k => i + Z.of_nat k
    | None => -1
    end.
Proof.
  revert i. induction s as [|c t IH]; intros i;
    cbn [Py.find_from first_offset].
  - destruct (Py.startswith sub []); [simpl; lia | reflexivity].
  - destruct (Py.startswith sub (c :: t)); [simpl; lia|].
    rewrite IH. destruct (first_offset sub t); simpl; [lia | reflexivity].
Qed.

(** [first_offset] finds the first occurrence. *)
Lemma first_offset_first (sub s : Py.str) (k : nat) :
  (k <= List.length s)%nat ->
  Py.startswith sub (skipn k s) = true ->
  (forall j, (j < k)%nat -> Py.startswith sub (skipn j s) = false) ->
  first_offset sub s = Some k.
Proof.
  revert k. induction s as [|c t IH]; intros k Hk Hat Hbefore.
  - simpl in Hk. assert (k = O) by lia. subst k.
    simpl in *. rewrite Hat. reflexivity.
  - destruct k as [|k]; cbn [first_offset].
    + simpl in Hat. rewrite Hat. reflexivity.
    + assert (H0 := Hbefore O ltac:(lia)). cbn [skipn] in H0. rewrite H0.
      rewrite (IH k); [reflexivity | simpl in Hk; lia | exact Hat |].
      intros j Hj. apply (Hbefore (S j)). lia.
Qed.

Lemma first_offset_none (sub s : Py.str) :
  (forall j, (j <= List.length s)%nat ->
             Py.startswith sub (skipn j s) = false) ->
  first_offset sub s = None.
Proof.
  induction s as [|c t IH]; intros Hnone; cbn [first_offset].
  - assert (H0 := Hnone O ltac:(simpl; lia)). cbn [skipn] in H0.
    rewrite H0. reflexivity.
  - assert (H0 := Hnone O ltac:(simpl; lia)). cbn [skipn] in H0.
    rewrite H0. rewrite IH; [reflexivity|].
    intros j Hj. apply (Hnone (S j)). simpl. lia.
Qed.

Lemma first_offset_contains (sub s : Py.str) (k : nat) :
  first_offset sub s = Some k -> Py.contains sub s = true.
Proof.
  revert k. induction s as [|c t IH]; intros k; cbn [first_offset].
  - simpl. destruct (Py.startswith sub []); [reflexivity | discriminate].
  - cbn [Py.contains].
    destruct (Py.startswith sub (c :: t)); [reflexivity|].
    destruct (first_offset sub t) as [k'|]; [|discriminate].
    intros _. rewrite (IH k' eq_refl). reflexivity.
Qed.

Lemma occurs_at_skipn (sub s : Py.str) (from j : nat) :
  (from <= List.length s)%nat ->
  (j <= List.length (skipn from s))%nat ->
  Py.startswith sub (skipn j (skipn from s)) = true ->
  occurs_at sub s (from + j).
Proof.
  intros Hfrom Hj Hs. rewrite length_skipn in Hj. split; [lia|].
  rewrite skipn_skipn in Hs. rewrite Nat.add_comm. exact Hs.
Qed.

(** [s.find(sub, start)] on a first occurrence, and on none. *)
Lemma find_first_at (sub s : Py.str) (start e : nat) :
  (start <= List.length s)%nat -> first_at sub s start e ->
  Py.find s sub (Z.of_nat start) = Z.of_nat e.
Proof.
  intros Hstart (Hle & (Hlen & Hat) & Hbefore).
  unfold Py.find.
  destruct (Z.ltb_spec (Z.of_nat start) 0) as [Hneg|_]; [lia|].
  destruct (Z.ltb_spec (Z.of_nat (List.length s)) (Z.of_nat start))
    as [Hbig|_]; [lia|].
  rewrite Nat2Z.id, find_from_first_offset.
  rewrite (first_offset_first sub (skipn start s) (e - start)).
  - lia.
  - rewrite length_skipn. lia.
  - rewrite skipn_skipn. replace (e - start + start)%nat with e by lia.
    exact Hat.
  - intros j Hj.
    destruct (Py.startswith sub (skipn j (skipn start s))) eqn:Hs;
      [|reflexivity].
    exfalso. apply (Hbefore (start + j)%nat); [lia|].
    apply occurs_at_skipn; [exact Hstart | rewrite length_skipn; lia|].
    exact Hs.
Qed.

Lemma find_absent_from (sub s : Py.str) (start : nat) :
  (start <= List.length s)%nat -> absent_from sub s start ->
  Py.find s sub (Z.of_nat start) = -1.
Proof.
  intros Hstart Habsent. unfold Py.find.
  destruct (Z.ltb_spec (Z.of_nat start) 0) as [Hneg|_]; [lia|].
  destruct (Z.ltb_spec (Z.of_nat (List.length s)) (Z.of_nat start))
    as [Hbig|_]; [lia|].
  rewrite Nat2Z.id, find_from_first_offset.
  rewrite first_offset_none; [reflexivity|].
  intros j Hj.
  destruct (Py.startswith sub (skipn j (skipn start s))) eqn:Hs;
    [|reflexivity].
  exfalso. apply (Habsent (start + j)%nat); [lia|].
  apply occurs_at_skipn; assumption.
Qed.

(** [s[a:b]] between two offsets of [s]. *)
Lemma slice_between (s : Py.str) (a b : nat) :
  (a <= b <= List.length s)%nat ->
  Py.slice s (Z.of_nat a) (Z.of_nat b) = firstn (b - a) (skipn a s).
Proof.
  intros Hab. unfold Py.slice, Py.slice_index.
  destruct (Z.ltb_spec (Z.of_nat a) 0) as [Hneg|_]; [lia|].
  destruct (Z.ltb_spec (Z.of_nat b) 0) as [Hneg|_]; [lia|].
  rewrite !Z.min_l by lia.
  rewrite <- Nat2Z.inj_sub by lia. rewrite !Nat2Z.id. reflexivity.
Qed.

(** The message between the end of [MESSAGE:] and a first later marker at
    offset [e], whichever search of the source found it. *)
Lemma extract_message_until (response_text : Py.str) (i e : nat) :
  first_at MESSAGE_marker response_text 0 i ->
  (e <= List.length response_text)%nat ->
  (i + List.length MESSAGE_marker <= e)%nat ->
  (let message_end :=
     Py.find response_text SPECIFIC_TIPS_marker
       (Z.of_nat (i + List.length MESSAGE_marker)) in
   (if message_end =? -1
    then Py.find response_text CONFIDENCE_marker
           (Z.of_nat (i + List.length MESSAGE_marker))
    else message_end) = Z.of_nat e) ->
  extract_message response_text
  = Py.strip (firstn (e - (i + List.length MESSAGE_marker))
                (skipn (i + List.length MESSAGE_marker) response_text)).
Proof.
  intros Hfirst He Hie Hend.
  assert (Hfind : Py.find response_text MESSAGE_marker 0 = Z.of_nat i)
    by (apply (find_first_at _ _ O i); [lia | exact Hfirst]).
  assert (Hc : Py.contains MESSAGE_marker response_text = true).
  { destruct Hfirst as (_ & (Hlen & Hat) & Hbefore).
    apply (first_offset_contains _ _ i).
    apply first_offset_first; [exact Hlen | exact Hat|].
    intros j Hj.
    destruct (Py.startswith MESSAGE_marker (skipn j response_text)) eqn:Hs;
      [|reflexivity].
    exfalso. apply (Hbefore j); [lia|]. split; [lia | exact Hs]. }
  unfold extract_message. rewrite Hc, Hfind, <- Nat2Z.inj_add.
  cbv zeta in Hend. rewrite Hend.
  rewrite slice_between by lia. reflexivity.
Qed.

(** C8, as amended. For a reply whose first [MESSAGE:] marker is at
    offset [i]: when [SPECIFIC_TIPS:] occurs after the marker, the message
    is the trimmed text between the end of the marker and the first such
    occurrence, whether or not [CONFIDENCE:] comes earlier; when
    [SPECIFIC_TIPS:] does not occur after the marker and [CONFIDENCE:]
    does, the message is the trimmed text up to the first such
    [CONFIDENCE:]. *)
Theorem extract_message_section (response_text : Py.str) (i : nat) :
  first_at MESSAGE_marker response_text 0 i ->
  let start := (i + List.length MESSAGE_marker)%nat in
  (forall e, first_at SPECIFIC_TIPS_marker response_text start e ->
     extract_message response_text
     = Py.strip (firstn (e - start) (skipn start response_text)))
  /\ (absent_from SPECIFIC_TIPS_marker response_text start ->
      forall e, first_at CONFIDENCE_marker response_text start e ->
        extract_message response_text
        = Py.strip (firstn (e - start) (skipn start response_text))).
Proof.
  intros Hfirst start.
  assert (Hstart : (start <= List.length response_text)%nat).
  { destruct Hfirst as (_ & (Hlen & Hat) & _).
    apply startswith_length in Hat. rewrite length_skipn in Hat.
    unfold start. lia. }
  split.
  - intros e He.
    assert (Hfind := find_first_at _ _ _ _ Hstart He).
    destruct He as (Hle & (Hlen & _) & _).
    apply (extract_message_until response_text i e Hfirst Hlen Hle).
    cbv zeta. fold start. rewrite Hfind.
    destruct (Z.eqb_spec (Z.of_nat e) (-1)); [lia | reflexivity].
  - intros Habsent e He.
    assert (Htips := find_absent_from _ _ _ Hstart Habsent).
    assert (Hfind := find_first_at _ _ _ _ Hstart He).
    destruct He as (Hle & (Hlen & _) & _).
    apply (extract_message_until response_text i e Hfirst Hlen Hle).
    cbv zeta. fold start. rewrite Htips, Hfind. reflexivity.
Qed.

Lemma first_offset_sound (sub s : Py.str) (k : nat) :
  first_offset sub s = Some k -> first_at sub s 0 k.
Proof.
  revert k. induction s as [|c t IH]; intros k; cbn [first_offset].
  - destruct (Py.startswith sub []) eqn:Hs; [|discriminate].
    intros [= <-]. repeat split; [lia | simpl; lia | exact Hs | lia].
  - destruct (Py.startswith sub (c :: t)) eqn:Hs.
    + intros [= <-]. repeat split; [lia | simpl; lia | exact Hs | lia].
    + destruct (first_offset sub t) as [k'|]; [|discriminate].
      intros [= <-]. destruct (IH k' eq_refl) as (_ & (Hlen & Hat) & Hb).
      repeat split; [lia | simpl; lia | exact Hat |].
      intros [|j] Hj [Hjl Hjs].
      * cbn [skipn] in Hjs. congruence.
      * apply (Hb j); [lia|]. split; [simpl in Hjl; lia | exact Hjs].
Qed.

(** A first occurrence at or after [from], read off the scan of the rest
    of the text. *)
Lemma first_at_from (sub s : Py.str) (from k : nat) :
  (from <= List.length s)%nat ->
  first_offset sub (skipn from s) = Some k ->
  first_at sub s from (from + k).
Proof.
  intros Hfrom E.
  destruct (first_offset_sound _ _ _ E) as (_ & (Hlen & Hat) & Hb).
  split; [lia|]. split.
  - apply occurs_at_skipn; assumption.
  - intros j Hj [Hjl Hjs]. apply (Hb (j - from)%nat); [lia|].
    split; [rewrite length_skipn; lia|].
    rewrite skipn_skipn. replace (j - from + from)%nat with j by lia.
    exact Hjs.
Qed.

Lemma extract_message_section_witness :
  first_at MESSAGE_marker Sample.template_reply 0 88
  /\ first_at SPECIFIC_TIPS_marker Sample.template_reply
       (88 + List.length MESSAGE_marker) 118
  /\ extract_message Sample.template_reply
     = Py.lit "Take it easy today.".
Proof.
  assert (H1 : first_at MESSAGE_marker Sample.template_reply 0 88)
    by (apply first_offset_sound; reflexivity).
  assert (H2 : first_at SPECIFIC_TIPS_marker Sample.template_reply
                 (88 + List.length MESSAGE_marker) 118)
    by (apply (first_at_from _ _ 96 22); [simpl; lia | reflexivity]).
  refine (conj H1 (conj H2 _)).
  rewrite (proj1 (extract_message_section Sample.template_reply 88 H1)
             118%nat H2).
  reflexivity.
Defined.

(** C8 as stated fails: with [CONFIDENCE:] before [SPECIFIC_TIPS:] the
    marker that comes next is [CONFIDENCE:], yet the message of the source
    runs on to [SPECIFIC_TIPS:]; and the message is trimmed, not raw. *)
Lemma extract_message_counterexample :
  message_section_spec Sample.confidence_first_reply
  = Py.lit " Rest." ++ [NEWLINE]
  /\ extract_message Sample.confidence_first_reply
     = Py.lit "Rest." ++ [NEWLINE] ++ Py.lit "CONFIDENCE: 0.9"
  /\ extract_message Sample.confidence_first_reply
     <> message_section_spec Sample.confidence_first_reply
  /\ extract_message Sample.confidence_first_reply
     <> Py.strip (message_section_spec Sample.confidence_first_reply).
Proof.
  split; [reflexivity|]. split; [reflexivity|].
  split; vm_compute; discriminate.
Qed.

(** With neither marker after [MESSAGE:], the second search also answers
    [-1], which the slice takes for the offset of the last character: the
    message loses its last character. *)
Lemma extract_message_no_later_marker :
  extract_message (Py.lit "MESSAGE: Rest today") = Py.lit "Rest toda".
Proof. reflexivity. Qed.

(* ================================================================== *)
(** ** The prompt on a night without sleep (C2) *)
(* ================================================================== *)

Lemma int_truediv_raise (a b : Z) (e : exn) :
  b <> 0 -> PyFloat.int_truediv a b = Raise e -> e = OverflowError.
Proof.
  intros Hb. unfold PyFloat.int_truediv.
  destruct (Z.eqb_spec b 0) as [|_]; [contradiction|].
  destruct (SFdiv prec emax (PyFloat.Z2SF a) (PyFloat.Z2SF b));
    congruence.
Qed.

Lemma percent_of_zero (x : float) :
  percent_of x 0 = Raise ZeroDivisionError.
Proof. reflexivity. Qed.

(** C2, refuted on the source. With a total sleep duration of 0 the
    prompt is never built: the first share of a sleep stage divides by
    zero ([ZeroDivisionError]; or the conversion of an absurdly long stage
    to hours overflows before that). No "not applicable" is rendered, and
    as the prompt is built before the [try] of [analyze_recovery] the
    fault leaves [analyze_recovery] as it is. *)
Theorem build_analysis_prompt_zero_sleep `{FloatText}
    (sleep_data : SleepData) (readiness_data : ReadinessData)
    (activity_data : ActivityData) :
  total_sleep_duration sleep_data = 0 ->
  exists e,
    (e = ZeroDivisionError \/ e = OverflowError)
    /\ build_analysis_prompt sleep_data readiness_data activity_data
       = Raise e
    /\ forall client : Client,
         analyze_recovery client sleep_data readiness_data activity_data
         = Raise e.
Proof.
  intros Hzero.
  assert (Hbuild : exists e,
             (e = ZeroDivisionError \/ e = OverflowError)
             /\ build_analysis_prompt sleep_data readiness_data
                  activity_data = Raise e).
  { unfold build_analysis_prompt. rewrite Hzero.
    change (PyFloat.int_truediv 0 3600) with (Ok 0%float).
    cbn [bind].
    destruct (PyFloat.int_truediv (deep_sleep_duration sleep_data) 3600)
      as [deep | e1] eqn:E1; cbn [bind];
      [|exists e1; split; [right; apply (int_truediv_raise _ 3600 _ ltac:(lia) E1)
                          | reflexivity]].
    destruct (PyFloat.int_truediv (rem_sleep_duration sleep_data) 3600)
      as [rem | e2] eqn:E2; cbn [bind];
      [|exists e2; split; [right; apply (int_truediv_raise _ 3600 _ ltac:(lia) E2)
                          | reflexivity]].
    destruct (PyFloat.int_truediv (light_sleep_duration sleep_data) 3600)
      as [light | e3] eqn:E3; cbn [bind];
      [|exists e3; split; [right; apply (int_truediv_raise _ 3600 _ ltac:(lia) E3)
                          | reflexivity]].
    rewrite percent_of_zero. cbn [bind].
    exists ZeroDivisionError. split; [left|]; reflexivity. }
  destruct Hbuild as (e & He & Hb).
  exists e. split; [exact He|]. split; [exact Hb|].
  intros client. unfold analyze_recovery. rewrite Hb. reflexivity.
Qed.

Lemma build_analysis_prompt_zero_sleep_witness :
  total_sleep_duration (Sample.sleep_of 60 0) = 0
  /\ exists e,
       (e = ZeroDivisionError \/ e = OverflowError)
       /\ build_analysis_prompt (Sample.sleep_of 60 0)
            (Sample.readiness_of 70 None) (Sample.activity_of 8000)
          = Raise e
       /\ forall client : Client,
            analyze_recovery client (Sample.sleep_of 60 0)
              (Sample.readiness_of 70 None) (Sample.activity_of 8000)
            = Raise e.
Proof.
  split; [reflexivity|].
  exact (build_analysis_prompt_zero_sleep (Sample.sleep_of 60 0)
           (Sample.readiness_of 70 None) (Sample.activity_of 8000)
           eq_refl).
Defined.

(** The same night through the endpoint: the division fault is answered
    as an internal error. *)
Lemma generate_recommendation_zero_sleep :
  build_analysis_prompt (Sample.sleep_of 60 0)
    (Sample.readiness_of 70 None) (Sample.activity_of 8000)
  = Raise ZeroDivisionError
  /\ Main.generate_recommendation Sample.fromisoformat
       (Ok (Sample.replying_client Sample.template_reply))
       (fun _ => Ok (Sample.sleep_of 60 0, Sample.readiness_of 70 None,
                     Sample.activity_of 8000))
       (Py.lit "2024-01-15")
     = HTTPException 500
         (Py.lit "Internal error: float division by zero").
Proof. split; reflexivity. Qed.

(** With some sleep the prompt is built. *)
Lemma build_analysis_prompt_some_sleep :
  exists prompt,
    build_analysis_prompt (Sample.sleep_of 90 27000)
      (Sample.readiness_of 45 None) (Sample.activity_of 3000)
    = Ok prompt
    /\ Py.contains
         (Py.lit "- Deep Sleep: 1.5 hours (20% of total)") prompt = true.
Proof. eexists. split; [vm_compute; reflexivity | vm_compute; reflexivity]. Qed.

(* ================================================================== *)
(** ** The status of a provider error (C9) *)
(* ================================================================== *)

Section ProviderError.
Variable fromisoformat : Py.str -> option date.
Variable get_oura_client : result OuraClient.t.
Variables (date_str : Py.str) (query_date : date).
Variables (oura_client : OuraClient.t) (m : Py.str).
Hypothesis valid_date : fromisoformat date_str = Some query_date.
Hypothesis configured : get_oura_client = Ok oura_client.

(** The sleep and activity endpoints answer a provider error with 503. *)
Lemma get_sleep_data_provider_error :
  OuraClient.get_sleep_data oura_client query_date
    = Raise (OuraAPIError m) ->
  Main.get_sleep_data fromisoformat get_oura_client date_str
  = HTTPException 503 (Py.lit "Oura API error: " ++ m).
Proof.
  intros E. unfold Main.get_sleep_data.
  rewrite valid_date, configured. cbn [bind]. rewrite E. reflexivity.
Qed.

Lemma get_activity_data_provider_error :
  OuraClient.get_activity_data oura_client query_date
    = Raise (OuraAPIError m) ->
  Main.get_activity_data fromisoformat get_oura_client date_str
  = HTTPException 503 (Py.lit "Oura API error: " ++ m).
Proof.
  intros E. unfold Main.get_activity_data.
  rewrite valid_date, configured. cbn [bind]. rewrite E. reflexivity.
Qed.

(** C9, refuted on the source. When the provider client raises a provider
    error, the readiness endpoint answers with the status 509, where the
    sleep and activity endpoints answer with 503. *)
Theorem get_readiness_data_provider_error :
  OuraClient.get_readiness_data oura_client query_date
    = Raise (OuraAPIError m) ->
  Main.get_readiness_data fromisoformat get_oura_client date_str
  = HTTPException 509 (Py.lit "Oura API error: " ++ m).
Proof.
  intros E. unfold Main.get_readiness_data.
  rewrite valid_date, configured. cbn [bind]. rewrite E. reflexivity.
Qed.

End ProviderError.

Lemma get_readiness_data_provider_error_witness :
  Sample.fromisoformat (Py.lit "2024-01-15") = Some Sample.today
  /\ OuraClient.get_readiness_data
       (Sample.provider_down (Py.lit "Rate limit exceeded. Try again later."))
       Sample.today
     = Raise (OuraAPIError (Py.lit "Rate limit exceeded. Try again later."))
  /\ status_of
       (Main.get_readiness_data Sample.fromisoformat
          (Ok (Sample.provider_down
                 (Py.lit "Rate limit exceeded. Try again later.")))
          (Py.lit "2024-01-15"))
     = 509.
Proof.
  split; [reflexivity|]. split; [reflexivity|].
  rewrite (get_readiness_data_provider_error Sample.fromisoformat
             (Ok (Sample.provider_down
                    (Py.lit "Rate limit exceeded. Try again later.")))
             (Py.lit "2024-01-15") Sample.today
             (Sample.provider_down
                (Py.lit "Rate limit exceeded. Try again later."))
             (Py.lit "Rate limit exceeded. Try again later.")
             eq_refl eq_refl eq_refl).
  reflexivity.
Defined.

(* ================================================================== *)
(** ** The thousands separator *)
(* ================================================================== *)

(** The grouping only inserts commas: without them the digits are those
    given, in the same order. *)
Lemma group3_digits (fuel : nat) (rdigits : Py.str) :
  filter (fun c => negb (c =? 44)%N) (Py.group3 fuel rdigits)
  = filter (fun c => negb (c =? 44)%N) rdigits.
Proof.
  revert rdigits. induction fuel as [|k IH]; intros rdigits;
    [destruct rdigits; reflexivity|].
  destruct rdigits as [|a [|b [|c [|e rest]]]]; try reflexivity.
  cbn [Py.group3 filter]. change (negb (44 =? 44)%N) with false.
  cbv iota. rewrite IH. reflexivity.
Qed.

(** [format(n, ",")] without its commas is the sign and [str(abs(n))]
    without its commas. *)
Lemma str_of_int_commas_digits (n : Z) :
  filter (fun c => negb (c =? 44)%N) (Py.str_of_int_commas n)
  = filter (fun c => negb (c =? 44)%N)
      ((if n <? 0 then [45%N] else []) ++ Py.str_of_int (Z.abs n)).
Proof.
  unfold Py.str_of_int_commas. cbv zeta.
  assert (E : filter (fun c => negb (c =? 44)%N)
                (rev (Py.group3 (List.length (Py.str_of_int (Z.abs n)))
                        (rev (Py.str_of_int (Z.abs n)))))
              = filter (fun c => negb (c =? 44)%N)
                  (Py.str_of_int (Z.abs n))).
  { rewrite filter_rev, group3_digits, <- filter_rev, rev_involutive.
    reflexivity. }
  destruct (n <? 0); cbn [app filter]; rewrite E; reflexivity.
Qed.

(** The grouping at its thresholds. *)
Lemma str_of_int_commas_examples :
  Py.str_of_int_commas 0 = Py.lit "0"
  /\ Py.str_of_int_commas 999 = Py.lit "999"
  /\ Py.str_of_int_commas 1000 = Py.lit "1,000"
  /\ Py.str_of_int_commas 3000 = Py.lit "3,000"
  /\ Py.str_of_int_commas 12345 = Py.lit "12,345"
  /\ Py.str_of_int_commas 123456 = Py.lit "123,456"
  /\ Py.str_of_int_commas 1234567 = Py.lit "1,234,567"
  /\ Py.str_of_int_commas (-1234) = Py.lit "-1,234".
Proof. repeat split; reflexivity. Qed.

(* ================================================================== *)
(** ** The provider client: requests and failures *)
(* ================================================================== *)

Lemma make_request_log `(tr : OuraApi.Transport) (self : OuraApi.t)
    (endpoint start_date end_date : Py.str) (log : list OuraApi.Request) :
  snd (OuraApi.make_request tr self endpoint
         [ (Py.lit "start_date", start_date);
           (Py.lit "end_date", end_date) ] log)
  = log ++ [request_to self endpoint start_date end_date].
Proof.
  unfold OuraApi.make_request, request_to.
  destruct (tr log _) as [code body | msg | body | e]; try reflexivity.
  destruct (code =? 401); [reflexivity|].
  destruct (code =? 429); reflexivity.
Qed.

Lemma make_request_body `(tr : OuraApi.Transport) (self : OuraApi.t)
    (endpoint start_date end_date : Py.str) (log : list OuraApi.Request)
    (body : Json.t) :
  tr log (request_to self endpoint start_date end_date)
    = OuraApi.JSONBody body ->
  OuraApi.make_request tr self endpoint
    [ (Py.lit "start_date", start_date); (Py.lit "end_date", end_date) ]
    log
  = (Ok body, log ++ [request_to self endpoint start_date end_date]).
Proof.
  intros E. unfold OuraApi.make_request. fold (request_to self endpoint
    start_date end_date). rewrite E. reflexivity.
Qed.

(** The provider error [_make_request] raises when [raise_for_status]
    raised. *)
Lemma make_request_refused `(tr : OuraApi.Transport) (self : OuraApi.t)
    (endpoint start_date end_date : Py.str) (log : list OuraApi.Request)
    (status_code : Z) (body_text : Py.str) :
  tr log (request_to self endpoint start_date end_date)
    = OuraApi.HTTPStatusError status_code body_text ->
  OuraApi.make_request tr self endpoint
    [ (Py.lit "start_date", start_date); (Py.lit "end_date", end_date) ]
    log
  = (Raise (OuraAPIError
              (if status_code =? 401
               then Py.lit "Invalid or expired Oura access token"
               else if status_code =? 429
               then Py.lit "Rate limit exceeded. Try again later."
               else Py.lit "Oura API error: "
                    ++ Py.str_of_int status_code ++ Py.lit " - "
                    ++ body_text)),
     log ++ [request_to self endpoint start_date end_date]).
Proof.
  intros E. unfold OuraApi.make_request. fold (request_to self endpoint
    start_date end_date). rewrite E.
  destruct (status_code =? 401); [reflexivity|].
  destruct (status_code =? 429); reflexivity.
Qed.

(** The provider error [_make_request] raises when the transport raised
    [httpx.RequestError]. *)
Lemma make_request_unreachable `(tr : OuraApi.Transport) (self : OuraApi.t)
    (endpoint start_date end_date : Py.str) (log : list OuraApi.Request)
    (msg : Py.str) :
  tr log (request_to self endpoint start_date end_date)
    = OuraApi.RequestError msg ->
  OuraApi.make_request tr self endpoint
    [ (Py.lit "start_date", start_date); (Py.lit "end_date", end_date) ]
    log
  = (Raise (OuraAPIError
              (Py.lit "Network error connecting to Oura API: " ++ msg)),
     log ++ [request_to self endpoint start_date end_date]).
Proof.
  intros E. unfold OuraApi.make_request. fold (request_to self endpoint
    start_date end_date). rewrite E. reflexivity.
Qed.

Lemma make_request_no_body `(tr : OuraApi.Transport) (self : OuraApi.t)
    (endpoint start_date end_date : Py.str) (log : list OuraApi.Request) :
  (forall body, tr log (request_to self endpoint start_date end_date)
                <> OuraApi.JSONBody body) ->
  exists e,
    OuraApi.make_request tr self endpoint
      [ (Py.lit "start_date", start_date); (Py.lit "end_date", end_date) ]
      log
    = (Raise e, log ++ [request_to self endpoint start_date end_date]).
Proof.
  intros Hno. unfold OuraApi.make_request. fold (request_to self endpoint
    start_date end_date).
  destruct (tr log _) as [code body | msg | body | e].
  - destruct (code =? 401); [eauto|]. destruct (code =? 429); eauto.
  - eauto.
  - exfalso. exact (Hno body eq_refl).
  - eauto.
Qed.

(** X1. The requests of the three fetches. Whatever the provider
    answers, the readiness fetch issues exactly one request, for the
    window from the date to the same date; the activity fetch issues
    exactly one, for the window from the date to the next day; the sleep
    fetch asks [sleep] for the window from the date to the next day and
    then, only when that request returned a body, [daily_sleep] for the
    same window. *)
Theorem fetches_issue_requests `{Pydantic} (tr : OuraApi.Transport)
    (self : OuraApi.t) (d next : date) (log : list OuraApi.Request) :
  next_day d = Ok next ->
  snd (OuraApi.get_readiness_data tr self d log)
  = log ++ [request_to self (Py.lit "daily_readiness")
              (isoformat d) (isoformat d)]
  /\ snd (OuraApi.get_activity_data tr self d log)
     = log ++ [request_to self (Py.lit "daily_activity")
                 (isoformat d) (isoformat next)]
  /\ snd (OuraApi.get_sleep_data tr self d log)
     = log
       ++ request_to self (Py.lit "sleep") (isoformat d) (isoformat next)
          :: match tr log (request_to self (Py.lit "sleep")
                             (isoformat d) (isoformat next)) with
             | OuraApi.JSONBody _ =>
                 [request_to self (Py.lit "daily_sleep")
                    (isoformat d) (isoformat next)]
             | _ => []
             end.
Proof.
  intros Hnext. split; [|split].
  - unfold OuraApi.get_readiness_data, OuraApi.bind_io.
    pose proof (make_request_log tr self (Py.lit "daily_readiness")
                  (isoformat d) (isoformat d) log) as Hlog.
    destruct (OuraApi.make_request tr self _ _ log) as [[body | e] log'];
      simpl in Hlog; subst log'; reflexivity.
  - unfold OuraApi.get_activity_data, OuraApi.bind_io at 1.
    unfold OuraApi.lift at 1. rewrite Hnext. unfold OuraApi.bind_io.
    pose proof (make_request_log tr self (Py.lit "daily_activity")
                  (isoformat d) (isoformat next) log) as Hlog.
    destruct (OuraApi.make_request tr self _ _ log) as [[body | e] log'];
      simpl in Hlog; subst log'; reflexivity.
  - unfold OuraApi.get_sleep_data, OuraApi.bind_io at 1.
    unfold OuraApi.lift at 1. rewrite Hnext. unfold OuraApi.bind_io at 1.
    destruct (tr log (request_to self (Py.lit "sleep") (isoformat d)
                        (isoformat next))) as [c t | m | body | e] eqn:E.
    4: { destruct (make_request_no_body tr self (Py.lit "sleep")
                     (isoformat d) (isoformat next) log) as [e' ->];
         [intros b; rewrite E; discriminate | reflexivity]. }
    1, 2: destruct (make_request_no_body tr self (Py.lit "sleep")
                      (isoformat d) (isoformat next) log) as [e' ->];
          [intros b; rewrite E; discriminate | reflexivity].
    rewrite (make_request_body _ _ _ _ _ _ _ E).
    unfold OuraApi.bind_io.
    pose proof (make_request_log tr self (Py.lit "daily_sleep")
                  (isoformat d) (isoformat next)
                  (log ++ [request_to self (Py.lit "sleep") (isoformat d)
                             (isoformat next)])) as Hlog.
    destruct (OuraApi.make_request tr self (Py.lit "daily_sleep") _ _)
      as [[body2 | e2] log'];
      simpl in Hlog; subst log'; unfold OuraApi.lift; simpl;
      rewrite <- app_assoc; reflexivity.
Qed.

Lemma fetches_issue_requests_witness :
  next_day Sample.today = Ok {| year := 2024; month := 1; day := 16 |}
  /\ snd (OuraApi.get_sleep_data
            (Fixture.always (OuraApi.HTTPStatusError 429 []))
            Fixture.oura Sample.today [])
     = [ request_to Fixture.oura (Py.lit "sleep") (Py.lit "2024-01-15")
           (Py.lit "2024-01-16") ].
Proof.
  split; [reflexivity|].
  exact (proj2 (proj2 (fetches_issue_requests
                         (Fixture.always (OuraApi.HTTPStatusError 429 []))
                         Fixture.oura Sample.today _ [] eq_refl))).
Defined.

Lemma oura_client_of_some `{Pydantic} (tr : OuraApi.Transport) (env : Env)
    (self : OuraApi.t) (log : list OuraApi.Request) :
  Endpoints.oura_client_of tr env (Some self) log
  = Ok (OuraApi.as_handlers_see tr self log).
Proof. reflexivity. Qed.

(** What the sleep handler answers, by the result of the fetch. *)
Lemma sleep_endpoint_result `{Pydantic}
    (fromisoformat : Py.str -> option date) (tr : OuraApi.Transport)
    (env : Env) (self : OuraApi.t) (log : list OuraApi.Request)
    (date_str : Py.str) (d : date) :
  fromisoformat date_str = Some d ->
  Endpoints.sleep fromisoformat tr env (Some self) log date_str
  = match fst (OuraApi.get_sleep_data tr self d log) with
    | Ok sleep_data => Response sleep_data
    | Raise (OuraAPIError m) =>
        HTTPException 503 (Py.lit "Oura API error: " ++ m)
    | Raise e => HTTPException 500 (Py.lit "Internal error: " ++ exn_str e)
    end.
Proof.
  intros Hd. unfold Endpoints.sleep, Main.get_sleep_data.
  rewrite Hd, oura_client_of_some. reflexivity.
Qed.

Lemma readiness_endpoint_result `{Pydantic}
    (fromisoformat : Py.str -> option date) (tr : OuraApi.Transport)
    (env : Env) (self : OuraApi.t) (log : list OuraApi.Request)
    (date_str : Py.str) (d : date) :
  fromisoformat date_str = Some d ->
  Endpoints.readiness fromisoformat tr env (Some self) log date_str
  = match fst (OuraApi.get_readiness_data tr self d log) with
    | Ok readiness_data => Response readiness_data
    | Raise (OuraAPIError m) =>
        HTTPException 509 (Py.lit "Oura API error: " ++ m)
    | Raise e => HTTPException 500 (Py.lit "Internal error: " ++ exn_str e)
    end.
Proof.
  intros Hd. unfold Endpoints.readiness, Main.get_readiness_data.
  rewrite Hd, oura_client_of_some. reflexivity.
Qed.

(** The sleep fetch raises what either of its requests raises: the first
    one, or the second one after the first returned a body. *)
Lemma get_sleep_data_failure `{Pydantic} (tr : OuraApi.Transport)
    (self : OuraApi.t) (d next : date) (log : list OuraApi.Request)
    (e : exn) :
  next_day d = Ok next ->
  (fst (OuraApi.make_request tr self (Py.lit "sleep")
          [ (Py.lit "start_date", isoformat d);
            (Py.lit "end_date", isoformat next) ] log) = Raise e
   \/ (exists body,
         tr log (request_to self (Py.lit "sleep") (isoformat d)
                   (isoformat next)) = OuraApi.JSONBody body
         /\ fst (OuraApi.make_request tr self (Py.lit "daily_sleep")
                   [ (Py.lit "start_date", isoformat d);
                     (Py.lit "end_date", isoformat next) ]
                   (log ++ [request_to self (Py.lit "sleep") (isoformat d)
                              (isoformat next)])) = Raise e)) ->
  fst (OuraApi.get_sleep_data tr self d log) = Raise e.
Proof.
  intros Hnext Hfail.
  unfold OuraApi.get_sleep_data, OuraApi.bind_io at 1.
  unfold OuraApi.lift at 1. rewrite Hnext. unfold OuraApi.bind_io at 1.
  destruct Hfail as [H1 | (body & E1 & H2)].
  - destruct (OuraApi.make_request tr self (Py.lit "sleep") _ log)
      as [[body | e1] log']; cbn [fst] in H1; [discriminate H1|].
    injection H1 as ->. reflexivity.
  - rewrite (make_request_body _ _ _ _ _ _ _ E1). unfold OuraApi.bind_io.
    destruct (OuraApi.make_request tr self (Py.lit "daily_sleep") _ _)
      as [[body2 | e2] log']; cbn [fst] in H2; [discriminate H2|].
    injection H2 as ->. reflexivity.
Qed.

(** X2. A failure of the provider on either request of the sleep fetch
    (on [sleep] or, after [sleep] returned a body, on [daily_sleep]) is
    answered by [GET /api/oura/sleep/{date}] with the status 503 and the
    text of the provider error after "Oura API error: ". That text is
    "Invalid or expired Oura access token" for a refused status 401,
    "Rate limit exceeded. Try again later." for 429, "Oura API error:
    <status> - <body>" for any other refused status, and "Network error
    connecting to Oura API: <text>" when the network raised. *)
Theorem sleep_endpoint_provider_failure `{Pydantic}
    (fromisoformat : Py.str -> option date) (tr : OuraApi.Transport)
    (env : Env) (self : OuraApi.t) (log : list OuraApi.Request)
    (date_str : Py.str) (d next : date) (failed : OuraApi.Outcome) :
  fromisoformat date_str = Some d ->
  next_day d = Ok next ->
  (tr log (request_to self (Py.lit "sleep") (isoformat d)
             (isoformat next)) = failed
   \/ (exists body,
         tr log (request_to self (Py.lit "sleep") (isoformat d)
                   (isoformat next)) = OuraApi.JSONBody body
         /\ tr (log ++ [request_to self (Py.lit "sleep") (isoformat d)
                          (isoformat next)])
              (request_to self (Py.lit "daily_sleep") (isoformat d)
                 (isoformat next)) = failed)) ->
  (forall (status_code : Z) (body_text : Py.str),
     failed = OuraApi.HTTPStatusError status_code body_text ->
     Endpoints.sleep fromisoformat tr env (Some self) log date_str
     = HTTPException 503
         (Py.lit "Oura API error: "
          ++ (if status_code =? 401
              then Py.lit "Invalid or expired Oura access token"
              else if status_code =? 429
              then Py.lit "Rate limit exceeded. Try again later."
              else Py.lit "Oura API error: "
                   ++ Py.str_of_int status_code ++ Py.lit " - "
                   ++ body_text)))
  /\ (forall msg : Py.str,
        failed = OuraApi.RequestError msg ->
        Endpoints.sleep fromisoformat tr env (Some self) log date_str
        = HTTPException 503
            (Py.lit "Oura API error: "
             ++ Py.lit "Network error connecting to Oura API: " ++ msg)).
Proof.
  intros Hd Hnext Hfail.
  rewrite (sleep_endpoint_result _ _ _ _ _ _ d Hd).
  split.
  - intros status_code body_text ->.
    rewrite (get_sleep_data_failure tr self d next log
               (OuraAPIError
                  (if status_code =? 401
                   then Py.lit "Invalid or expired Oura access token"
                   else if status_code =? 429
                   then Py.lit "Rate limit exceeded. Try again later."
                   else Py.lit "Oura API error: "
                        ++ Py.str_of_int status_code ++ Py.lit " - "
                        ++ body_text)) Hnext);
      [reflexivity|].
    destruct Hfail as [E1 | (body & E1 & E2)].
    + left. rewrite (make_request_refused _ _ _ _ _ _ _ _ E1).
      reflexivity.
    + right. exists body. split; [exact E1|].
      rewrite (make_request_refused _ _ _ _ _ _ _ _ E2). reflexivity.
  - intros msg ->.
    rewrite (get_sleep_data_failure tr self d next log
               (OuraAPIError
                  (Py.lit "Network error connecting to Oura API: " ++ msg))
               Hnext);
      [reflexivity|].
    destruct Hfail as [E1 | (body & E1 & E2)].
    + left. rewrite (make_request_unreachable _ _ _ _ _ _ _ E1).
      reflexivity.
    + right. exists body. split; [exact E1|].
      rewrite (make_request_unreachable _ _ _ _ _ _ _ E2). reflexivity.
Qed.

Lemma sleep_endpoint_provider_failure_witness :
  Sample.fromisoformat (Py.lit "2024-01-15") = Some Sample.today
  /\ next_day Sample.today = Ok {| year := 2024; month := 1; day := 16 |}
  /\ Endpoints.sleep Sample.fromisoformat
       (Fixture.always (OuraApi.RequestError (Py.lit "timed out")))
       Fixture.no_env (Some Fixture.oura) [] (Py.lit "2024-01-15")
     = HTTPException 503
         (Py.lit "Oura API error: Network error connecting to Oura API: timed out")
  /\ Endpoints.sleep Sample.fromisoformat
       (Fixture.always
          (OuraApi.HTTPStatusError 500 (Py.lit "Internal Server Error")))
       Fixture.no_env (Some Fixture.oura) [] (Py.lit "2024-01-15")
     = HTTPException 503
         (Py.lit "Oura API error: Oura API error: 500 - Internal Server Error").
Proof.
  split; [reflexivity|]. split; [reflexivity|]. split.
  - exact (proj2 (sleep_endpoint_provider_failure Sample.fromisoformat
                    (Fixture.always
                       (OuraApi.RequestError (Py.lit "timed out")))
                    Fixture.no_env Fixture.oura [] (Py.lit "2024-01-15")
                    Sample.today _ _ eq_refl eq_refl (or_introl eq_refl))
             (Py.lit "timed out") eq_refl).
  - exact (proj1 (sleep_endpoint_provider_failure Sample.fromisoformat
                    (Fixture.always
                       (OuraApi.HTTPStatusError 500
                          (Py.lit "Internal Server Error")))
                    Fixture.no_env Fixture.oura [] (Py.lit "2024-01-15")
                    Sample.today _ _ eq_refl eq_refl (or_introl eq_refl))
             500 (Py.lit "Internal Server Error") eq_refl).
Defined.

Lemma no_data_dict (fields : list (Py.str * Json.t)) :
  OuraApi.no_data (Json.Dict fields)
  = Ok (negb (has_data (Json.Dict fields))).
Proof.
  unfold OuraApi.no_data, has_data, Json.get. simpl.
  destruct (Json.lookup _ fields); reflexivity.
Qed.

(** X3. When both requests of the sleep fetch return JSON objects and
    either has no ["data"] or an empty one, the fetch raises the provider
    error "No data available on <date>. Check Oura app to see if ring is
    connected.", and the sleep endpoint answers 503. *)
Theorem sleep_endpoint_no_data `{Pydantic}
    (fromisoformat : Py.str -> option date) (tr : OuraApi.Transport)
    (env : Env) (self : OuraApi.t) (log : list OuraApi.Request)
    (date_str : Py.str) (d next : date)
    (detailed daily : list (Py.str * Json.t)) :
  fromisoformat date_str = Some d ->
  next_day d = Ok next ->
  tr log (request_to self (Py.lit "sleep") (isoformat d) (isoformat next))
    = OuraApi.JSONBody (Json.Dict detailed) ->
  tr (log ++ [request_to self (Py.lit "sleep") (isoformat d)
                (isoformat next)])
     (request_to self (Py.lit "daily_sleep") (isoformat d) (isoformat next))
    = OuraApi.JSONBody (Json.Dict daily) ->
  has_data (Json.Dict detailed) = false
  \/ has_data (Json.Dict daily) = false ->
  fst (OuraApi.get_sleep_data tr self d log)
  = Raise (OuraAPIError
             (Py.lit "No data available on " ++ isoformat d
              ++ Py.lit ". Check Oura app to see if ring is connected."))
  /\ Endpoints.sleep fromisoformat tr env (Some self) log date_str
     = HTTPException 503
         (Py.lit "Oura API error: " ++ Py.lit "No data available on "
          ++ isoformat d
          ++ Py.lit ". Check Oura app to see if ring is connected.").
Proof.
  intros Hd Hnext E1 E2 Hmissing.
  assert (E : fst (OuraApi.get_sleep_data tr self d log)
              = Raise (OuraAPIError
                         (Py.lit "No data available on " ++ isoformat d
                          ++ Py.lit ". Check Oura app to see if ring is connected."))).
  { unfold OuraApi.get_sleep_data, OuraApi.bind_io at 1.
    unfold OuraApi.lift at 1. rewrite Hnext. unfold OuraApi.bind_io at 1.
    rewrite (make_request_body _ _ _ _ _ _ _ E1).
    unfold OuraApi.bind_io.
    rewrite (make_request_body _ _ _ _ _ _ _ E2).
    unfold OuraApi.lift. cbn [fst]. rewrite !no_data_dict. cbn [bind].
    destruct (has_data (Json.Dict detailed)); cbn [negb bind].
    - destruct Hmissing as [Hm | Hm]; [discriminate Hm|].
      rewrite Hm. reflexivity.
    - reflexivity. }
  split; [exact E|].
  rewrite (sleep_endpoint_result _ _ _ _ _ _ d Hd), E. reflexivity.
Qed.

Lemma sleep_endpoint_no_data_witness :
  Sample.fromisoformat (Py.lit "2024-01-15") = Some Sample.today
  /\ has_data (Json.Dict [ (Py.lit "data", Json.List []) ]) = false
  /\ Endpoints.sleep Sample.fromisoformat
       (Fixture.always
          (OuraApi.JSONBody (Json.Dict [ (Py.lit "data", Json.List []) ])))
       Fixture.no_env (Some Fixture.oura) [] (Py.lit "2024-01-15")
     = HTTPException 503
         (Py.lit "Oura API error: " ++ Py.lit "No data available on "
          ++ isoformat Sample.today
          ++ Py.lit ". Check Oura app to see if ring is connected.").
Proof.
  split; [reflexivity|]. split; [reflexivity|].
  exact (proj2 (sleep_endpoint_no_data Sample.fromisoformat
                  (Fixture.always
                     (OuraApi.JSONBody
                        (Json.Dict [ (Py.lit "data", Json.List []) ])))
                  Fixture.no_env Fixture.oura [] (Py.lit "2024-01-15")
                  Sample.today _ _ _ eq_refl eq_refl eq_refl eq_refl
                  (or_introl eq_refl))).
Defined.

(* ================================================================== *)
(** ** The provider client: from a record to a model *)
(* ================================================================== *)

Lemma first_record_is_data (body : Json.t)
    (record : list (Py.str * Json.t)) :
  first_record_is body record ->
  OuraApi.no_data body = Ok false
  /\ OuraApi.first_record body = Ok (Json.Dict record).
Proof.
  intros (fields & rest & -> & Hdata).
  unfold OuraApi.no_data, OuraApi.first_record, Json.get, Json.getitem.
  rewrite Hdata. split; reflexivity.
Qed.

(** The sleep fetch on two bodies that carry a record each. *)
Lemma get_sleep_data_records `{Pydantic} (tr : OuraApi.Transport)
    (self : OuraApi.t) (d next : date) (log : list OuraApi.Request)
    (body1 body2 : Json.t) (detailed daily : list (Py.str * Json.t)) :
  next_day d = Ok next ->
  tr log (request_to self (Py.lit "sleep") (isoformat d) (isoformat next))
    = OuraApi.JSONBody body1 ->
  tr (log ++ [request_to self (Py.lit "sleep") (isoformat d)
                (isoformat next)])
     (request_to self (Py.lit "daily_sleep") (isoformat d) (isoformat next))
    = OuraApi.JSONBody body2 ->
  first_record_is body1 detailed ->
  first_record_is body2 daily ->
  fst (OuraApi.get_sleep_data tr self d log)
  = make_SleepData d
      (field_or detailed (Py.lit "total_sleep_duration") (Json.Int 0))
      (field_or detailed (Py.lit "deep_sleep_duration") (Json.Int 0))
      (field_or detailed (Py.lit "rem_sleep_duration") (Json.Int 0))
      (field_or detailed (Py.lit "light_sleep_duration") (Json.Int 0))
      (field_or daily (Py.lit "score") Json.Null)
      (field_or detailed (Py.lit "restless_periods") Json.Null)
      (field_or detailed (Py.lit "efficiency") Json.Null).
Proof.
  intros Hnext E1 E2 H1 H2.
  destruct (first_record_is_data _ _ H1) as [N1 R1].
  destruct (first_record_is_data _ _ H2) as [N2 R2].
  unfold OuraApi.get_sleep_data, OuraApi.bind_io at 1.
  unfold OuraApi.lift at 1. rewrite Hnext. unfold OuraApi.bind_io at 1.
  rewrite (make_request_body _ _ _ _ _ _ _ E1). unfold OuraApi.bind_io.
  rewrite (make_request_body _ _ _ _ _ _ _ E2).
  unfold OuraApi.lift. cbn [fst]. rewrite N1. cbn [bind]. rewrite N2.
  cbn [bind]. rewrite R1, R2. reflexivity.
Qed.

(** The readiness fetch on a body that carries a record. *)
Lemma get_readiness_data_record `{Pydantic} (tr : OuraApi.Transport)
    (self : OuraApi.t) (d : date) (log : list OuraApi.Request)
    (body : Json.t) (record : list (Py.str * Json.t)) :
  tr log (request_to self (Py.lit "daily_readiness") (isoformat d)
            (isoformat d)) = OuraApi.JSONBody body ->
  first_record_is body record ->
  fst (OuraApi.get_readiness_data tr self d log)
  = (contributors <- Json.get (Json.Dict record) (Py.lit "contributors")
                       (Json.Dict []) ;;
     temperature <- Json.get contributors (Py.lit "body_temperature")
                      Json.Null ;;
     heart_rate <- Json.get contributors (Py.lit "resting_heart_rate")
                     Json.Null ;;
     hrv <- Json.get contributors (Py.lit "hrv_balance") Json.Null ;;
     recovery <- Json.get contributors (Py.lit "recovery_index")
                   Json.Null ;;
     previous_night <- Json.get contributors (Py.lit "previous_night")
                         Json.Null ;;
     sleep_bal <- Json.get contributors (Py.lit "sleep_balance")
                    Json.Null ;;
     activity_bal <- Json.get contributors (Py.lit "activity_balance")
                       Json.Null ;;
     make_ReadinessData d (field_or record (Py.lit "score") Json.Null)
       temperature heart_rate hrv recovery previous_night sleep_bal
       activity_bal).
Proof.
  intros E Hrec.
  destruct (first_record_is_data _ _ Hrec) as [N R].
  unfold OuraApi.get_readiness_data, OuraApi.bind_io.
  rewrite (make_request_body _ _ _ _ _ _ _ E).
  unfold OuraApi.lift. cbn [fst]. rewrite N. cbn [bind]. rewrite R.
  cbn [bind]. destruct (Json.get (Json.Dict record) _ _) as [c|e];
    [|reflexivity].
  cbn [bind]. reflexivity.
Qed.

(** X4. What the sleep fetch makes of a record with missing keys. When
    the fetch returns a model, each duration whose key is missing from
    the detailed record is 0, the restfulness and the efficiency are
    absent when [restless_periods] and [efficiency] are missing, and the
    date is the requested date. *)
Theorem get_sleep_data_defaults `{PydanticLaws} (tr : OuraApi.Transport)
    (self : OuraApi.t) (d next : date) (log : list OuraApi.Request)
    (body1 body2 : Json.t) (detailed daily : list (Py.str * Json.t))
    (sleep_data : SleepData) :
  next_day d = Ok next ->
  tr log (request_to self (Py.lit "sleep") (isoformat d) (isoformat next))
    = OuraApi.JSONBody body1 ->
  tr (log ++ [request_to self (Py.lit "sleep") (isoformat d)
                (isoformat next)])
     (request_to self (Py.lit "daily_sleep") (isoformat d) (isoformat next))
    = OuraApi.JSONBody body2 ->
  first_record_is body1 detailed ->
  first_record_is body2 daily ->
  fst (OuraApi.get_sleep_data tr self d log) = Ok sleep_data ->
  sleep_date sleep_data = d
  /\ (Json.lookup (Py.lit "total_sleep_duration") detailed = None ->
      total_sleep_duration sleep_data = 0)
  /\ (Json.lookup (Py.lit "deep_sleep_duration") detailed = None ->
      deep_sleep_duration sleep_data = 0)
  /\ (Json.lookup (Py.lit "rem_sleep_duration") detailed = None ->
      rem_sleep_duration sleep_data = 0)
  /\ (Json.lookup (Py.lit "light_sleep_duration") detailed = None ->
      light_sleep_duration sleep_data = 0)
  /\ (Json.lookup (Py.lit "restless_periods") detailed = None ->
      restfulness sleep_data = None)
  /\ (Json.lookup (Py.lit "efficiency") detailed = None ->
      sleep_efficiency sleep_data = None).
Proof.
  intros Hnext E1 E2 H1 H2 Hok.
  rewrite (get_sleep_data_records tr self d next log body1 body2 detailed
             daily Hnext E1 E2 H1 H2) in Hok.
  unfold make_SleepData, field_or in Hok.
  destruct (validate_int (match Json.lookup (Py.lit "total_sleep_duration") detailed with Some v => v | None => Json.Int 0 end))
    as [total|] eqn:Vtotal; [|discriminate Hok].
  destruct (validate_int (match Json.lookup (Py.lit "deep_sleep_duration") detailed with Some v => v | None => Json.Int 0 end))
    as [deep|] eqn:Vdeep; [|discriminate Hok].
  destruct (validate_int (match Json.lookup (Py.lit "rem_sleep_duration") detailed with Some v => v | None => Json.Int 0 end))
    as [rem|] eqn:Vrem; [|discriminate Hok].
  destruct (validate_int (match Json.lookup (Py.lit "light_sleep_duration") detailed with Some v => v | None => Json.Int 0 end))
    as [light|] eqn:Vlight; [|discriminate Hok].
  destruct (validate_int (match Json.lookup (Py.lit "score") daily with Some v => v | None => Json.Null end))
    as [score|] eqn:Vscore; [|discriminate Hok].
  destruct (validate_optional_int (match Json.lookup (Py.lit "restless_periods") detailed with Some v => v | None => Json.Null end))
    as [restful|] eqn:Vrestful; [|discriminate Hok].
  destruct (validate_optional_int (match Json.lookup (Py.lit "efficiency") detailed with Some v => v | None => Json.Null end))
    as [efficiency|] eqn:Vefficiency; [|discriminate Hok].
  injection Hok as <-.
  cbn [sleep_date total_sleep_duration deep_sleep_duration
         rem_sleep_duration light_sleep_duration restfulness
         sleep_efficiency].
  repeat split; intros Hmiss.
  - rewrite Hmiss, validate_int_int in Vtotal by reflexivity. congruence.
  - rewrite Hmiss, validate_int_int in Vdeep by reflexivity. congruence.
  - rewrite Hmiss, validate_int_int in Vrem by reflexivity. congruence.
  - rewrite Hmiss, validate_int_int in Vlight by reflexivity. congruence.
  - rewrite Hmiss, validate_optional_int_none in Vrestful. congruence.
  - rewrite Hmiss, validate_optional_int_none in Vefficiency. congruence.
Qed.

Lemma get_sleep_data_defaults_witness :
  fst (OuraApi.get_sleep_data Fixture.sleep_without_durations Fixture.oura
         Sample.today [])
  = Ok {| sleep_date := Sample.today;
          total_sleep_duration := 0;
          deep_sleep_duration := 0;
          rem_sleep_duration := 0;
          light_sleep_duration := 0;
          sleep_score := 60;
          restfulness := None;
          sleep_efficiency := Some 91 |}
  /\ total_sleep_duration
       {| sleep_date := Sample.today;
          total_sleep_duration := 0;
          deep_sleep_duration := 0;
          rem_sleep_duration := 0;
          light_sleep_duration := 0;
          sleep_score := 60;
          restfulness := None;
          sleep_efficiency := Some 91 |} = 0.
Proof.
  assert (Hok : fst (OuraApi.get_sleep_data Fixture.sleep_without_durations
                       Fixture.oura Sample.today [])
                = Ok {| sleep_date := Sample.today;
                        total_sleep_duration := 0;
                        deep_sleep_duration := 0;
                        rem_sleep_duration := 0;
                        light_sleep_duration := 0;
                        sleep_score := 60;
                        restfulness := None;
                        sleep_efficiency := Some 91 |})
    by reflexivity.
  split; [exact Hok|].
  refine (proj1 (proj2 (get_sleep_data_defaults
                          Fixture.sleep_without_durations Fixture.oura
                          Sample.today _ [] _ _
                          [ (Py.lit "efficiency", Json.Int 91) ]
                          [ (Py.lit "score", Json.Int 60) ]
                          _ eq_refl eq_refl eq_refl _ _ Hok)) eq_refl).
  - eexists; eexists; split; reflexivity.
  - eexists; eexists; split; reflexivity.
Defined.

Lemma score_is_over_half_a_degree (n : Z) :
  1 <= n <= 100 ->
  PrimFloat.ltb 0.5 (PrimFloat.abs (float_of_int n)) = true.
Proof.
  intros Hn.
  assert (Hall : forallb
                   (fun k => PrimFloat.ltb 0.5
                               (PrimFloat.abs (float_of_int (Z.of_nat k))))
                   (seq 1 100) = true)
    by (vm_compute; reflexivity).
  rewrite forallb_forall in Hall.
  specialize (Hall (Z.to_nat n)).
  rewrite Z2Nat.id in Hall by lia.
  apply Hall. apply in_seq. lia.
Qed.

(** X5. The readiness fetch stores the provider's [body_temperature]
    contributor in [temperature_deviation]. So when that contributor is a
    score [n] between 1 and 100 and the fetch returns a model, the
    model's temperature deviation is [n] as a float, and the synthesized
    key factors of any triple with this model contain the factor
    "Elevated temperature deviation (<n>°C)". *)
Theorem body_temperature_score_is_the_deviation `{FloatText}
    `{PydanticLaws} (tr : OuraApi.Transport) (self : OuraApi.t) (d : date)
    (log : list OuraApi.Request) (body : Json.t)
    (record contributors : list (Py.str * Json.t)) (n : Z)
    (readiness_data : ReadinessData) :
  tr log (request_to self (Py.lit "daily_readiness") (isoformat d)
            (isoformat d)) = OuraApi.JSONBody body ->
  first_record_is body record ->
  Json.lookup (Py.lit "contributors") record
    = Some (Json.Dict contributors) ->
  Json.lookup (Py.lit "body_temperature") contributors
    = Some (Json.Int n) ->
  1 <= n <= 100 ->
  fst (OuraApi.get_readiness_data tr self d log) = Ok readiness_data ->
  temperature_deviation readiness_data = Some (float_of_int n)
  /\ forall (sleep_data : SleepData) (activity_data : ActivityData),
       In (temperature_factor (float_of_int n))
          (generate_key_factors sleep_data readiness_data activity_data).
Proof.
  intros E Hrec Hcontrib Htemp Hn Hok.
  assert (Hdev : temperature_deviation readiness_data
                 = Some (float_of_int n)).
  { rewrite (get_readiness_data_record tr self d log body record E Hrec)
      in Hok.
    unfold Json.get in Hok. rewrite Hcontrib in Hok. cbn [bind] in Hok.
    rewrite Htemp in Hok. unfold make_ReadinessData in Hok.
    rewrite validate_optional_float_int in Hok by lia.
    destruct (validate_int _); [|discriminate Hok].
    repeat (destruct (validate_optional_int _); [|discriminate Hok]).
    injection Hok as <-. reflexivity. }
  split; [exact Hdev|].
  intros sleep_data activity_data.
  rewrite generate_key_factors_rules.
  apply in_or_app. right. apply in_or_app. right.
  apply in_or_app. left.
  unfold temperature_rule. rewrite Hdev.
  rewrite (score_is_over_half_a_degree n Hn). left. reflexivity.
Qed.

Lemma body_temperature_score_is_the_deviation_witness :
  first_record_is
    (Fixture.one_record
       (Json.Dict
          [ (Py.lit "score", Json.Int 82);
            (Py.lit "contributors",
             Json.Dict [ (Py.lit "body_temperature", Json.Int 95) ]) ]))
    [ (Py.lit "score", Json.Int 82);
      (Py.lit "contributors",
       Json.Dict [ (Py.lit "body_temperature", Json.Int 95) ]) ]
  /\ In (Py.lit "Elevated temperature deviation (95.0"
         ++ DEGREE ++ Py.lit "C)")
        (generate_key_factors (Sample.sleep_of 75 27000)
           {| readiness_date := Sample.today;
              readiness_score := 82;
              temperature_deviation := Some 95%float;
              resting_heart_rate := None;
              hrv_balance := None;
              recovery_index := None;
              previous_night_score := None;
              sleep_balance := None;
              activity_balance := None |}
           (Sample.activity_of 8000)).
Proof.
  assert (Hrec : first_record_is
            (Fixture.one_record
               (Json.Dict
                  [ (Py.lit "score", Json.Int 82);
                    (Py.lit "contributors",
                     Json.Dict
                       [ (Py.lit "body_temperature", Json.Int 95) ]) ]))
            [ (Py.lit "score", Json.Int 82);
              (Py.lit "contributors",
               Json.Dict [ (Py.lit "body_temperature", Json.Int 95) ]) ])
    by (eexists; eexists; split; reflexivity).
  split; [exact Hrec|].
  exact (proj2 (body_temperature_score_is_the_deviation
                  (Fixture.always
                     (OuraApi.JSONBody
                        (Fixture.one_record
                           (Json.Dict
                              [ (Py.lit "score", Json.Int 82);
                                (Py.lit "contributors",
                                 Json.Dict
                                   [ (Py.lit "body_temperature",
                                      Json.Int 95) ]) ]))))
                  Fixture.oura Sample.today [] _ _
                  [ (Py.lit "body_temperature", Json.Int 95) ] 95
                  _ eq_refl Hrec eq_refl eq_refl
                  ltac:(lia)
                  eq_refl)
           (Sample.sleep_of 75 27000) (Sample.activity_of 8000)).
Defined.

(** X6. A daily sleep record without a [score] is refused by the model:
    the sleep fetch raises an exception that is not a provider error, and
    the sleep endpoint answers 500, not 503. *)
Theorem sleep_endpoint_missing_score `{PydanticLaws}
    (fromisoformat : Py.str -> option date) (tr : OuraApi.Transport)
    (env : Env) (self : OuraApi.t) (log : list OuraApi.Request)
    (date_str : Py.str) (d next : date) (body1 body2 : Json.t)
    (detailed daily : list (Py.str * Json.t)) :
  fromisoformat date_str = Some d ->
  next_day d = Ok next ->
  tr log (request_to self (Py.lit "sleep") (isoformat d) (isoformat next))
    = OuraApi.JSONBody body1 ->
  tr (log ++ [request_to self (Py.lit "sleep") (isoformat d)
                (isoformat next)])
     (request_to self (Py.lit "daily_sleep") (isoformat d) (isoformat next))
    = OuraApi.JSONBody body2 ->
  first_record_is body1 detailed ->
  first_record_is body2 daily ->
  Json.lookup (Py.lit "score") daily = None ->
  exists detail,
    Endpoints.sleep fromisoformat tr env (Some self) log date_str
    = HTTPException 500 (Py.lit "Internal error: " ++ detail).
Proof.
  intros Hd Hnext E1 E2 H1 H2 Hscore.
  rewrite (sleep_endpoint_result _ _ _ _ _ _ d Hd).
  rewrite (get_sleep_data_records tr self d next log body1 body2 detailed
             daily Hnext E1 E2 H1 H2).
  unfold make_SleepData. unfold field_or at 5. rewrite Hscore.
  rewrite validate_int_none.
  repeat (destruct (validate_int _)); eexists; reflexivity.
Qed.

Lemma sleep_endpoint_missing_score_witness :
  Json.lookup (Py.lit "score") [ (Py.lit "efficiency", Json.Int 91) ] = None
  /\ exists detail,
       Endpoints.sleep Sample.fromisoformat
         (Fixture.always
            (OuraApi.JSONBody
               (Fixture.one_record
                  (Json.Dict [ (Py.lit "efficiency", Json.Int 91) ]))))
         Fixture.no_env (Some Fixture.oura) [] (Py.lit "2024-01-15")
       = HTTPException 500 (Py.lit "Internal error: " ++ detail).
Proof.
  split; [reflexivity|].
  refine (sleep_endpoint_missing_score Sample.fromisoformat
            (Fixture.always
               (OuraApi.JSONBody
                  (Fixture.one_record
                     (Json.Dict [ (Py.lit "efficiency", Json.Int 91) ]))))
            Fixture.no_env Fixture.oura [] (Py.lit "2024-01-15")
            Sample.today _ _ _
            [ (Py.lit "efficiency", Json.Int 91) ]
            [ (Py.lit "efficiency", Json.Int 91) ]
            eq_refl eq_refl eq_refl eq_refl _ _ eq_refl);
    eexists; eexists; split; reflexivity.
Defined.

(* ================================================================== *)
(** ** Configuration: tokens, keys and the two singletons *)
(* ================================================================== *)

Lemma arg_or_env_none (env : Env) (name : Py.str) :
  arg_or_env None env name = env name.
Proof. reflexivity. Qed.

Lemma oura_init_unconfigured (env : Env) :
  configured (env (Py.lit "OURA_ACCESS_TOKEN")) = false ->
  OuraApi.init env None = Raise (OtherException OuraApi.token_required).
Proof.
  unfold OuraApi.init, configured. rewrite arg_or_env_none.
  destruct (env (Py.lit "OURA_ACCESS_TOKEN")) as [tok|]; [|reflexivity].
  intros ->. reflexivity.
Qed.

Lemma oura_init_configured (env : Env) :
  configured (env (Py.lit "OURA_ACCESS_TOKEN")) = true ->
  exists tok c,
    env (Py.lit "OURA_ACCESS_TOKEN") = Some tok
    /\ OuraApi.init env None = Ok c /\ OuraApi.access_token c = tok.
Proof.
  unfold OuraApi.init, configured. rewrite arg_or_env_none.
  destruct (env (Py.lit "OURA_ACCESS_TOKEN")) as [tok|]; [|discriminate].
  intros ->. eauto.
Qed.

(** X7. The singleton of the provider client. A call of
    [get_oura_client] either returns a client and leaves it in the
    global, after which every call returns that same client whatever the
    environment has become; or it raises, which happens only while the
    global is empty and [OURA_ACCESS_TOKEN] is unset or empty, and then
    the global stays empty, so that a later call reads the environment
    again. *)
Theorem get_oura_client_singleton (env : Env)
    (_oura_client : option OuraApi.t) :
  match OuraApi.get_oura_client env _oura_client with
  | (Ok c, after) =>
      after = Some c
      /\ (forall env', OuraApi.get_oura_client env' after = (Ok c, after))
      /\ (_oura_client = None ->
          env (Py.lit "OURA_ACCESS_TOKEN") = Some (OuraApi.access_token c)
          /\ Py.truthy (OuraApi.access_token c) = true)
  | (Raise e, after) =>
      _oura_client = None /\ after = None
      /\ configured (env (Py.lit "OURA_ACCESS_TOKEN")) = false
      /\ e = OtherException OuraApi.token_required
  end.
Proof.
  destruct _oura_client as [c|]; cbn [OuraApi.get_oura_client].
  - split; [reflexivity|]. split; [reflexivity|]. discriminate.
  - destruct (configured (env (Py.lit "OURA_ACCESS_TOKEN"))) eqn:Hc.
    + destruct (oura_init_configured env Hc) as (tok & c & Henv & -> & Htok).
      split; [reflexivity|]. split; [reflexivity|]. intros _.
      split; [congruence|].
      unfold configured in Hc. rewrite Henv in Hc. congruence.
    + rewrite (oura_init_unconfigured env Hc). auto.
Qed.

(** X8. Without a provider token (the global client is not yet made and
    [OURA_ACCESS_TOKEN] is unset or empty) the sleep endpoint answers a
    well-formed date with 500 and the text of the constructor's
    [ValueError]; no request is made. *)
Theorem sleep_endpoint_without_token `{Pydantic}
    (fromisoformat : Py.str -> option date) (tr : OuraApi.Transport)
    (env : Env) (log : list OuraApi.Request) (date_str : Py.str)
    (d : date) :
  fromisoformat date_str = Some d ->
  configured (env (Py.lit "OURA_ACCESS_TOKEN")) = false ->
  Endpoints.sleep fromisoformat tr env None log date_str
  = HTTPException 500
      (Py.lit "Internal error: " ++ OuraApi.token_required).
Proof.
  intros Hd Hc. unfold Endpoints.sleep, Main.get_sleep_data,
    Endpoints.oura_client_of, OuraApi.get_oura_client.
  rewrite Hd, (oura_init_unconfigured env Hc). reflexivity.
Qed.

Lemma sleep_endpoint_without_token_witness :
  Sample.fromisoformat (Py.lit "2024-01-15") = Some Sample.today
  /\ configured
       (Fixture.env_with (Py.lit "OURA_ACCESS_TOKEN") []
          (Py.lit "OURA_ACCESS_TOKEN")) = false
  /\ Endpoints.sleep Sample.fromisoformat
       (Fixture.always (OuraApi.RequestError []))
       (Fixture.env_with (Py.lit "OURA_ACCESS_TOKEN") []) None []
       (Py.lit "2024-01-15")
     = HTTPException 500
         (Py.lit "Internal error: " ++ OuraApi.token_required).
Proof.
  split; [reflexivity|]. split; [reflexivity|].
  exact (sleep_endpoint_without_token Sample.fromisoformat
           (Fixture.always (OuraApi.RequestError []))
           (Fixture.env_with (Py.lit "OURA_ACCESS_TOKEN") []) []
           (Py.lit "2024-01-15") Sample.today eq_refl eq_refl).
Defined.

Lemma coach_init_unconfigured (Anthropic : Py.str -> Client) (env : Env) :
  configured (env (Py.lit "ANTHROPIC_API_KEY")) = false ->
  Coach.init Anthropic env None = Raise (OtherException Coach.key_required).
Proof.
  unfold Coach.init, configured. rewrite arg_or_env_none.
  destruct (env (Py.lit "ANTHROPIC_API_KEY")) as [k|]; [|reflexivity].
  intros ->. reflexivity.
Qed.

(** X9. Without an Anthropic key (the global coach is not yet made and
    [ANTHROPIC_API_KEY] is unset or empty), a recommendation request
    whose three fetches succeeded is answered with 500 and the text of the
    constructor's [ValueError]: the missing credential is not reported as
    an [AICoachError], whose status would be 503. *)
Theorem recommendations_without_key `{FloatText}
    (fromisoformat : Py.str -> option date) (env : Env)
    (Anthropic : Py.str -> Client)
    (gathered : date -> result (SleepData * ReadinessData * ActivityData))
    (date_str : Py.str) (d : date)
    (records : SleepData * ReadinessData * ActivityData) :
  fromisoformat date_str = Some d ->
  gathered d = Ok records ->
  configured (env (Py.lit "ANTHROPIC_API_KEY")) = false ->
  Endpoints.recommendations fromisoformat env Anthropic None gathered
    date_str
  = HTTPException 500 (Py.lit "Internal error: " ++ Coach.key_required).
Proof.
  intros Hd Hg Hc.
  unfold Endpoints.recommendations, Main.generate_recommendation,
    Coach.get_recovery_coach.
  rewrite Hd, Hg, (coach_init_unconfigured Anthropic env Hc).
  destruct records as [[s r] a]. reflexivity.
Qed.

Lemma recommendations_without_key_witness :
  configured (Fixture.no_env (Py.lit "ANTHROPIC_API_KEY")) = false
  /\ status_of
       (Endpoints.recommendations Sample.fromisoformat Fixture.no_env
          Fixture.anthropic None
          (fun _ => Ok (Sample.sleep_of 90 27000,
                        Sample.readiness_of 45 None,
                        Sample.activity_of 3000))
          (Py.lit "2024-01-15"))
     = 500.
Proof.
  split; [reflexivity|].
  rewrite (recommendations_without_key Sample.fromisoformat Fixture.no_env
             Fixture.anthropic
             (fun _ => Ok (Sample.sleep_of 90 27000,
                           Sample.readiness_of 45 None,
                           Sample.activity_of 3000))
             (Py.lit "2024-01-15") Sample.today _ eq_refl eq_refl eq_refl).
  reflexivity.
Defined.

(** X10. The health check does not look at the provider client's
    configuration. It reports [oura_integration] from the variable
    [access_token]; the client is made from [OURA_ACCESS_TOKEN]. With
    the latter set and the former unset, the client is constructed and the
    health check still reports [not_configured]. *)
Theorem health_check_reads_another_variable (env : Env) :
  configured (env (Py.lit "OURA_ACCESS_TOKEN")) = true ->
  env (Py.lit "access_token") = None ->
  (exists c, fst (OuraApi.get_oura_client env None) = Ok c)
  /\ Endpoints.oura_integration (Endpoints.health_check env)
     = Py.lit "not_configured".
Proof.
  intros Htoken Hother. split.
  - destruct (oura_init_configured env Htoken) as (tok & c & _ & E & _).
    exists c. unfold OuraApi.get_oura_client. rewrite E. reflexivity.
  - unfold Endpoints.health_check. rewrite Hother. reflexivity.
Qed.

Lemma health_check_reads_another_variable_witness :
  configured
    (Fixture.env_with (Py.lit "OURA_ACCESS_TOKEN") Fixture.token
       (Py.lit "OURA_ACCESS_TOKEN")) = true
  /\ Endpoints.oura_integration
       (Endpoints.health_check
          (Fixture.env_with (Py.lit "OURA_ACCESS_TOKEN") Fixture.token))
     = Py.lit "not_configured".
Proof.
  split; [reflexivity|].
  exact (proj2 (health_check_reads_another_variable
                  (Fixture.env_with (Py.lit "OURA_ACCESS_TOKEN")
                     Fixture.token)
                  eq_refl eq_refl)).
Defined.

(* ================================================================== *)
(** ** The handlers: which status when *)
(* ================================================================== *)

Ltac fetch_cases :=
  match goal with
  | |- context [OuraClient.get_sleep_data ?c ?d] =>
      destruct (OuraClient.get_sleep_data c d) as [?v | ?e] eqn:?E
  | |- context [OuraClient.get_readiness_data ?c ?d] =>
      destruct (OuraClient.get_readiness_data c d) as [?v | ?e] eqn:?E
  | |- context [OuraClient.get_activity_data ?c ?d] =>
      destruct (OuraClient.get_activity_data c d) as [?v | ?e] eqn:?E
  end.

Ltac close_status :=
  cbn; repeat split; intros;
  repeat match goal with
         | H : exists _, _ |- _ => destruct H
         | H : _ /\ _ |- _ => destruct H
         end;
  try discriminate; try congruence; try reflexivity;
  try (cbn; tauto); eauto 10.

(** X11. The status of the three [GET /api/oura/...] handlers, whatever
    the provider client does: it is 200, 400, 500 or the handler's
    provider-error status (503 for sleep and activity, 509 for
    readiness); it is 400 exactly when the date does not parse, and the
    provider-error status exactly when the date parses and obtaining the
    client and fetching raises [OuraAPIError]. *)
Theorem get_handlers_status (fromisoformat : Py.str -> option date)
    (get_oura_client : result OuraClient.t) (date_str : Py.str) :
  let sleep :=
    status_of (Main.get_sleep_data fromisoformat get_oura_client date_str) in
  let readiness :=
    status_of (Main.get_readiness_data fromisoformat get_oura_client
                 date_str) in
  let activity :=
    status_of (Main.get_activity_data fromisoformat get_oura_client
                 date_str) in
  (In sleep [200; 400; 500; 503]
   /\ (sleep = 400 <-> fromisoformat date_str = None)
   /\ (sleep = 503 <->
       exists d m,
         fromisoformat date_str = Some d
         /\ (c <- get_oura_client ;; OuraClient.get_sleep_data c d)
            = Raise (OuraAPIError m)))
  /\ (In readiness [200; 400; 500; 509]
      /\ (readiness = 400 <-> fromisoformat date_str = None)
      /\ (readiness = 509 <->
          exists d m,
            fromisoformat date_str = Some d
            /\ (c <- get_oura_client ;; OuraClient.get_readiness_data c d)
               = Raise (OuraAPIError m)))
  /\ (In activity [200; 400; 500; 503]
      /\ (activity = 400 <-> fromisoformat date_str = None)
      /\ (activity = 503 <->
          exists d m,
            fromisoformat date_str = Some d
            /\ (c <- get_oura_client ;; OuraClient.get_activity_data c d)
               = Raise (OuraAPIError m))).
Proof.
  cbv zeta.
  unfold Main.get_sleep_data, Main.get_readiness_data,
    Main.get_activity_data, Main.invalid_date.
  destruct (fromisoformat date_str) as [d|]; [|close_status].
  destruct get_oura_client as [c | e0]; cbn [bind];
    [|destruct e0; close_status].
  split; [|split]; (fetch_cases; [|destruct e]; close_status).
Qed.

(** X12. A recommendation request whose date parses, whose three
    records were gathered, whose coach is obtained and whose prompt is
    built has two kinds of answer only: the parser's recommendation for
    the text of the first content block, dated by the sleep record, when
    the generative call returns one; and otherwise the status 503 with
    the text of the [AICoachError] (the fault of the call, or the missing
    content block). *)
Theorem recommendation_outcomes `{FloatText}
    (fromisoformat : Py.str -> option date)
    (get_recovery_coach : result Client)
    (gathered : date -> result (SleepData * ReadinessData * ActivityData))
    (date_str : Py.str) (d : date) (sleep_data : SleepData)
    (readiness_data : ReadinessData) (activity_data : ActivityData)
    (coach : Client) (prompt : Py.str) :
  fromisoformat date_str = Some d ->
  gathered d = Ok (sleep_data, readiness_data, activity_data) ->
  get_recovery_coach = Ok coach ->
  build_analysis_prompt sleep_data readiness_data activity_data
    = Ok prompt ->
  Main.generate_recommendation fromisoformat get_recovery_coach gathered
    date_str
  = match coach (Py.lit "claude-3-haiku-20240307") 1024 prompt with
    | Ok reply =>
        match content reply with
        | block :: _ =>
            Response
              (parse_ai_response (text block) (sleep_date sleep_data)
                 sleep_data readiness_data activity_data)
        | [] =>
            HTTPException 503
              (Py.lit "AI Coach error: " ++ coach_error_message IndexError)
        end
    | Raise e =>
        HTTPException 503
          (Py.lit "AI Coach error: " ++ coach_error_message e)
    end.
Proof.
  intros Hd Hg Hcoach Hprompt.
  unfold Main.generate_recommendation.
  rewrite Hd, Hg, Hcoach. cbn [bind].
  unfold analyze_recovery. rewrite Hprompt. cbn [bind].
  destruct (coach _ _ prompt) as [reply | e]; cbn [bind].
  - destruct (content reply) as [|block rest]; reflexivity.
  - destruct e; reflexivity.
Qed.

Lemma recommendation_outcomes_witness :
  (exists prompt,
     build_analysis_prompt (Sample.sleep_of 90 27000)
       (Sample.readiness_of 45 None) (Sample.activity_of 3000)
     = Ok prompt)
  /\ Main.generate_recommendation Sample.fromisoformat
       (Ok (Sample.failing_client (APIError (Py.lit "Overloaded"))))
       (fun _ => Ok (Sample.sleep_of 90 27000,
                     Sample.readiness_of 45 None,
                     Sample.activity_of 3000))
       (Py.lit "2024-01-15")
     = HTTPException 503
         (Py.lit "AI Coach error: Claude API error: Overloaded").
Proof.
  assert (Hp : exists prompt,
             build_analysis_prompt (Sample.sleep_of 90 27000)
               (Sample.readiness_of 45 None) (Sample.activity_of 3000)
             = Ok prompt)
    by (vm_compute; eexists; reflexivity).
  split; [exact Hp|].
  destruct Hp as [prompt Hp].
  exact (recommendation_outcomes Sample.fromisoformat
           (Ok (Sample.failing_client (APIError (Py.lit "Overloaded"))))
           (fun _ => Ok (Sample.sleep_of 90 27000,
                         Sample.readiness_of 45 None,
                         Sample.activity_of 3000))
           (Py.lit "2024-01-15") Sample.today _ _ _ _ prompt
           eq_refl eq_refl eq_refl Hp).
Defined.

(** The prompt of a night without sleep is not built. *)
Lemma build_analysis_prompt_zero_total `{FloatText}
    (sleep_data : SleepData) (readiness_data : ReadinessData)
    (activity_data : ActivityData) :
  total_sleep_duration sleep_data = 0 ->
  exists e,
    (e = ZeroDivisionError \/ e = OverflowError)
    /\ build_analysis_prompt sleep_data readiness_data activity_data
       = Raise e.
Proof.
  intros Hzero. unfold build_analysis_prompt. rewrite Hzero.
  change (PyFloat.int_truediv 0 3600) with (Ok 0%float). cbn [bind].
  destruct (PyFloat.int_truediv (deep_sleep_duration sleep_data) 3600)
    as [deep | e1] eqn:E1; cbn [bind].
  2: { exists e1. split; [right|reflexivity].
       apply (int_truediv_raise _ 3600 _ ltac:(lia) E1). }
  destruct (PyFloat.int_truediv (rem_sleep_duration sleep_data) 3600)
    as [rem | e2] eqn:E2; cbn [bind].
  2: { exists e2. split; [right|reflexivity].
       apply (int_truediv_raise _ 3600 _ ltac:(lia) E2). }
  destruct (PyFloat.int_truediv (light_sleep_duration sleep_data) 3600)
    as [light | e3] eqn:E3; cbn [bind].
  2: { exists e3. split; [right|reflexivity].
       apply (int_truediv_raise _ 3600 _ ltac:(lia) E3). }
  rewrite percent_of_zero. cbn [bind].
  exists ZeroDivisionError. split; [left|]; reflexivity.
Qed.

(** X13. A recommendation request whose gathered sleep record has a
    total sleep duration of 0 is answered with the status 500, whatever
    the environment, the coach and the generative service: either the
    coach cannot be made, or the division fault of the prompt leaves
    [analyze_recovery] and is answered as an internal error. *)
Theorem recommendations_zero_sleep `{FloatText}
    (fromisoformat : Py.str -> option date) (env : Env)
    (Anthropic : Py.str -> Client) (_recovery_coach : option Coach.t)
    (gathered : date -> result (SleepData * ReadinessData * ActivityData))
    (date_str : Py.str) (d : date) (sleep_data : SleepData)
    (readiness_data : ReadinessData) (activity_data : ActivityData) :
  fromisoformat date_str = Some d ->
  gathered d = Ok (sleep_data, readiness_data, activity_data) ->
  total_sleep_duration sleep_data = 0 ->
  status_of
    (Endpoints.recommendations fromisoformat env Anthropic _recovery_coach
       gathered date_str) = 500.
Proof.
  intros Hd Hg Hzero.
  destruct (build_analysis_prompt_zero_total sleep_data readiness_data
              activity_data Hzero) as (e & He & Hb).
  unfold Endpoints.recommendations, Main.generate_recommendation.
  rewrite Hd, Hg. cbn [bind].
  assert (Hcoach :
            (exists c, fst (Coach.get_recovery_coach Anthropic env
                              _recovery_coach) = Ok c)
            \/ fst (Coach.get_recovery_coach Anthropic env _recovery_coach)
               = Raise (OtherException Coach.key_required)).
  { unfold Coach.get_recovery_coach, Coach.init.
    destruct _recovery_coach as [c|]; [left; exists c; reflexivity|].
    destruct (arg_or_env None env (Py.lit "ANTHROPIC_API_KEY")) as [k|];
      [|right; reflexivity].
    destruct (Py.truthy k);
      [left; eexists; reflexivity | right; reflexivity]. }
  destruct Hcoach as [[c ->] | ->]; cbn [bind]; [|reflexivity].
  unfold analyze_recovery. rewrite Hb. cbn [bind].
  destruct He as [-> | ->]; reflexivity.
Qed.

Lemma recommendations_zero_sleep_witness :
  total_sleep_duration (Sample.sleep_of 60 0) = 0
  /\ status_of
       (Endpoints.recommendations Sample.fromisoformat
          (Fixture.env_with (Py.lit "ANTHROPIC_API_KEY") (Py.lit "sk-key"))
          Fixture.anthropic None
          (fun _ => Ok (Sample.sleep_of 60 0, Sample.readiness_of 70 None,
                        Sample.activity_of 8000))
          (Py.lit "2024-01-15")) = 500.
Proof.
  split; [reflexivity|].
  exact (recommendations_zero_sleep Sample.fromisoformat
           (Fixture.env_with (Py.lit "ANTHROPIC_API_KEY") (Py.lit "sk-key"))
           Fixture.anthropic None
           (fun _ => Ok (Sample.sleep_of 60 0, Sample.readiness_of 70 None,
                         Sample.activity_of 8000))
           (Py.lit "2024-01-15") Sample.today _ _ _
           eq_refl eq_refl eq_refl).
Defined.

(* ================================================================== *)
(** ** More on the parser *)
(* ================================================================== *)

Lemma first_at_contains (sub s : Py.str) (i : nat) :
  first_at sub s 0 i -> Py.contains sub s = true.
Proof.
  intros (_ & (Hlen & Hat) & Hbefore).
  apply (first_offset_contains _ _ i).
  apply first_offset_first; [exact Hlen | exact Hat|].
  intros j Hj.
  destruct (Py.startswith sub (skipn j s)) eqn:Hs; [|reflexivity].
  exfalso. apply (Hbefore j); [lia|]. split; [lia | exact Hs].
Qed.

Lemma first_offset_none_sound (sub s : Py.str) :
  first_offset sub s = None ->
  forall j, (j <= List.length s)%nat ->
            Py.startswith sub (skipn j s) = false.
Proof.
  induction s as [|c t IH]; cbn [first_offset].
  - destruct (Py.startswith sub []) eqn:Hs; [discriminate|].
    intros _ j Hj. simpl in Hj. assert (j = O) by lia. subst j. exact Hs.
  - destruct (Py.startswith sub (c :: t)) eqn:Hs; [discriminate|].
    destruct (first_offset sub t) as [k|]; [discriminate|].
    intros _ [|j] Hj; [exact Hs|].
    cbn [skipn]. apply IH; [reflexivity | simpl in Hj; lia].
Qed.

(** No occurrence at or after [from], read off the scan of the rest of
    the text. *)
Lemma absent_from_offset (sub s : Py.str) (from : nat) :
  first_offset sub (skipn from s) = None -> absent_from sub s from.
Proof.
  intros E j Hj [Hjl Hjs].
  pose proof (first_offset_none_sound _ _ E (j - from)%nat) as Hnone.
  rewrite length_skipn, skipn_skipn in Hnone.
  replace (j - from + from)%nat with j in Hnone by lia.
  rewrite Hnone in Hjs by lia. discriminate Hjs.
Qed.

(** [s[start:-1]]: the text from [start] without the last character. *)
Lemma slice_to_last (s : Py.str) (start : nat) :
  (start <= List.length s)%nat ->
  Py.slice s (Z.of_nat start) (-1)
  = firstn (List.length s - 1 - start) (skipn start s).
Proof.
  intros Hstart. unfold Py.slice, Py.slice_index.
  destruct (Z.ltb_spec (Z.of_nat start) 0) as [Hneg|_]; [lia|].
  change (-1 <? 0) with true. cbv iota.
  rewrite Z.min_l by lia. rewrite Nat2Z.id.
  f_equal. lia.
Qed.

(** X14. The message of a reply without a later marker. When neither
    [SPECIFIC_TIPS:] nor [CONFIDENCE:] occurs after the first [MESSAGE:]
    marker, the message is the trimmed text from the end of the marker
    to the end of the reply without its last character: the last
    character of the reply is left out. *)
Theorem extract_message_unterminated (response_text : Py.str) (i : nat) :
  first_at MESSAGE_marker response_text 0 i ->
  absent_from SPECIFIC_TIPS_marker response_text
    (i + List.length MESSAGE_marker) ->
  absent_from CONFIDENCE_marker response_text
    (i + List.length MESSAGE_marker) ->
  extract_message response_text
  = Py.strip
      (firstn (List.length response_text - 1
               - (i + List.length MESSAGE_marker))
         (skipn (i + List.length MESSAGE_marker) response_text)).
Proof.
  intros Hfirst Htips Hconf.
  assert (Hstart : (i + List.length MESSAGE_marker
                    <= List.length response_text)%nat).
  { destruct Hfirst as (_ & (Hlen & Hat) & _).
    apply startswith_length in Hat. rewrite length_skipn in Hat. lia. }
  assert (Hfind : Py.find response_text MESSAGE_marker 0 = Z.of_nat i)
    by (apply (find_first_at _ _ O i); [lia | exact Hfirst]).
  unfold extract_message.
  rewrite (first_at_contains _ _ _ Hfirst), Hfind.
  rewrite <- Nat2Z.inj_add.
  rewrite (find_absent_from _ _ _ Hstart Htips).
  rewrite (find_absent_from _ _ _ Hstart Hconf).
  change (-1 =? -1) with true. cbv iota.
  rewrite (slice_to_last _ _ Hstart). reflexivity.
Qed.

Lemma extract_message_unterminated_witness :
  first_at MESSAGE_marker (Py.lit "MESSAGE: Rest today") 0 0
  /\ extract_message (Py.lit "MESSAGE: Rest today") = Py.lit "Rest toda".
Proof.
  assert (H1 : first_at MESSAGE_marker (Py.lit "MESSAGE: Rest today") 0 0)
    by (apply first_offset_sound; reflexivity).
  split; [exact H1|].
  rewrite (extract_message_unterminated (Py.lit "MESSAGE: Rest today") 0 H1
             (absent_from_offset SPECIFIC_TIPS_marker
                (Py.lit "MESSAGE: Rest today") 8 eq_refl)
             (absent_from_offset CONFIDENCE_marker
                (Py.lit "MESSAGE: Rest today") 8 eq_refl)).
  reflexivity.
Defined.

(** X15. The synthesized key factors are what the five rules give, each
    at most one factor, in the order sleep, readiness, temperature, HRV,
    steps; the cut at five never removes a factor, and the truth test on
    the temperature never changes the outcome of its rule. *)
Theorem synthesized_factors_are_the_rules `{FloatText}
    (sleep_data : SleepData) (readiness_data : ReadinessData)
    (activity_data : ActivityData) :
  generate_key_factors sleep_data readiness_data activity_data
  = sleep_rule sleep_data ++ readiness_rule readiness_data
    ++ temperature_rule readiness_data ++ hrv_rule readiness_data
    ++ steps_rule activity_data
  /\ (List.length (sleep_rule sleep_data) <= 1)%nat
  /\ (List.length (readiness_rule readiness_data) <= 1)%nat
  /\ (List.length (temperature_rule readiness_data) <= 1)%nat
  /\ (List.length (hrv_rule readiness_data) <= 1)%nat
  /\ (List.length (steps_rule activity_data) <= 1)%nat.
Proof.
  split; [apply generate_key_factors_rules|].
  unfold sleep_rule, readiness_rule, temperature_rule, hrv_rule,
    steps_rule.
  repeat split.
  - destruct (sleep_score sleep_data >=? 85);
      [|destruct (sleep_score sleep_data <? 70)]; simpl; lia.
  - destruct (readiness_score readiness_data >=? 85);
      [|destruct (readiness_score readiness_data <? 70)]; simpl; lia.
  - destruct (temperature_deviation readiness_data) as [t|];
      [destruct (PrimFloat.ltb 0.5 (PrimFloat.abs t))|]; simpl; lia.
  - destruct (hrv_balance readiness_data) as [h|];
      [destruct (negb (h =? 0) && (h <? 60))|]; simpl; lia.
  - destruct (steps activity_data <? 5000); simpl; lia.
Qed.

(** X16. Where no line after the marker line repeats [KEY_FACTORS:], the
    extracted key factors are the section in the specification's words:
    the dash lines after the marker line up to the first line that is
    neither blank nor a dash line, each stripped of dashes and blanks. *)
Theorem key_factors_section (response_text : Py.str) :
  forallb (fun line => negb (Py.contains KEY_FACTORS_marker line))
    (after_marker KEY_FACTORS_marker (Py.split NEWLINE response_text))
    = true ->
  extract_key_factors response_text
  = map bullet_text
      (bulleted_section_spec KEY_FACTORS_marker response_text).
Proof.
  intros Hnone. unfold extract_key_factors, bulleted_section_spec.
  destruct (Py.contains KEY_FACTORS_marker response_text) eqn:Hc.
  - rewrite key_factors_loop_out, key_factors_loop_in. cbn [app].
    rewrite dash_lines_scanned_until_text; [reflexivity|].
    intros line Hin. rewrite forallb_forall in Hnone.
    apply negb_true_iff. exact (Hnone line Hin).
  - rewrite after_marker_absent; [reflexivity | discriminate | exact Hc].
Qed.

Lemma key_factors_section_witness :
  forallb (fun line => negb (Py.contains KEY_FACTORS_marker line))
    (after_marker KEY_FACTORS_marker
       (Py.split NEWLINE Sample.template_reply)) = true
  /\ extract_key_factors Sample.template_reply
     = [ Py.lit "Sleep was great"; Py.lit "Readiness is low" ].
Proof.
  split; [reflexivity|].
  rewrite (key_factors_section Sample.template_reply eq_refl).
  reflexivity.
Defined.

(* ================================================================== *)
(** ** The parser on a reply in the format of the prompt *)
(* ================================================================== *)

Section Separator.
Variable sep : Py.char.
Variable sub : Py.str.
Hypothesis sep_not_in_sub : ~ In sep sub.

(** An occurrence does not run over a separator. *)
Lemma startswith_app_sep (a b : Py.str) :
  Py.startswith sub (a ++ sep :: b) = Py.startswith sub a.
Proof.
  revert a sep_not_in_sub. induction sub as [|x p IH]; intros a Hn.
  - reflexivity.
  - assert (Hx : N.eqb x sep = false).
    { apply N.eqb_neq. intros ->. apply Hn. left. reflexivity. }
    destruct a as [|y a']; simpl.
    + rewrite Hx. reflexivity.
    + rewrite (IH a' (fun Hin => Hn (or_intror Hin))). reflexivity.
Qed.

Lemma contains_app_sep (a b : Py.str) :
  Py.contains sub (a ++ sep :: b)
  = Py.contains sub a || Py.contains sub b.
Proof.
  induction a as [|c a' IH].
  - pose proof (startswith_app_sep [] b) as H0. cbn [app] in H0.
    cbn [app Py.contains]. rewrite H0. reflexivity.
  - change ((c :: a') ++ sep :: b) with (c :: (a' ++ sep :: b)).
    cbn [Py.contains].
    change (c :: (a' ++ sep :: b)) with ((c :: a') ++ sep :: b).
    rewrite startswith_app_sep, IH, orb_assoc. reflexivity.
Qed.

Lemma first_offset_skip (a b : Py.str) :
  Py.contains sub a = false ->
  first_offset sub (a ++ sep :: b)
  = option_map (fun k => (List.length a + 1 + k)%nat) (first_offset sub b).
Proof.
  induction a as [|c a' IH]; intros Hfree.
  - pose proof (startswith_app_sep [] b) as H0. cbn [app] in H0.
    cbn [app first_offset]. rewrite H0.
    cbn [Py.contains] in Hfree. rewrite Hfree.
    destruct (first_offset sub b); reflexivity.
  - cbn [Py.contains] in Hfree. apply orb_false_iff in Hfree.
    destruct Hfree as [Hs Hc].
    change ((c :: a') ++ sep :: b) with (c :: (a' ++ sep :: b)).
    cbn [first_offset].
    change (c :: (a' ++ sep :: b)) with ((c :: a') ++ sep :: b).
    rewrite startswith_app_sep, Hs, (IH Hc).
    destruct (first_offset sub b); reflexivity.
Qed.

End Separator.

Lemma split_app_sep (sep : Py.char) (a b : Py.str) :
  Py.split sep (a ++ sep :: b) = Py.split sep a ++ Py.split sep b.
Proof.
  induction a as [|c a' IH]; cbn [app Py.split].
  - rewrite N.eqb_refl. reflexivity.
  - destruct (N.eqb c sep); [rewrite IH; reflexivity|].
    rewrite IH. destruct (split_cons sep a') as [l [ls ->]]. reflexivity.
Qed.

Lemma split_one_line (sep : Py.char) (a : Py.str) :
  ~ In sep a -> Py.split sep a = [a].
Proof.
  induction a as [|c a' IH]; intros Hn; cbn [Py.split].
  - reflexivity.
  - destruct (N.eqb_spec c sep) as [-> | _].
    + exfalso. apply Hn. left. reflexivity.
    + rewrite IH; [reflexivity|]. intros Hin. apply Hn. right. exact Hin.
Qed.

Lemma split_once_app (sep : Py.char) (a b : Py.str) :
  ~ In sep a -> Py.split_once sep (a ++ sep :: b) = [a; b].
Proof.
  induction a as [|c a' IH]; intros Hn; cbn [app Py.split_once].
  - rewrite N.eqb_refl. reflexivity.
  - destruct (N.eqb_spec c sep) as [-> | _].
    + exfalso. apply Hn. left. reflexivity.
    + rewrite IH; [reflexivity|]. intros Hin. apply Hn. right. exact Hin.
Qed.

(** Stripping. *)
Lemma lstrip_by_length (p : Py.char -> bool) (s : Py.str) :
  (List.length (Py.lstrip_by p s) <= List.length s)%nat.
Proof.
  induction s as [|c t IH]; cbn [Py.lstrip_by]; [lia|].
  destruct (p c); simpl; lia.
Qed.

Lemma rstrip_by_length (p : Py.char -> bool) (s : Py.str) :
  (List.length (Py.rstrip_by p s) <= List.length s)%nat.
Proof.
  unfold Py.rstrip_by. rewrite length_rev.
  pose proof (lstrip_by_length p (rev s)) as H. rewrite length_rev in H.
  exact H.
Qed.

Lemma lstrip_by_fixed (p : Py.char -> bool) (s : Py.str) :
  List.length (Py.lstrip_by p s) = List.length s -> Py.lstrip_by p s = s.
Proof.
  destruct s as [|c t]; cbn [Py.lstrip_by]; [reflexivity|].
  destruct (p c); [|reflexivity].
  intros H. pose proof (lstrip_by_length p t). simpl in H. lia.
Qed.

Lemma strip_by_fixed (p : Py.char -> bool) (s : Py.str) :
  Py.strip_by p s = s -> Py.lstrip_by p s = s /\ Py.rstrip_by p s = s.
Proof.
  intros H. unfold Py.strip_by in H.
  assert (Hl : Py.lstrip_by p s = s).
  { apply lstrip_by_fixed.
    pose proof (lstrip_by_length p s).
    pose proof (rstrip_by_length p (Py.lstrip_by p s)) as Hr.
    rewrite H in Hr. lia. }
  rewrite Hl in H. auto.
Qed.

Lemma rstrip_by_snoc (p : Py.char -> bool) (s : Py.str) (c : Py.char) :
  p c = true -> Py.rstrip_by p (s ++ [c]) = Py.rstrip_by p s.
Proof.
  intros Hc. unfold Py.rstrip_by. rewrite rev_app_distr.
  cbn [rev app Py.lstrip_by]. rewrite Hc. reflexivity.
Qed.

Lemma lstrip_by_snoc_keep (p : Py.char -> bool) (s : Py.str)
    (c : Py.char) :
  p c = false -> Py.lstrip_by p (s ++ [c]) = Py.lstrip_by p s ++ [c].
Proof.
  intros Hc. induction s as [|x t IH]; cbn [app Py.lstrip_by].
  - rewrite Hc. reflexivity.
  - destruct (p x); [exact IH | reflexivity].
Qed.

Lemma rstrip_by_cons_keep (p : Py.char -> bool) (s : Py.str)
    (c : Py.char) :
  p c = false -> Py.rstrip_by p (c :: s) = c :: Py.rstrip_by p s.
Proof.
  intros Hc. unfold Py.rstrip_by. cbn [rev].
  rewrite (lstrip_by_snoc_keep p (rev s) c Hc), rev_app_distr.
  reflexivity.
Qed.

Lemma lstrip_by_app_keep (p : Py.char -> bool) (s t : Py.str) :
  s <> [] -> Py.lstrip_by p s = s -> Py.lstrip_by p (s ++ t) = s ++ t.
Proof.
  destruct s as [|c s']; [contradiction|]. intros _.
  cbn [app Py.lstrip_by]. destruct (p c); [|reflexivity].
  intros H. pose proof (lstrip_by_length p s') as Hl.
  rewrite H in Hl. simpl in Hl. lia.
Qed.

(** A trimmed text between a newline and two newlines. *)
Lemma strip_framed (s : Py.str) :
  Py.strip s = s ->
  Py.strip (NEWLINE :: s ++ [NEWLINE; NEWLINE]) = s.
Proof.
  intros Hs. destruct (strip_by_fixed _ _ Hs) as [Hl Hr].
  unfold Py.strip, Py.strip_by in *.
  change (Py.lstrip_by Py.isspace (NEWLINE :: s ++ [NEWLINE; NEWLINE]))
    with (Py.lstrip_by Py.isspace (s ++ [NEWLINE; NEWLINE])).
  destruct s as [|c s'].
  - reflexivity.
  - rewrite lstrip_by_app_keep; [|discriminate | exact Hl].
    change ((c :: s') ++ [NEWLINE; NEWLINE])
      with ((c :: s') ++ [NEWLINE] ++ [NEWLINE]).
    rewrite app_assoc, !rstrip_by_snoc by reflexivity. exact Hr.
Qed.

Lemma strip_after_blank (s : Py.str) :
  Py.strip (32%N :: s) = Py.strip s.
Proof. reflexivity. Qed.

Lemma filter_none {A} (f : A -> bool) (xs : list A) :
  (forall x, In x xs -> f x = false) -> filter f xs = [].
Proof.
  induction xs as [|x xs IH]; intros H; cbn [filter]; [reflexivity|].
  rewrite (H x (or_introl eq_refl)). apply IH.
  intros y Hy. apply H. right. exact Hy.
Qed.

Lemma split_bullets (items : list Py.str) (rest : Py.str) :
  Forall (fun item => ~ In NEWLINE item) items ->
  Py.split NEWLINE (bullets items ++ rest)
  = map dash_line items ++ Py.split NEWLINE rest.
Proof.
  induction 1 as [|item items Hitem _ IH]; [reflexivity|].
  unfold bullets in *. cbn [map List.concat].
  replace ((Py.lit "- " ++ item ++ [NEWLINE])
           ++ List.concat
                (map (fun item0 => Py.lit "- " ++ item0 ++ [NEWLINE]) items))
    with (dash_line item
          ++ NEWLINE
             :: List.concat
                  (map (fun item0 => Py.lit "- " ++ item0 ++ [NEWLINE])
                     items))
    by (unfold dash_line; rewrite <- !app_assoc; reflexivity).
  rewrite <- app_assoc. cbn [app].
  change (dash_line item
          ++ NEWLINE
             :: List.concat
                  (map (fun item0 => Py.lit "- " ++ item0 ++ [NEWLINE])
                     items) ++ rest)
    with (dash_line item
          ++ NEWLINE
             :: (List.concat
                   (map (fun item0 => Py.lit "- " ++ item0 ++ [NEWLINE])
                      items) ++ rest)).
  rewrite split_app_sep, IH, split_one_line; [reflexivity|].
  unfold dash_line. cbn. intros [H | [H | H]];
    [discriminate H | discriminate H | exact (Hitem H)].
Qed.

(** The lines of a reply in the format. *)
Lemma split_render_reply (rec_type : Py.str) (factors : list Py.str)
    (text_message : Py.str) (tips : list Py.str) (conf : Py.str) :
  ~ In NEWLINE rec_type ->
  Forall (fun item => ~ In NEWLINE item) factors ->
  Forall (fun item => ~ In NEWLINE item) tips ->
  ~ In NEWLINE conf ->
  Py.split NEWLINE (render_reply rec_type factors text_message tips conf)
  = reply_lines rec_type factors text_message tips conf.
Proof.
  intros Htype Hfactors Htips Hconf.
  assert (E : render_reply rec_type factors text_message tips conf
              = type_line rec_type
                ++ NEWLINE
                   :: ([] ++ NEWLINE
                       :: (KEY_FACTORS_marker ++ NEWLINE
                           :: (bullets factors
                               ++ ([] ++ NEWLINE
                                   :: (MESSAGE_marker ++ NEWLINE
                                       :: (text_message ++ NEWLINE
                                           :: ([] ++ NEWLINE
                                               :: (SPECIFIC_TIPS_marker
                                                   ++ NEWLINE
                                                   :: (bullets tips
                                                       ++ ([] ++ NEWLINE
                                                           :: confidence_line
                                                                conf))))))))))).
  { unfold render_reply, render_head, render_tail, type_line,
      confidence_line.
    rewrite <- !app_assoc. reflexivity. }
  rewrite E. unfold reply_lines.
  rewrite split_app_sep, split_app_sep, split_app_sep.
  rewrite (split_bullets factors _ Hfactors).
  rewrite split_app_sep, split_app_sep, split_app_sep, split_app_sep,
    split_app_sep.
  rewrite (split_bullets tips _ Htips).
  rewrite split_app_sep.
  rewrite (split_one_line NEWLINE (type_line rec_type)).
  2: { unfold type_line. intros Hin. apply in_app_or in Hin.
       destruct Hin as [Hin | Hin]; [|exact (Htype Hin)].
       revert Hin. not_in_marker. }
  rewrite (split_one_line NEWLINE (confidence_line conf)).
  2: { unfold confidence_line. intros Hin. apply in_app_or in Hin.
       destruct Hin as [Hin | Hin]; [|exact (Hconf Hin)].
       revert Hin. not_in_marker. }
  rewrite (split_one_line NEWLINE KEY_FACTORS_marker) by not_in_marker.
  rewrite (split_one_line NEWLINE MESSAGE_marker) by not_in_marker.
  rewrite (split_one_line NEWLINE SPECIFIC_TIPS_marker) by not_in_marker.
  cbn [Py.split app]. rewrite <- ?app_assoc. reflexivity.
Qed.

Lemma marker_free_each (s : Py.str) :
  marker_free s ->
  Py.contains RECOMMENDATION_TYPE_marker s = false
  /\ Py.contains KEY_FACTORS_marker s = false
  /\ Py.contains MESSAGE_marker s = false
  /\ Py.contains SPECIFIC_TIPS_marker s = false
  /\ Py.contains CONFIDENCE_marker s = false.
Proof.
  intros H. repeat split; apply H; unfold markers; cbn [In]; auto 6.
Qed.

Lemma marker_not_nil (marker : Py.str) :
  In marker markers -> marker <> [].
Proof.
  unfold markers. cbn [In].
  intros [<- | [<- | [<- | [<- | [<- | []]]]]]; discriminate.
Qed.

Lemma marker_one_line (marker : Py.str) :
  In marker markers -> ~ In NEWLINE marker.
Proof.
  unfold markers. cbn [In].
  intros [<- | [<- | [<- | [<- | [<- | []]]]]]; not_in_marker.
Qed.

(** The lines of a marker-free text are marker-free. *)
Lemma marker_free_line (s line : Py.str) :
  marker_free s -> In line (Py.split NEWLINE s) -> marker_free line.
Proof.
  intros Hfree Hin marker Hm.
  destruct (Py.contains marker line) eqn:Hc; [|reflexivity].
  rewrite <- (Hfree marker Hm). symmetry.
  exact (split_contains NEWLINE marker s line (marker_not_nil _ Hm) Hin Hc).
Qed.

Lemma contains_type_line (rec_type marker : Py.str) :
  In marker markers ->
  Py.contains marker (type_line rec_type)
  = if Py.str_eq_dec marker RECOMMENDATION_TYPE_marker then true
    else Py.contains marker rec_type.
Proof.
  unfold markers. cbn [In].
  intros [<- | [<- | [<- | [<- | [<- | []]]]]];
    (destruct (Py.str_eq_dec _ RECOMMENDATION_TYPE_marker) as [E|E];
     [try discriminate E | try (exfalso; apply E; reflexivity)]);
    reflexivity.
Qed.

Lemma contains_dash_line (item marker : Py.str) :
  In marker markers ->
  Py.contains marker (dash_line item) = Py.contains marker item.
Proof.
  unfold markers. cbn [In].
  intros [<- | [<- | [<- | [<- | [<- | []]]]]]; reflexivity.
Qed.

Lemma contains_confidence_line (conf marker : Py.str) :
  In marker markers ->
  Py.contains marker (confidence_line conf)
  = if Py.str_eq_dec marker CONFIDENCE_marker then true
    else Py.contains marker conf.
Proof.
  unfold markers. cbn [In].
  intros [<- | [<- | [<- | [<- | [<- | []]]]]];
    (destruct (Py.str_eq_dec _ CONFIDENCE_marker) as [E|E];
     [try discriminate E | try (exfalso; apply E; reflexivity)]);
    reflexivity.
Qed.

Lemma contains_nil (marker : Py.str) :
  In marker markers -> Py.contains marker [] = false.
Proof.
  unfold markers. cbn [In].
  intros [<- | [<- | [<- | [<- | [<- | []]]]]]; reflexivity.
Qed.

Lemma contains_bullets (marker : Py.str) (items : list Py.str) :
  In marker markers -> Forall well_formed_item items ->
  Py.contains marker (bullets items) = false.
Proof.
  intros Hm. induction 1 as [|item items Hitem _ IH].
  - exact (contains_nil marker Hm).
  - unfold bullets in *. cbn [map List.concat].
    replace ((Py.lit "- " ++ item ++ [NEWLINE])
             ++ List.concat
                  (map (fun item0 => Py.lit "- " ++ item0 ++ [NEWLINE])
                     items))
      with (dash_line item
            ++ NEWLINE
               :: List.concat
                    (map (fun item0 => Py.lit "- " ++ item0 ++ [NEWLINE])
                       items))
      by (unfold dash_line; rewrite <- !app_assoc; reflexivity).
    rewrite (contains_app_sep NEWLINE marker (marker_one_line _ Hm)).
    rewrite IH, (contains_dash_line item marker Hm).
    destruct Hitem as (_ & Hfree & _). rewrite (Hfree marker Hm).
    reflexivity.
Qed.

Lemma firstn_length_app {A} (a b : list A) :
  firstn (List.length a) (a ++ b) = a.
Proof.
  induction a as [|x a IH]; [reflexivity|].
  cbn [List.length app firstn]. rewrite IH. reflexivity.
Qed.

Lemma skipn_length_app {A} (a b : list A) :
  skipn (List.length a) (a ++ b) = b.
Proof.
  induction a as [|x a IH]; [reflexivity|]. exact IH.
Qed.

(** [s.find(sub, start)] read off the scan from [start]. *)
Lemma find_of_offset (sub s : Py.str) (start k : nat) :
  (start <= List.length s)%nat ->
  first_offset sub (skipn start s) = Some k ->
  Py.find s sub (Z.of_nat start) = Z.of_nat (start + k).
Proof.
  intros Hstart E. unfold Py.find.
  destruct (Z.ltb_spec (Z.of_nat start) 0) as [Hneg|_]; [lia|].
  destruct (Z.ltb_spec (Z.of_nat (List.length s)) (Z.of_nat start))
    as [Hbig|_]; [lia|].
  rewrite Nat2Z.id, find_from_first_offset, E. lia.
Qed.

Lemma strip_cons_keep (c : Py.char) (s : Py.str) :
  Py.isspace c = false ->
  Py.strip (c :: s) = c :: Py.rstrip_by Py.isspace s.
Proof.
  intros Hc. unfold Py.strip, Py.strip_by. cbn [Py.lstrip_by].
  rewrite Hc. apply rstrip_by_cons_keep. exact Hc.
Qed.

Lemma is_dash_line_dash_line (item : Py.str) :
  is_dash_line (dash_line item) = true.
Proof.
  unfold is_dash_line, dash_line.
  change (Py.lit "- " ++ item) with (45%N :: 32%N :: item).
  rewrite strip_cons_keep by reflexivity. reflexivity.
Qed.

Lemma bullet_text_dash_line (item : Py.str) :
  well_formed_item item -> bullet_text (dash_line item) = item.
Proof.
  intros (_ & _ & Hchars & Hstrip). unfold bullet_text, dash_line.
  change (Py.strip_chars (Py.lit "- ") (Py.lit "- " ++ item))
    with (Py.strip_chars (Py.lit "- ") item).
  rewrite Hchars. exact Hstrip.
Qed.

Lemma map_bullet_text_dash_line (items : list Py.str) :
  Forall well_formed_item items ->
  map bullet_text (map dash_line items) = items.
Proof.
  induction 1 as [|item items Hitem _ IH]; [reflexivity|].
  cbn [map]. rewrite (bullet_text_dash_line item Hitem), IH. reflexivity.
Qed.

Lemma dash_lines_free (items : list Py.str) (marker line : Py.str) :
  In marker markers -> Forall well_formed_item items ->
  In line (map dash_line items) -> Py.contains marker line = false.
Proof.
  intros Hm Hitems Hin. apply in_map_iff in Hin.
  destruct Hin as (item & <- & Hitem).
  rewrite Forall_forall in Hitems.
  destruct (Hitems item Hitem) as (_ & Hfree & _).
  rewrite (contains_dash_line item marker Hm). exact (Hfree marker Hm).
Qed.

(** The scan of a run of bullets. *)
Lemma dash_lines_scanned_items (marker : Py.str) (stop : Py.str -> bool)
    (items : list Py.str) (rest : list Py.str) :
  In marker markers -> Forall well_formed_item items ->
  dash_lines_scanned marker stop (map dash_line items ++ rest)
  = map dash_line items ++ dash_lines_scanned marker stop rest.
Proof.
  intros Hm. induction 1 as [|item items Hitem Hitems IH]; [reflexivity|].
  cbn [map app dash_lines_scanned].
  destruct Hitem as (_ & Hfree & _).
  rewrite (contains_dash_line item marker Hm), (Hfree marker Hm).
  rewrite is_dash_line_dash_line, IH. reflexivity.
Qed.

Lemma after_marker_app_free (marker : Py.str) (pre rest : list Py.str) :
  (forall line, In line pre -> Py.contains marker line = false) ->
  after_marker marker (pre ++ rest) = after_marker marker rest.
Proof.
  induction pre as [|line pre IH]; intros Hfree; [reflexivity|].
  cbn [app after_marker]. rewrite (Hfree line (or_introl eq_refl)).
  apply IH. intros l Hl. apply Hfree. right. exact Hl.
Qed.

Section FormattedReply.
Context `{FloatText}.
Variables (rec_type : Py.str) (factors : list Py.str).
Variables (text_message : Py.str) (tips : list Py.str) (conf : Py.str).
Hypothesis type_ok : well_formed_label rec_type.
Hypothesis factors_ok : Forall well_formed_item factors.
Hypothesis message_ok : well_formed_message text_message.
Hypothesis tips_ok : Forall well_formed_item tips.
Hypothesis conf_ok : well_formed_label conf.

Let reply : Py.str :=
  render_reply rec_type factors text_message tips conf.

Lemma one_line_items (items : list Py.str) :
  Forall well_formed_item items ->
  Forall (fun item => ~ In NEWLINE item) items.
Proof.
  intros Hitems. eapply Forall_impl; [|exact Hitems].
  intros item (Hline & _). exact Hline.
Qed.

Lemma reply_split : Py.split NEWLINE reply
  = reply_lines rec_type factors text_message tips conf.
Proof.
  apply split_render_reply.
  - exact (proj1 type_ok).
  - exact (one_line_items _ factors_ok).
  - exact (one_line_items _ tips_ok).
  - exact (proj1 conf_ok).
Qed.

Lemma reply_contains (marker line : Py.str) :
  In marker markers ->
  In line (reply_lines rec_type factors text_message tips conf) ->
  Py.contains marker line = true ->
  Py.contains marker reply = true.
Proof.
  intros Hm Hin Hc. rewrite <- reply_split in Hin.
  exact (split_contains NEWLINE marker reply line (marker_not_nil _ Hm)
           Hin Hc).
Qed.

Lemma message_lines_free (marker line : Py.str) :
  In marker markers -> In line (Py.split NEWLINE text_message) ->
  Py.contains marker line = false.
Proof.
  intros Hm Hin.
  exact (marker_free_line text_message line (proj1 message_ok) Hin
           marker Hm).
Qed.

Lemma reply_rec_type : extract_rec_type reply = Ok rec_type.
Proof.
  destruct type_ok as (Hline & Hfree & Hstrip).
  assert (Hc : Py.contains RECOMMENDATION_TYPE_marker reply = true).
  { apply (reply_contains _ (type_line rec_type)).
    - unfold markers. cbn [In]. auto.
    - unfold reply_lines. left. reflexivity.
    - reflexivity. }
  unfold extract_rec_type. rewrite Hc, reply_split. unfold reply_lines.
  cbn [app filter].
  change (Py.contains RECOMMENDATION_TYPE_marker (type_line rec_type))
    with true.
  cbv iota. cbn [index nth_error bind].
  change (type_line rec_type)
    with (Py.lit "RECOMMENDATION_TYPE" ++ COLON :: 32%N :: rec_type).
  rewrite split_once_app by not_in_marker.
  cbn [index nth_error bind]. rewrite strip_after_blank, Hstrip.
  reflexivity.
Qed.

Lemma reply_key_factors : extract_key_factors reply = factors.
Proof.
  destruct (marker_free_each _ (proj1 (proj2 type_ok)))
    as (_ & Htype & _).
  assert (Hc : Py.contains KEY_FACTORS_marker reply = true).
  { apply (reply_contains _ KEY_FACTORS_marker).
    - unfold markers. cbn [In]. auto.
    - unfold reply_lines. right. right. left. reflexivity.
    - reflexivity. }
  unfold extract_key_factors.
  rewrite Hc, reply_split, key_factors_loop_out, key_factors_loop_in.
  unfold reply_lines. cbn [app after_marker].
  rewrite (contains_type_line rec_type KEY_FACTORS_marker)
    by (unfold markers; cbn [In]; auto).
  destruct (Py.str_eq_dec KEY_FACTORS_marker RECOMMENDATION_TYPE_marker)
    as [E|_]; [discriminate E|].
  rewrite Htype.
  change (Py.contains KEY_FACTORS_marker []) with false.
  change (Py.contains KEY_FACTORS_marker KEY_FACTORS_marker) with true.
  cbv iota.
  rewrite dash_lines_scanned_items;
    [|unfold markers; cbn [In]; auto | exact factors_ok].
  cbn [dash_lines_scanned].
  change (Py.contains KEY_FACTORS_marker []) with false.
  change (is_dash_line []) with false.
  change (is_blank_line []) with true.
  change (Py.contains KEY_FACTORS_marker MESSAGE_marker) with false.
  change (is_dash_line MESSAGE_marker) with false.
  change (is_blank_line MESSAGE_marker) with false.
  cbn [negb]. cbv iota. rewrite app_nil_r.
  exact (map_bullet_text_dash_line factors factors_ok).
Qed.

Lemma reply_specific_tips : extract_specific_tips reply = tips.
Proof.
  destruct (marker_free_each _ (proj1 (proj2 type_ok)))
    as (_ & _ & _ & Htype & _).
  destruct (marker_free_each _ (proj1 (proj2 conf_ok)))
    as (_ & _ & _ & Hconf & _).
  assert (Hm : In SPECIFIC_TIPS_marker markers)
    by (unfold markers; cbn [In]; auto 6).
  assert (Hc : Py.contains SPECIFIC_TIPS_marker reply = true).
  { apply (reply_contains _ SPECIFIC_TIPS_marker Hm); [|reflexivity].
    unfold reply_lines. apply in_or_app. right. apply in_or_app. right.
    apply in_or_app. right. apply in_or_app. right.
    apply in_or_app. left. right. left. reflexivity. }
  unfold extract_specific_tips.
  rewrite Hc, reply_split, specific_tips_loop_out, specific_tips_loop_in.
  unfold reply_lines. cbn [app after_marker].
  rewrite (contains_type_line rec_type SPECIFIC_TIPS_marker Hm).
  destruct (Py.str_eq_dec SPECIFIC_TIPS_marker RECOMMENDATION_TYPE_marker)
    as [E|_]; [discriminate E|].
  rewrite Htype.
  change (Py.contains SPECIFIC_TIPS_marker []) with false.
  change (Py.contains SPECIFIC_TIPS_marker KEY_FACTORS_marker) with false.
  cbv iota.
  rewrite (after_marker_app_free SPECIFIC_TIPS_marker
             (map dash_line factors))
    by (intros line; apply dash_lines_free; assumption).
  cbn [after_marker].
  change (Py.contains SPECIFIC_TIPS_marker []) with false.
  change (Py.contains SPECIFIC_TIPS_marker MESSAGE_marker) with false.
  cbv iota.
  rewrite (after_marker_app_free SPECIFIC_TIPS_marker
             (Py.split NEWLINE text_message))
    by (intros line; apply message_lines_free; assumption).
  cbn [after_marker].
  change (Py.contains SPECIFIC_TIPS_marker []) with false.
  change (Py.contains SPECIFIC_TIPS_marker SPECIFIC_TIPS_marker) with true.
  cbv iota.
  rewrite dash_lines_scanned_items; [|exact Hm | exact tips_ok].
  cbn [dash_lines_scanned].
  change (Py.contains SPECIFIC_TIPS_marker []) with false.
  change (is_dash_line []) with false.
  change (Py.contains CONFIDENCE_marker []) with false.
  rewrite (contains_confidence_line conf SPECIFIC_TIPS_marker Hm).
  destruct (Py.str_eq_dec SPECIFIC_TIPS_marker CONFIDENCE_marker)
    as [E|_]; [discriminate E|].
  rewrite Hconf.
  assert (Hdash : is_dash_line (confidence_line conf) = false).
  { unfold is_dash_line, confidence_line.
    change (Py.lit "CONFIDENCE: " ++ conf)
      with (67%N :: (Py.lit "ONFIDENCE: " ++ conf)).
    rewrite strip_cons_keep by reflexivity. reflexivity. }
  rewrite Hdash.
  change (Py.contains CONFIDENCE_marker (confidence_line conf)) with true.
  cbv iota. rewrite app_nil_r.
  exact (map_bullet_text_dash_line tips tips_ok).
Qed.

Lemma reply_confidence :
  extract_confidence reply
  = Ok (match float_of_str conf with
        | Some x => x
        | None => 0.8%float
        end).
Proof.
  destruct conf_ok as (Hline & Hfree & Hstrip).
  destruct (marker_free_each _ (proj1 (proj2 type_ok)))
    as (_ & _ & _ & _ & Htype).
  assert (Hm : In CONFIDENCE_marker markers)
    by (unfold markers; cbn [In]; auto 6).
  assert (Hc : Py.contains CONFIDENCE_marker reply = true).
  { apply (reply_contains _ (confidence_line conf) Hm); [|reflexivity].
    unfold reply_lines. apply in_or_app. right. apply in_or_app. right.
    apply in_or_app. right. apply in_or_app. right.
    apply in_or_app. right. apply in_or_app. right.
    right. left. reflexivity. }
  unfold extract_confidence. rewrite Hc, reply_split. unfold reply_lines.
  cbn [app filter].
  rewrite (contains_type_line rec_type CONFIDENCE_marker Hm).
  destruct (Py.str_eq_dec CONFIDENCE_marker RECOMMENDATION_TYPE_marker)
    as [E|_]; [discriminate E|].
  rewrite Htype.
  change (Py.contains CONFIDENCE_marker []) with false.
  change (Py.contains CONFIDENCE_marker KEY_FACTORS_marker) with false.
  cbv iota.
  rewrite filter_app.
  rewrite (filter_none _ (map dash_line factors))
    by (intros line; apply dash_lines_free; assumption).
  cbn [app filter].
  change (Py.contains CONFIDENCE_marker []) with false.
  change (Py.contains CONFIDENCE_marker MESSAGE_marker) with false.
  cbv iota.
  rewrite filter_app.
  rewrite (filter_none _ (Py.split NEWLINE text_message))
    by (intros line; apply message_lines_free; assumption).
  cbn [app filter].
  change (Py.contains CONFIDENCE_marker []) with false.
  change (Py.contains CONFIDENCE_marker SPECIFIC_TIPS_marker) with false.
  cbv iota.
  rewrite filter_app.
  rewrite (filter_none _ (map dash_line tips))
    by (intros line; apply dash_lines_free; assumption).
  cbn [app filter].
  change (Py.contains CONFIDENCE_marker []) with false.
  change (Py.contains CONFIDENCE_marker (confidence_line conf)) with true.
  cbv iota. cbn [index nth_error bind].
  change (confidence_line conf)
    with (Py.lit "CONFIDENCE" ++ COLON :: 32%N :: conf).
  rewrite split_once_app by not_in_marker.
  cbn [index nth_error bind]. rewrite strip_after_blank, Hstrip.
  reflexivity.
Qed.

Lemma reply_message : extract_message reply = text_message.
Proof.
  destruct message_ok as (Hfree & Hstrip).
  destruct (marker_free_each _ Hfree) as (_ & _ & _ & Hmsg_tips & _).
  destruct (marker_free_each _ (proj1 (proj2 type_ok)))
    as (_ & _ & Htype & _).
  assert (Hm : In MESSAGE_marker markers)
    by (unfold markers; cbn [In]; auto 6).
  set (head := render_head rec_type factors).
  set (tail := render_tail text_message tips conf).
  assert (Hreply : reply = head ++ MESSAGE_marker ++ tail) by reflexivity.
  (* the first [MESSAGE:] is the one of the format *)
  assert (Hfirst : first_at MESSAGE_marker reply 0 (List.length head)).
  { apply first_offset_sound. rewrite Hreply.
    assert (Hhead : head
                    = (type_line rec_type
                       ++ NEWLINE
                          :: ([] ++ NEWLINE
                              :: (KEY_FACTORS_marker
                                  ++ NEWLINE :: bullets factors)))
                      ++ [NEWLINE]).
    { unfold head, render_head, type_line. rewrite <- !app_assoc.
      reflexivity. }
    rewrite Hhead at 1. rewrite <- app_assoc. cbn [app].
    rewrite (first_offset_skip NEWLINE MESSAGE_marker
               (marker_one_line _ Hm)).
    - change (first_offset MESSAGE_marker (MESSAGE_marker ++ tail))
        with (Some O).
      cbn [option_map]. f_equal. rewrite Hhead. cbn [app].
      rewrite !length_app. cbn [List.length]. rewrite !length_app.
      cbn [List.length]. lia.
    - change (NEWLINE :: KEY_FACTORS_marker ++ NEWLINE :: bullets factors)
        with ([] ++ NEWLINE
              :: (KEY_FACTORS_marker ++ NEWLINE :: bullets factors)).
      rewrite !(contains_app_sep NEWLINE MESSAGE_marker
                  (marker_one_line _ Hm)).
      rewrite (contains_type_line rec_type MESSAGE_marker Hm).
      destruct (Py.str_eq_dec MESSAGE_marker RECOMMENDATION_TYPE_marker)
        as [E|_]; [discriminate E|].
      rewrite Htype, (contains_bullets MESSAGE_marker factors Hm factors_ok).
      reflexivity. }
  (* the text after the marker, and the first [SPECIFIC_TIPS:] in it *)
  assert (Hskip : skipn (List.length head + List.length MESSAGE_marker)
                    reply = tail).
  { rewrite Hreply, app_assoc, <- length_app. apply skipn_length_app. }
  assert (Htail : tail
                  = (NEWLINE :: text_message ++ [NEWLINE; NEWLINE])
                    ++ SPECIFIC_TIPS_marker
                    ++ [NEWLINE] ++ bullets tips ++ [NEWLINE]
                    ++ Py.lit "CONFIDENCE: " ++ conf).
  { unfold tail, render_tail. cbn [app]. rewrite <- !app_assoc.
    reflexivity. }
  assert (Hoffset : first_offset SPECIFIC_TIPS_marker tail
                    = Some (List.length text_message + 3)%nat).
  { assert (Hm' : In SPECIFIC_TIPS_marker markers)
      by (unfold markers; cbn [In]; auto 6).
    assert (E : tail
                = (NEWLINE :: text_message)
                  ++ NEWLINE
                     :: ([] ++ NEWLINE
                         :: (SPECIFIC_TIPS_marker
                             ++ [NEWLINE] ++ bullets tips ++ [NEWLINE]
                             ++ Py.lit "CONFIDENCE: " ++ conf))).
    { rewrite Htail. cbn [app]. rewrite <- !app_assoc. reflexivity. }
    rewrite E.
    rewrite (first_offset_skip NEWLINE SPECIFIC_TIPS_marker
               (marker_one_line _ Hm')).
    2: { cbn [Py.contains].
         change (Py.startswith SPECIFIC_TIPS_marker
                   (NEWLINE :: text_message)) with false.
         rewrite Hmsg_tips. reflexivity. }
    rewrite (first_offset_skip NEWLINE SPECIFIC_TIPS_marker
               (marker_one_line _ Hm')) by reflexivity.
    change (first_offset SPECIFIC_TIPS_marker
              (SPECIFIC_TIPS_marker
               ++ [NEWLINE] ++ bullets tips ++ [NEWLINE]
               ++ Py.lit "CONFIDENCE: " ++ conf))
      with (Some O).
    cbn [option_map List.length]. f_equal. lia. }
  assert (Hlen : List.length reply
                 = (List.length head + List.length MESSAGE_marker
                    + List.length tail)%nat)
    by (rewrite Hreply, !length_app; lia).
  assert (Htail_len : (List.length text_message + 3
                       <= List.length tail)%nat).
  { rewrite Htail, length_app. cbn [List.length]. rewrite length_app.
    cbn [List.length]. lia. }
  rewrite (extract_message_until reply (List.length head)
             (List.length head + List.length MESSAGE_marker
              + (List.length text_message + 3)) Hfirst).
  - rewrite Hskip.
    replace (List.length head + List.length MESSAGE_marker
             + (List.length text_message + 3)
             - (List.length head + List.length MESSAGE_marker))%nat
      with (List.length (NEWLINE :: text_message ++ [NEWLINE; NEWLINE]))
      by (cbn [List.length]; rewrite length_app; cbn [List.length]; lia).
    rewrite Htail, firstn_length_app. exact (strip_framed _ Hstrip).
  - lia.
  - lia.
  - cbv zeta.
    rewrite (find_of_offset SPECIFIC_TIPS_marker reply
               (List.length head + List.length MESSAGE_marker)
               (List.length text_message + 3));
      [|lia | rewrite Hskip; exact Hoffset].
    destruct (Z.eqb_spec
                (Z.of_nat (List.length head + List.length MESSAGE_marker
                           + (List.length text_message + 3))) (-1));
      [lia | reflexivity].
Qed.

(** X17. The parser on a reply in the format of the prompt. For a type
    and a confidence that are one line each, bullets that are one line
    each with no dash or blank at either end, and a message of any number
    of lines with no blank at either end, none of them containing a
    marker: the parser returns the type as written, whether or not it is
    one of the five types; the factors as written, or the synthesized
    ones when no factor is written; the message as written when there is
    no tip, and otherwise the message followed by an empty line, the line
    "Specific Tips:" and one line per tip, the tip after a bullet and a
    blank; and the confidence that [float] reads, whatever its range, or
    0.8 when [float] refuses it. *)
Theorem parse_ai_response_formatted (target_date : date)
    (sleep_data : SleepData) (readiness_data : ReadinessData)
    (activity_data : ActivityData) :
  parse_ai_response reply target_date sleep_data readiness_data
    activity_data
  = {| rec_date := target_date;
       recommendation_type := rec_type;
       message :=
         match tips with
         | [] => text_message
         | _ :: _ =>
             text_message ++ Py.lit "

Specific Tips:
" ++ Py.join [NEWLINE] (map (fun tip => [8226%N; 32%N] ++ tip) tips)
         end;
       confidence := match float_of_str conf with
                     | Some x => x
                     | None => 0.8%float
                     end;
       key_factors :=
         match factors with
         | [] => generate_key_factors sleep_data readiness_data
                   activity_data
         | _ :: _ => factors
         end |}.
Proof.
  unfold parse_ai_response, parse_try.
  rewrite reply_rec_type, reply_confidence, reply_key_factors,
    reply_message, reply_specific_tips.
  reflexivity.
Qed.

End FormattedReply.

Ltac solve_one_line :=
  let Hin := fresh "Hin" in
  intros Hin; cbn in Hin;
  repeat (destruct Hin as [Hin | Hin]; [discriminate Hin|]); exact Hin.

Ltac solve_marker_free :=
  let marker := fresh "marker" in
  let Hm := fresh "Hm" in
  intros marker Hm; unfold markers in Hm; cbn [In] in Hm;
  repeat (destruct Hm as [<- | Hm]; [reflexivity|]); destruct Hm.

Ltac solve_item :=
  split; [solve_one_line | split; [solve_marker_free | split; reflexivity]].

Lemma parse_ai_response_formatted_witness :
  well_formed_label (Py.lit "go_for_it")
  /\ parse_ai_response
       (render_reply (Py.lit "go_for_it")
          [ Py.lit "Sleep was great"; Py.lit "Readiness is low" ]
          (Py.lit "Take it easy today.")
          [ Py.lit "Hydrate"; Py.lit "Stretch" ]
          (Py.lit "7.5"))
       Sample.today (Sample.sleep_of 90 27000)
       (Sample.readiness_of 45 None) (Sample.activity_of 3000)
     = {| rec_date := Sample.today;
          recommendation_type := Py.lit "go_for_it";
          message :=
            Py.lit "Take it easy today.

Specific Tips:
" ++ [8226%N; 32%N] ++ Py.lit "Hydrate
" ++ [8226%N; 32%N] ++ Py.lit "Stretch";
          confidence := 7.5%float;
          key_factors :=
            [ Py.lit "Sleep was great"; Py.lit "Readiness is low" ] |}.
Proof.
  assert (Htype : well_formed_label (Py.lit "go_for_it"))
    by (split; [solve_one_line | split; [solve_marker_free | reflexivity]]).
  split; [exact Htype|].
  refine (parse_ai_response_formatted (Py.lit "go_for_it")
            [ Py.lit "Sleep was great"; Py.lit "Readiness is low" ]
            (Py.lit "Take it easy today.")
            [ Py.lit "Hydrate"; Py.lit "Stretch" ]
            (Py.lit "7.5") Htype _ _ _ _
            Sample.today (Sample.sleep_of 90 27000)
            (Sample.readiness_of 45 None) (Sample.activity_of 3000)).
  - repeat (apply Forall_cons; [solve_item|]). apply Forall_nil.
  - split; [solve_marker_free | reflexivity].
  - repeat (apply Forall_cons; [solve_item|]). apply Forall_nil.
  - split; [solve_one_line | split; [solve_marker_free | reflexivity]].
Defined.

(* ================================================================== *)
(** ** The prompt and the markers *)
(* ================================================================== *)

Lemma contains_app_r (sub a b : Py.str) :
  Py.contains sub b = true -> Py.contains sub (a ++ b) = true.
Proof.
  intros Hb. induction a as [|c a IH]; [exact Hb|].
  cbn [app Py.contains]. rewrite IH. apply orb_true_r.
Qed.

(** X18. Every prompt that is built asks for the five markers: each of
    [RECOMMENDATION_TYPE:], [KEY_FACTORS:], [MESSAGE:], [SPECIFIC_TIPS:]
    and [CONFIDENCE:] occurs in it, whatever the records. *)
Theorem prompt_names_the_markers `{FloatText} (sleep_data : SleepData)
    (readiness_data : ReadinessData) (activity_data : ActivityData)
    (prompt marker : Py.str) :
  build_analysis_prompt sleep_data readiness_data activity_data
    = Ok prompt ->
  In marker markers ->
  Py.contains marker prompt = true.
Proof.
  intros Hbuild Hm. unfold build_analysis_prompt in Hbuild.
  repeat match type of Hbuild with
         | bind ?c _ = _ =>
             destruct c; cbn [bind] in Hbuild; [|discriminate Hbuild]
         end.
  apply (f_equal (fun r => match r with Ok p => p | Raise _ => [] end))
    in Hbuild.
  cbv beta iota in Hbuild. subst prompt.
  rewrite !app_assoc. apply contains_app_r.
  unfold markers in Hm. cbn [In] in Hm.
  repeat (destruct Hm as [<- | Hm]; [vm_compute; reflexivity|]).
  destruct Hm.
Qed.

Lemma prompt_names_the_markers_witness :
  In CONFIDENCE_marker markers
  /\ exists prompt,
       build_analysis_prompt (Sample.sleep_of 90 27000)
         (Sample.readiness_of 45 None) (Sample.activity_of 3000)
       = Ok prompt
       /\ Py.contains CONFIDENCE_marker prompt = true.
Proof.
  assert (Hm : In CONFIDENCE_marker markers)
    by (unfold markers; cbn [In]; auto 6).
  split; [exact Hm|].
  assert (Hp : exists prompt,
             build_analysis_prompt (Sample.sleep_of 90 27000)
               (Sample.readiness_of 45 None) (Sample.activity_of 3000)
             = Ok prompt)
    by (vm_compute; eexists; reflexivity).
  destruct Hp as [prompt Hp]. exists prompt. split; [exact Hp|].
  exact (prompt_names_the_markers (Sample.sleep_of 90 27000)
           (Sample.readiness_of 45 None) (Sample.activity_of 3000)
           prompt CONFIDENCE_marker Hp Hm).
Defined.
